(** * Academic Research Collaborator: response parsing and session memory

    A shallow embedding of the agents of [backend/agents]:
    - [base.py]: the memory store and the generation gateway,
    - [literature_review_agent.py], [hypothesis_validator_agent.py] and
      [draft_polisher_agent.py]: the three task agents and their extractors.

    Python [str] values are sequences of Unicode code points.  [str.upper],
    [str.isalnum] (the class [\w] of the regular expressions) and
    [str.isspace] follow the Unicode database of CPython 3.11 (Unicode
    14.0.0), tabulated below for the code points above U+007F.  [str.lower]
    is used by the source only to look for five lower-case ASCII keywords;
    it is given on the ASCII letters, which decides those tests: the only
    other code points whose lower-case form holds an ASCII letter are
    U+0130 (an i followed by U+0307) and U+212A (a k), and no keyword has a
    k, or an i at its end.

    The agents run in a small state-and-exception monad over a [world]
    that holds the backing file and the two external services (the
    generative model and the clock).  A save is not atomic: the file is
    opened for writing, which empties it, and the document is then
    written piece by piece, so a save that fails half-way leaves a
    truncated file.  The prompt templates are f-strings whose text only
    reaches the model: they are parameters of the agents.  Inputs are the
    values read by [input_data.get], defaults applied. *)

From Stdlib Require Import List NArith ZArith QArith Bool Ascii String Lia Permutation.
Import ListNotations.

Close Scope Q_scope.

(* ================================================================== *)
(** ** Python strings *)
(* ================================================================== *)

Module Text.

Definition char := N.
Definition str := list char.

(** A literal of the source. *)
Definition lit (s : string) : str :=
  List.map N_of_ascii (list_ascii_of_string s).

Definition newline : char := 10%N.
Definition bullet : char := 8226%N.   (* U+2022 *)

Definition between (lo hi c : N) : bool := (lo <=? c)%N && (c <=? hi)%N.

Definition is_lower (c : char) : bool := between 97 122 c.
Definition is_upper (c : char) : bool := between 65 90 c.
Definition is_digit (c : char) : bool := between 48 57 c.

Definition is_ascii (c : char) : bool := (c <? 128)%N.

(** Upper-case forms of the code points above U+007F.  A row
    [(lo, hi, step, target)] maps [lo + k * step], up to [hi], to
    [target + k * step]. *)
Definition upper_runs : list (N * N * N * N) :=
  [
   (181, 181, 1, 924); (224, 246, 1, 192); (248, 254, 1, 216);
   (255, 255, 1, 376); (257, 303, 2, 256); (305, 305, 1, 73);
   (307, 311, 2, 306); (314, 328, 2, 313); (331, 375, 2, 330);
   (378, 382, 2, 377); (383, 383, 1, 83); (384, 384, 1, 579);
   (387, 389, 2, 386); (392, 392, 1, 391); (396, 396, 1, 395);
   (402, 402, 1, 401); (405, 405, 1, 502); (409, 409, 1, 408);
   (410, 410, 1, 573); (414, 414, 1, 544); (417, 421, 2, 416);
   (424, 424, 1, 423); (429, 429, 1, 428); (432, 432, 1, 431);
   (436, 438, 2, 435); (441, 441, 1, 440); (445, 445, 1, 444);
   (447, 447, 1, 503); (453, 453, 1, 452); (454, 454, 1, 452);
   (456, 456, 1, 455); (457, 457, 1, 455); (459, 459, 1, 458);
   (460, 460, 1, 458); (462, 476, 2, 461); (477, 477, 1, 398);
   (479, 495, 2, 478); (498, 498, 1, 497); (499, 499, 1, 497);
   (501, 501, 1, 500); (505, 543, 2, 504); (547, 563, 2, 546);
   (572, 572, 1, 571); (575, 576, 1, 11390); (578, 578, 1, 577);
   (583, 591, 2, 582); (592, 592, 1, 11375); (593, 593, 1, 11373);
   (594, 594, 1, 11376); (595, 595, 1, 385); (596, 596, 1, 390);
   (598, 599, 1, 393); (601, 601, 1, 399); (603, 603, 1, 400);
   (604, 604, 1, 42923); (608, 608, 1, 403); (609, 609, 1, 42924);
   (611, 611, 1, 404); (613, 613, 1, 42893); (614, 614, 1, 42922);
   (616, 616, 1, 407); (617, 617, 1, 406); (618, 618, 1, 42926);
   (619, 619, 1, 11362); (620, 620, 1, 42925); (623, 623, 1, 412);
   (625, 625, 1, 11374); (626, 626, 1, 413); (629, 629, 1, 415);
   (637, 637, 1, 11364); (640, 640, 1, 422); (642, 642, 1, 42949);
   (643, 643, 1, 425); (647, 647, 1, 42929); (648, 648, 1, 430);
   (649, 649, 1, 580); (650, 651, 1, 433); (652, 652, 1, 581);
   (658, 658, 1, 439); (669, 669, 1, 42930); (670, 670, 1, 42928);
   (837, 837, 1, 921); (881, 883, 2, 880); (887, 887, 1, 886);
   (891, 893, 1, 1021); (940, 940, 1, 902); (941, 943, 1, 904);
   (945, 961, 1, 913); (962, 962, 1, 931); (963, 971, 1, 931);
   (972, 972, 1, 908); (973, 974, 1, 910); (976, 976, 1, 914);
   (977, 977, 1, 920); (981, 981, 1, 934); (982, 982, 1, 928);
   (983, 983, 1, 975); (985, 1007, 2, 984); (1008, 1008, 1, 922);
   (1009, 1009, 1, 929); (1010, 1010, 1, 1017); (1011, 1011, 1, 895);
   (1013, 1013, 1, 917); (1016, 1016, 1, 1015); (1019, 1019, 1, 1018);
   (1072, 1103, 1, 1040); (1104, 1119, 1, 1024); (1121, 1153, 2, 1120);
   (1163, 1215, 2, 1162); (1218, 1230, 2, 1217); (1231, 1231, 1, 1216);
   (1233, 1327, 2, 1232); (1377, 1414, 1, 1329); (4304, 4346, 1, 7312);
   (4349, 4351, 1, 7357); (5112, 5117, 1, 5104); (7296, 7296, 1, 1042);
   (7297, 7297, 1, 1044); (7298, 7298, 1, 1054); (7299, 7300, 1, 1057);
   (7301, 7301, 1, 1058); (7302, 7302, 1, 1066); (7303, 7303, 1, 1122);
   (7304, 7304, 1, 42570); (7545, 7545, 1, 42877); (7549, 7549, 1, 11363);
   (7566, 7566, 1, 42950); (7681, 7829, 2, 7680); (7835, 7835, 1, 7776);
   (7841, 7935, 2, 7840); (7936, 7943, 1, 7944); (7952, 7957, 1, 7960);
   (7968, 7975, 1, 7976); (7984, 7991, 1, 7992); (8000, 8005, 1, 8008);
   (8017, 8023, 2, 8025); (8032, 8039, 1, 8040); (8048, 8049, 1, 8122);
   (8050, 8053, 1, 8136); (8054, 8055, 1, 8154); (8056, 8057, 1, 8184);
   (8058, 8059, 1, 8170); (8060, 8061, 1, 8186); (8112, 8113, 1, 8120);
   (8126, 8126, 1, 921); (8144, 8145, 1, 8152); (8160, 8161, 1, 8168);
   (8165, 8165, 1, 8172); (8526, 8526, 1, 8498); (8560, 8575, 1, 8544);
   (8580, 8580, 1, 8579); (9424, 9449, 1, 9398); (11312, 11359, 1, 11264);
   (11361, 11361, 1, 11360); (11365, 11365, 1, 570); (11366, 11366, 1, 574);
   (11368, 11372, 2, 11367); (11379, 11379, 1, 11378);
   (11382, 11382, 1, 11381); (11393, 11491, 2, 11392);
   (11500, 11502, 2, 11499); (11507, 11507, 1, 11506);
   (11520, 11557, 1, 4256); (11559, 11559, 1, 4295);
   (11565, 11565, 1, 4301); (42561, 42605, 2, 42560);
   (42625, 42651, 2, 42624); (42787, 42799, 2, 42786);
   (42803, 42863, 2, 42802); (42874, 42876, 2, 42873);
   (42879, 42887, 2, 42878); (42892, 42892, 1, 42891);
   (42897, 42899, 2, 42896); (42900, 42900, 1, 42948);
   (42903, 42921, 2, 42902); (42933, 42947, 2, 42932);
   (42952, 42954, 2, 42951); (42961, 42961, 1, 42960);
   (42967, 42969, 2, 42966); (42998, 42998, 1, 42997);
   (43859, 43859, 1, 42931); (43888, 43967, 1, 5024);
   (65345, 65370, 1, 65313); (66600, 66639, 1, 66560);
   (66776, 66811, 1, 66736); (66967, 67003, 2, 66928);
   (66968, 66977, 1, 66929); (66980, 66993, 1, 66941);
   (66996, 67001, 1, 66957); (67004, 67004, 1, 66965);
   (68800, 68850, 1, 68736); (71872, 71903, 1, 71840);
   (93792, 93823, 1, 93760); (125218, 125251, 1, 125184)
  ]%N.

(** The code points whose upper-case form has several code points. *)
Definition upper_special : list (N * list N) :=
  [
   (223, [83; 83]); (329, [700; 78]); (496, [74; 780]);
   (912, [921; 776; 769]); (944, [933; 776; 769]); (1415, [1333; 1362]);
   (7830, [72; 817]); (7831, [84; 776]); (7832, [87; 778]);
   (7833, [89; 778]); (7834, [65; 702]); (8016, [933; 787]);
   (8018, [933; 787; 768]); (8020, [933; 787; 769]);
   (8022, [933; 787; 834]); (8064, [7944; 921]); (8065, [7945; 921]);
   (8066, [7946; 921]); (8067, [7947; 921]); (8068, [7948; 921]);
   (8069, [7949; 921]); (8070, [7950; 921]); (8071, [7951; 921]);
   (8072, [7944; 921]); (8073, [7945; 921]); (8074, [7946; 921]);
   (8075, [7947; 921]); (8076, [7948; 921]); (8077, [7949; 921]);
   (8078, [7950; 921]); (8079, [7951; 921]); (8080, [7976; 921]);
   (8081, [7977; 921]); (8082, [7978; 921]); (8083, [7979; 921]);
   (8084, [7980; 921]); (8085, [7981; 921]); (8086, [7982; 921]);
   (8087, [7983; 921]); (8088, [7976; 921]); (8089, [7977; 921]);
   (8090, [7978; 921]); (8091, [7979; 921]); (8092, [7980; 921]);
   (8093, [7981; 921]); (8094, [7982; 921]); (8095, [7983; 921]);
   (8096, [8040; 921]); (8097, [8041; 921]); (8098, [8042; 921]);
   (8099, [8043; 921]); (8100, [8044; 921]); (8101, [8045; 921]);
   (8102, [8046; 921]); (8103, [8047; 921]); (8104, [8040; 921]);
   (8105, [8041; 921]); (8106, [8042; 921]); (8107, [8043; 921]);
   (8108, [8044; 921]); (8109, [8045; 921]); (8110, [8046; 921]);
   (8111, [8047; 921]); (8114, [8122; 921]); (8115, [913; 921]);
   (8116, [902; 921]); (8118, [913; 834]); (8119, [913; 834; 921]);
   (8124, [913; 921]); (8130, [8138; 921]); (8131, [919; 921]);
   (8132, [905; 921]); (8134, [919; 834]); (8135, [919; 834; 921]);
   (8140, [919; 921]); (8146, [921; 776; 768]); (8147, [921; 776; 769]);
   (8150, [921; 834]); (8151, [921; 776; 834]); (8162, [933; 776; 768]);
   (8163, [933; 776; 769]); (8164, [929; 787]); (8166, [933; 834]);
   (8167, [933; 776; 834]); (8178, [8186; 921]); (8179, [937; 921]);
   (8180, [911; 921]); (8182, [937; 834]); (8183, [937; 834; 921]);
   (8188, [937; 921]); (64256, [70; 70]); (64257, [70; 73]);
   (64258, [70; 76]); (64259, [70; 70; 73]); (64260, [70; 70; 76]);
   (64261, [83; 84]); (64262, [83; 84]); (64275, [1348; 1350]);
   (64276, [1348; 1333]); (64277, [1348; 1339]); (64278, [1358; 1350]);
   (64279, [1348; 1341])
  ]%N.

Fixpoint run_lookup (c : char) (runs : list (N * N * N * N)) : option char :=
  match runs with
  | [] => None
  | (lo, hi, step, target) :: rest =>
      if between lo hi c && ((c - lo) mod step =? 0)%N
      then Some (target + (c - lo))%N
      else run_lookup c rest
  end.

Fixpoint special_lookup (c : char) (rows : list (N * list N))
  : option (list char) :=
  match rows with
  | [] => None
  | (d, u) :: rest => if (c =? d)%N then Some u else special_lookup c rest
  end.

(** [c.upper()] for a single code point: one or more code points. *)
Definition upper_char (c : char) : list char :=
  if is_ascii c then [if is_lower c then (c - 32)%N else c]
  else match special_lookup c upper_special with
       | Some u => u
       | None =>
           match run_lookup c upper_runs with
           | Some u => [u]
           | None => [c]
           end
       end.

Definition lower_char (c : char) : char := if is_upper c then (c + 32)%N else c.

(** [s.upper()] and [s.lower()] *)
Definition upper (s : str) : str := List.flat_map upper_char s.
Definition lower (s : str) : str := List.map lower_char s.

Arguments upper_char c : simpl never.

(** The ranges of the code points above U+007F for which [c.isalnum()]
    holds. *)
Definition alnum_ranges : list (N * N) :=
  [
   (170, 170); (178, 179); (181, 181); (185, 186); (188, 190); (192, 214);
   (216, 246); (248, 705); (710, 721); (736, 740); (748, 748); (750, 750);
   (880, 884); (886, 887); (890, 893); (895, 895); (902, 902); (904, 906);
   (908, 908); (910, 929); (931, 1013); (1015, 1153); (1162, 1327);
   (1329, 1366); (1369, 1369); (1376, 1416); (1488, 1514); (1519, 1522);
   (1568, 1610); (1632, 1641); (1646, 1647); (1649, 1747); (1749, 1749);
   (1765, 1766); (1774, 1788); (1791, 1791); (1808, 1808); (1810, 1839);
   (1869, 1957); (1969, 1969); (1984, 2026); (2036, 2037); (2042, 2042);
   (2048, 2069); (2074, 2074); (2084, 2084); (2088, 2088); (2112, 2136);
   (2144, 2154); (2160, 2183); (2185, 2190); (2208, 2249); (2308, 2361);
   (2365, 2365); (2384, 2384); (2392, 2401); (2406, 2415); (2417, 2432);
   (2437, 2444); (2447, 2448); (2451, 2472); (2474, 2480); (2482, 2482);
   (2486, 2489); (2493, 2493); (2510, 2510); (2524, 2525); (2527, 2529);
   (2534, 2545); (2548, 2553); (2556, 2556); (2565, 2570); (2575, 2576);
   (2579, 2600); (2602, 2608); (2610, 2611); (2613, 2614); (2616, 2617);
   (2649, 2652); (2654, 2654); (2662, 2671); (2674, 2676); (2693, 2701);
   (2703, 2705); (2707, 2728); (2730, 2736); (2738, 2739); (2741, 2745);
   (2749, 2749); (2768, 2768); (2784, 2785); (2790, 2799); (2809, 2809);
   (2821, 2828); (2831, 2832); (2835, 2856); (2858, 2864); (2866, 2867);
   (2869, 2873); (2877, 2877); (2908, 2909); (2911, 2913); (2918, 2927);
   (2929, 2935); (2947, 2947); (2949, 2954); (2958, 2960); (2962, 2965);
   (2969, 2970); (2972, 2972); (2974, 2975); (2979, 2980); (2984, 2986);
   (2990, 3001); (3024, 3024); (3046, 3058); (3077, 3084); (3086, 3088);
   (3090, 3112); (3114, 3129); (3133, 3133); (3160, 3162); (3165, 3165);
   (3168, 3169); (3174, 3183); (3192, 3198); (3200, 3200); (3205, 3212);
   (3214, 3216); (3218, 3240); (3242, 3251); (3253, 3257); (3261, 3261);
   (3293, 3294); (3296, 3297); (3302, 3311); (3313, 3314); (3332, 3340);
   (3342, 3344); (3346, 3386); (3389, 3389); (3406, 3406); (3412, 3414);
   (3416, 3425); (3430, 3448); (3450, 3455); (3461, 3478); (3482, 3505);
   (3507, 3515); (3517, 3517); (3520, 3526); (3558, 3567); (3585, 3632);
   (3634, 3635); (3648, 3654); (3664, 3673); (3713, 3714); (3716, 3716);
   (3718, 3722); (3724, 3747); (3749, 3749); (3751, 3760); (3762, 3763);
   (3773, 3773); (3776, 3780); (3782, 3782); (3792, 3801); (3804, 3807);
   (3840, 3840); (3872, 3891); (3904, 3911); (3913, 3948); (3976, 3980);
   (4096, 4138); (4159, 4169); (4176, 4181); (4186, 4189); (4193, 4193);
   (4197, 4198); (4206, 4208); (4213, 4225); (4238, 4238); (4240, 4249);
   (4256, 4293); (4295, 4295); (4301, 4301); (4304, 4346); (4348, 4680);
   (4682, 4685); (4688, 4694); (4696, 4696); (4698, 4701); (4704, 4744);
   (4746, 4749); (4752, 4784); (4786, 4789); (4792, 4798); (4800, 4800);
   (4802, 4805); (4808, 4822); (4824, 4880); (4882, 4885); (4888, 4954);
   (4969, 4988); (4992, 5007); (5024, 5109); (5112, 5117); (5121, 5740);
   (5743, 5759); (5761, 5786); (5792, 5866); (5870, 5880); (5888, 5905);
   (5919, 5937); (5952, 5969); (5984, 5996); (5998, 6000); (6016, 6067);
   (6103, 6103); (6108, 6108); (6112, 6121); (6128, 6137); (6160, 6169);
   (6176, 6264); (6272, 6276); (6279, 6312); (6314, 6314); (6320, 6389);
   (6400, 6430); (6470, 6509); (6512, 6516); (6528, 6571); (6576, 6601);
   (6608, 6618); (6656, 6678); (6688, 6740); (6784, 6793); (6800, 6809);
   (6823, 6823); (6917, 6963); (6981, 6988); (6992, 7001); (7043, 7072);
   (7086, 7141); (7168, 7203); (7232, 7241); (7245, 7293); (7296, 7304);
   (7312, 7354); (7357, 7359); (7401, 7404); (7406, 7411); (7413, 7414);
   (7418, 7418); (7424, 7615); (7680, 7957); (7960, 7965); (7968, 8005);
   (8008, 8013); (8016, 8023); (8025, 8025); (8027, 8027); (8029, 8029);
   (8031, 8061); (8064, 8116); (8118, 8124); (8126, 8126); (8130, 8132);
   (8134, 8140); (8144, 8147); (8150, 8155); (8160, 8172); (8178, 8180);
   (8182, 8188); (8304, 8305); (8308, 8313); (8319, 8329); (8336, 8348);
   (8450, 8450); (8455, 8455); (8458, 8467); (8469, 8469); (8473, 8477);
   (8484, 8484); (8486, 8486); (8488, 8488); (8490, 8493); (8495, 8505);
   (8508, 8511); (8517, 8521); (8526, 8526); (8528, 8585); (9312, 9371);
   (9450, 9471); (10102, 10131); (11264, 11492); (11499, 11502);
   (11506, 11507); (11517, 11517); (11520, 11557); (11559, 11559);
   (11565, 11565); (11568, 11623); (11631, 11631); (11648, 11670);
   (11680, 11686); (11688, 11694); (11696, 11702); (11704, 11710);
   (11712, 11718); (11720, 11726); (11728, 11734); (11736, 11742);
   (11823, 11823); (12293, 12295); (12321, 12329); (12337, 12341);
   (12344, 12348); (12353, 12438); (12445, 12447); (12449, 12538);
   (12540, 12543); (12549, 12591); (12593, 12686); (12690, 12693);
   (12704, 12735); (12784, 12799); (12832, 12841); (12872, 12879);
   (12881, 12895); (12928, 12937); (12977, 12991); (13312, 19903);
   (19968, 42124); (42192, 42237); (42240, 42508); (42512, 42539);
   (42560, 42606); (42623, 42653); (42656, 42735); (42775, 42783);
   (42786, 42888); (42891, 42954); (42960, 42961); (42963, 42963);
   (42965, 42969); (42994, 43009); (43011, 43013); (43015, 43018);
   (43020, 43042); (43056, 43061); (43072, 43123); (43138, 43187);
   (43216, 43225); (43250, 43255); (43259, 43259); (43261, 43262);
   (43264, 43301); (43312, 43334); (43360, 43388); (43396, 43442);
   (43471, 43481); (43488, 43492); (43494, 43518); (43520, 43560);
   (43584, 43586); (43588, 43595); (43600, 43609); (43616, 43638);
   (43642, 43642); (43646, 43695); (43697, 43697); (43701, 43702);
   (43705, 43709); (43712, 43712); (43714, 43714); (43739, 43741);
   (43744, 43754); (43762, 43764); (43777, 43782); (43785, 43790);
   (43793, 43798); (43808, 43814); (43816, 43822); (43824, 43866);
   (43868, 43881); (43888, 44002); (44016, 44025); (44032, 55203);
   (55216, 55238); (55243, 55291); (63744, 64109); (64112, 64217);
   (64256, 64262); (64275, 64279); (64285, 64285); (64287, 64296);
   (64298, 64310); (64312, 64316); (64318, 64318); (64320, 64321);
   (64323, 64324); (64326, 64433); (64467, 64829); (64848, 64911);
   (64914, 64967); (65008, 65019); (65136, 65140); (65142, 65276);
   (65296, 65305); (65313, 65338); (65345, 65370); (65382, 65470);
   (65474, 65479); (65482, 65487); (65490, 65495); (65498, 65500);
   (65536, 65547); (65549, 65574); (65576, 65594); (65596, 65597);
   (65599, 65613); (65616, 65629); (65664, 65786); (65799, 65843);
   (65856, 65912); (65930, 65931); (66176, 66204); (66208, 66256);
   (66273, 66299); (66304, 66339); (66349, 66378); (66384, 66421);
   (66432, 66461); (66464, 66499); (66504, 66511); (66513, 66517);
   (66560, 66717); (66720, 66729); (66736, 66771); (66776, 66811);
   (66816, 66855); (66864, 66915); (66928, 66938); (66940, 66954);
   (66956, 66962); (66964, 66965); (66967, 66977); (66979, 66993);
   (66995, 67001); (67003, 67004); (67072, 67382); (67392, 67413);
   (67424, 67431); (67456, 67461); (67463, 67504); (67506, 67514);
   (67584, 67589); (67592, 67592); (67594, 67637); (67639, 67640);
   (67644, 67644); (67647, 67669); (67672, 67702); (67705, 67742);
   (67751, 67759); (67808, 67826); (67828, 67829); (67835, 67867);
   (67872, 67897); (67968, 68023); (68028, 68047); (68050, 68096);
   (68112, 68115); (68117, 68119); (68121, 68149); (68160, 68168);
   (68192, 68222); (68224, 68255); (68288, 68295); (68297, 68324);
   (68331, 68335); (68352, 68405); (68416, 68437); (68440, 68466);
   (68472, 68497); (68521, 68527); (68608, 68680); (68736, 68786);
   (68800, 68850); (68858, 68899); (68912, 68921); (69216, 69246);
   (69248, 69289); (69296, 69297); (69376, 69415); (69424, 69445);
   (69457, 69460); (69488, 69505); (69552, 69579); (69600, 69622);
   (69635, 69687); (69714, 69743); (69745, 69746); (69749, 69749);
   (69763, 69807); (69840, 69864); (69872, 69881); (69891, 69926);
   (69942, 69951); (69956, 69956); (69959, 69959); (69968, 70002);
   (70006, 70006); (70019, 70066); (70081, 70084); (70096, 70106);
   (70108, 70108); (70113, 70132); (70144, 70161); (70163, 70187);
   (70272, 70278); (70280, 70280); (70282, 70285); (70287, 70301);
   (70303, 70312); (70320, 70366); (70384, 70393); (70405, 70412);
   (70415, 70416); (70419, 70440); (70442, 70448); (70450, 70451);
   (70453, 70457); (70461, 70461); (70480, 70480); (70493, 70497);
   (70656, 70708); (70727, 70730); (70736, 70745); (70751, 70753);
   (70784, 70831); (70852, 70853); (70855, 70855); (70864, 70873);
   (71040, 71086); (71128, 71131); (71168, 71215); (71236, 71236);
   (71248, 71257); (71296, 71338); (71352, 71352); (71360, 71369);
   (71424, 71450); (71472, 71483); (71488, 71494); (71680, 71723);
   (71840, 71922); (71935, 71942); (71945, 71945); (71948, 71955);
   (71957, 71958); (71960, 71983); (71999, 71999); (72001, 72001);
   (72016, 72025); (72096, 72103); (72106, 72144); (72161, 72161);
   (72163, 72163); (72192, 72192); (72203, 72242); (72250, 72250);
   (72272, 72272); (72284, 72329); (72349, 72349); (72368, 72440);
   (72704, 72712); (72714, 72750); (72768, 72768); (72784, 72812);
   (72818, 72847); (72960, 72966); (72968, 72969); (72971, 73008);
   (73030, 73030); (73040, 73049); (73056, 73061); (73063, 73064);
   (73066, 73097); (73112, 73112); (73120, 73129); (73440, 73458);
   (73648, 73648); (73664, 73684); (73728, 74649); (74752, 74862);
   (74880, 75075); (77712, 77808); (77824, 78894); (82944, 83526);
   (92160, 92728); (92736, 92766); (92768, 92777); (92784, 92862);
   (92864, 92873); (92880, 92909); (92928, 92975); (92992, 92995);
   (93008, 93017); (93019, 93025); (93027, 93047); (93053, 93071);
   (93760, 93846); (93952, 94026); (94032, 94032); (94099, 94111);
   (94176, 94177); (94179, 94179); (94208, 100343); (100352, 101589);
   (101632, 101640); (110576, 110579); (110581, 110587); (110589, 110590);
   (110592, 110882); (110928, 110930); (110948, 110951); (110960, 111355);
   (113664, 113770); (113776, 113788); (113792, 113800); (113808, 113817);
   (119520, 119539); (119648, 119672); (119808, 119892); (119894, 119964);
   (119966, 119967); (119970, 119970); (119973, 119974); (119977, 119980);
   (119982, 119993); (119995, 119995); (119997, 120003); (120005, 120069);
   (120071, 120074); (120077, 120084); (120086, 120092); (120094, 120121);
   (120123, 120126); (120128, 120132); (120134, 120134); (120138, 120144);
   (120146, 120485); (120488, 120512); (120514, 120538); (120540, 120570);
   (120572, 120596); (120598, 120628); (120630, 120654); (120656, 120686);
   (120688, 120712); (120714, 120744); (120746, 120770); (120772, 120779);
   (120782, 120831); (122624, 122654); (123136, 123180); (123191, 123197);
   (123200, 123209); (123214, 123214); (123536, 123565); (123584, 123627);
   (123632, 123641); (124896, 124902); (124904, 124907); (124909, 124910);
   (124912, 124926); (124928, 125124); (125127, 125135); (125184, 125251);
   (125259, 125259); (125264, 125273); (126065, 126123); (126125, 126127);
   (126129, 126132); (126209, 126253); (126255, 126269); (126464, 126467);
   (126469, 126495); (126497, 126498); (126500, 126500); (126503, 126503);
   (126505, 126514); (126516, 126519); (126521, 126521); (126523, 126523);
   (126530, 126530); (126535, 126535); (126537, 126537); (126539, 126539);
   (126541, 126543); (126545, 126546); (126548, 126548); (126551, 126551);
   (126553, 126553); (126555, 126555); (126557, 126557); (126559, 126559);
   (126561, 126562); (126564, 126564); (126567, 126570); (126572, 126578);
   (126580, 126583); (126585, 126588); (126590, 126590); (126592, 126601);
   (126603, 126619); (126625, 126627); (126629, 126633); (126635, 126651);
   (127232, 127244); (130032, 130041); (131072, 173791); (173824, 177976);
   (177984, 178205); (178208, 183969); (183984, 191456); (194560, 195101);
   (196608, 201546)
  ]%N.

(** [c.isalnum()] *)
Definition is_alnum (c : char) : bool :=
  if is_ascii c then is_digit c || is_upper c || is_lower c
  else existsb (fun r => between (fst r) (snd r) c) alnum_ranges.

Arguments is_alnum c : simpl never.

(** [c.isspace()] *)
Definition is_space (c : char) : bool :=
  between 9 13 c || between 28 32 c || (c =? 133)%N || (c =? 160)%N
  || (c =? 5760)%N || between 8192 8202 c || (c =? 8232)%N || (c =? 8233)%N
  || (c =? 8239)%N || (c =? 8287)%N || (c =? 12288)%N.

Fixpoint lstrip (s : str) : str :=
  match s with
  | c :: r => if is_space c then lstrip r else s
  | [] => []
  end.

Definition rstrip (s : str) : str := rev (lstrip (rev s)).

(** [s.strip()] *)
Definition strip (s : str) : str := rstrip (lstrip s).

(** Truth value of a string or of a list: non-empty. *)
Definition truthy {A} (l : list A) : bool :=
  match l with [] => false | _ :: _ => true end.

(** [s.startswith(p)] *)
Fixpoint startswith (s p : str) {struct p} : bool :=
  match p, s with
  | [], _ => true
  | a :: p', b :: s' => (a =? b)%N && startswith s' p'
  | _ :: _, [] => false
  end.

(** [s.startswith((p1, p2, ...))] *)
Definition startswith_any (s : str) (ps : list str) : bool :=
  existsb (startswith s) ps.

(** [needle in hay] *)
Fixpoint contains (needle hay : str) : bool :=
  startswith hay needle
  || match hay with
     | [] => false
     | _ :: t => contains needle t
     end.

(** [any(k in hay for k in needles)] *)
Definition contains_any (needles : list str) (hay : str) : bool :=
  existsb (fun k => contains k hay) needles.

(** [s.split('\n')] *)
Fixpoint split_lines (s : str) : list str :=
  match s with
  | [] => [[]]
  | c :: r =>
      if (c =? newline)%N then [] :: split_lines r
      else match split_lines r with
           | l :: ls => (c :: l) :: ls
           | [] => [[c]]
           end
  end.

(** [sep.join(parts)] *)
Fixpoint join (sep : str) (parts : list str) : str :=
  match parts with
  | [] => []
  | [p] => p
  | p :: ps => p ++ sep ++ join sep ps
  end.

(** [len(s.split())]: the number of maximal runs of non-space characters. *)
Fixpoint count_words (in_word : bool) (s : str) : nat :=
  match s with
  | [] => 0
  | c :: r =>
      if is_space c then count_words false r
      else if in_word then count_words true r
      else S (count_words true r)
  end.

Definition word_count (s : str) : nat := count_words false s.

End Text.

Import Text.

(* ================================================================== *)
(** ** Session memory (the JSON document of [memory_store.json]) *)
(* ================================================================== *)

Record ReviewEntry := {
  review_timestamp : str;
  review : str;
  sources_analyzed : nat
}.

Record ValidationResult := {
  detailed_analysis : str;
  overall_score : Q;
  assessment : str;
  validation_timestamp : str
}.

Record HypothesisEntry := {
  hypothesis_timestamp : str;
  hypothesis : str;
  validation : ValidationResult;
  hypothesis_research_question : str
}.

Record DraftEntry := {
  draft_timestamp : str;
  original_draft : str;
  polished_draft : str;
  polish_type : str;
  improvements_made : list str;
  word_count_original : nat;
  word_count_polished : nat
}.

Record Progress := {
  literature_review_completed : bool;
  hypothesis_validated : bool;
  draft_polished : bool
}.

Record Memory := {
  research_question : str;
  citations : list str;
  notes : list str;
  literature_reviews : list ReviewEntry;
  hypotheses : list HypothesisEntry;
  drafts : list DraftEntry;
  progress : Progress
}.

(** The three keys of [memory['progress']]. *)
Inductive flag := LiteratureReviewCompleted | HypothesisValidated | DraftPolished.

Definition get_flag (f : flag) (p : Progress) : bool :=
  match f with
  | LiteratureReviewCompleted => literature_review_completed p
  | HypothesisValidated => hypothesis_validated p
  | DraftPolished => draft_polished p
  end.

(** [memory['progress'][f] = True] *)
Definition set_flag (f : flag) (m : Memory) : Memory :=
  let p := progress m in
  {| research_question := research_question m;
     citations := citations m;
     notes := notes m;
     literature_reviews := literature_reviews m;
     hypotheses := hypotheses m;
     drafts := drafts m;
     progress :=
       match f with
       | LiteratureReviewCompleted =>
           {| literature_review_completed := true;
              hypothesis_validated := hypothesis_validated p;
              draft_polished := draft_polished p |}
       | HypothesisValidated =>
           {| literature_review_completed := literature_review_completed p;
              hypothesis_validated := true;
              draft_polished := draft_polished p |}
       | DraftPolished =>
           {| literature_review_completed := literature_review_completed p;
              hypothesis_validated := hypothesis_validated p;
              draft_polished := true |}
       end |}.

(** [memory['research_question'] = q] *)
Definition set_research_question (q : str) (m : Memory) : Memory :=
  {| research_question := q;
     citations := citations m;
     notes := notes m;
     literature_reviews := literature_reviews m;
     hypotheses := hypotheses m;
     drafts := drafts m;
     progress := progress m |}.

(** [memory['citations'].extend(cs)] *)
Definition extend_citations (cs : list str) (m : Memory) : Memory :=
  {| research_question := research_question m;
     citations := citations m ++ cs;
     notes := notes m;
     literature_reviews := literature_reviews m;
     hypotheses := hypotheses m;
     drafts := drafts m;
     progress := progress m |}.

(** [memory['notes'].extend(ns)] *)
Definition extend_notes (ns : list str) (m : Memory) : Memory :=
  {| research_question := research_question m;
     citations := citations m;
     notes := notes m ++ ns;
     literature_reviews := literature_reviews m;
     hypotheses := hypotheses m;
     drafts := drafts m;
     progress := progress m |}.

(** [memory['literature_reviews'].append(e)] *)
Definition append_review (e : ReviewEntry) (m : Memory) : Memory :=
  {| research_question := research_question m;
     citations := citations m;
     notes := notes m;
     literature_reviews := literature_reviews m ++ [e];
     hypotheses := hypotheses m;
     drafts := drafts m;
     progress := progress m |}.

(** [memory['hypotheses'].append(e)] *)
Definition append_hypothesis (e : HypothesisEntry) (m : Memory) : Memory :=
  {| research_question := research_question m;
     citations := citations m;
     notes := notes m;
     literature_reviews := literature_reviews m;
     hypotheses := hypotheses m ++ [e];
     drafts := drafts m;
     progress := progress m |}.

(** [memory['drafts'].append(e)] *)
Definition append_draft (e : DraftEntry) (m : Memory) : Memory :=
  {| research_question := research_question m;
     citations := citations m;
     notes := notes m;
     literature_reviews := literature_reviews m;
     hypotheses := hypotheses m;
     drafts := drafts m ++ [e];
     progress := progress m |}.

(** *** What [json.dump] can write

    [save_memory] opens the file with [encoding='utf-8'] and dumps with
    [ensure_ascii=False]: every string is written as it is, and a lone
    surrogate (U+D800 to U+DFFF) cannot be encoded. *)

Definition is_surrogate (c : char) : bool := between 55296 57343 c.

Definition encodable (s : str) : bool :=
  forallb (fun c => negb (is_surrogate c)) s.

Definition storable_review (e : ReviewEntry) : bool :=
  encodable (review_timestamp e) && encodable (review e).

Definition storable_validation (v : ValidationResult) : bool :=
  encodable (detailed_analysis v) && encodable (assessment v)
  && encodable (validation_timestamp v).

Definition storable_hypothesis (e : HypothesisEntry) : bool :=
  encodable (hypothesis_timestamp e) && encodable (hypothesis e)
  && storable_validation (validation e)
  && encodable (hypothesis_research_question e).

Definition storable_draft (e : DraftEntry) : bool :=
  encodable (draft_timestamp e) && encodable (original_draft e)
  && encodable (polished_draft e) && encodable (polish_type e)
  && forallb encodable (improvements_made e).

Definition storable (m : Memory) : bool :=
  encodable (research_question m)
  && forallb encodable (citations m)
  && forallb encodable (notes m)
  && forallb storable_review (literature_reviews m)
  && forallb storable_hypothesis (hypotheses m)
  && forallb storable_draft (drafts m).

(* ================================================================== *)
(** ** Exceptions, the outside world and the monad of the agents *)
(* ================================================================== *)

(** The exception classes that the calls of the agents can meet; all of
    them derive from [Exception]. *)
Inductive exn_class :=
| Exception
| OSError
| FileNotFoundError
| PermissionError
| ValueError
| JSONDecodeError
| UnicodeDecodeError
| UnicodeEncodeError
| RuntimeError.

Definition exn_class_eqb (a b : exn_class) : bool :=
  match a, b with
  | Exception, Exception | OSError, OSError
  | FileNotFoundError, FileNotFoundError | PermissionError, PermissionError
  | ValueError, ValueError | JSONDecodeError, JSONDecodeError
  | UnicodeDecodeError, UnicodeDecodeError
  | UnicodeEncodeError, UnicodeEncodeError | RuntimeError, RuntimeError => true
  | _, _ => false
  end.

(** Method resolution order: the class and its ancestors among the classes
    above ([UnicodeError], [BaseException] and [object] are left out).
    UnicodeEncodeError is what [json.dump] raises when the file cannot
    encode a string. *)
Definition mro (c : exn_class) : list exn_class :=
  match c with
  | Exception => [Exception]
  | OSError => [OSError; Exception]
  | FileNotFoundError => [FileNotFoundError; OSError; Exception]
  | PermissionError => [PermissionError; OSError; Exception]
  | ValueError => [ValueError; Exception]
  | JSONDecodeError => [JSONDecodeError; ValueError; Exception]
  | UnicodeDecodeError => [UnicodeDecodeError; ValueError; Exception]
  | UnicodeEncodeError => [UnicodeEncodeError; ValueError; Exception]
  | RuntimeError => [RuntimeError; Exception]
  end.

(** An exception: its class and [str(e)].  The messages of the exceptions
    that the file operations raise are abridged: the agents never read
    them. *)
Record exn := { exn_cls : exn_class; exn_str : str }.

Definition isinstance (e : exn) (c : exn_class) : bool :=
  existsb (exn_class_eqb c) (mro (exn_cls e)).

(** [except (c1, c2, ...)] *)
Definition caught_by (cs : list exn_class) (e : exn) : bool :=
  existsb (isinstance e) cs.

(** What [open(path, 'r', encoding='utf-8')] followed by [json.load] meets.
    A file that holds JSON of another shape than the session document
    (on which the agents would fail with a KeyError or a TypeError) is not
    represented. *)
Inductive backing :=
| NoFile                    (* [open] raises FileNotFoundError *)
| NotJson (e : str)         (* UTF-8 text that is not JSON: [json.load]
                               raises JSONDecodeError, [e] its message *)
| Truncated                 (* an emptied file, or the beginning of a
                               document: what a failed save leaves;
                               [json.load] raises JSONDecodeError *)
| Unreadable (e : exn)      (* any other failure of [open] or of reading,
                               such as UnicodeDecodeError on bytes that
                               are not UTF-8 *)
| Document (m : Memory).    (* a well-formed session document *)

(** How a backing file that cannot be written fails: [os.makedirs] or
    [open(path, 'w')] raises and the file is left as it was; or the file is
    opened, which empties it, and a write of [json.dump] raises. *)
Inductive write_fault :=
| OpenFails (e : exn)
| DumpFails (e : exn).

(** What [model.generate_content(prompt)] followed by [.text] does. *)
Inductive model_outcome :=
| Returns (text : str)
| Throws (e : exn).

(** The world the agents run in: the backing file, the fault of its
    location if it cannot be written, and the external services (generative
    model, clock), each answering as a function of the number of external
    calls made so far. *)
Record world := {
  disk : backing;
  fault : option write_fault;
  ticks : nat;
  llm : nat -> str -> model_outcome;
  clock : nat -> str
}.

Definition writable (w : world) : bool :=
  match fault w with None => true | Some _ => false end.

Definition tick (w : world) : world :=
  {| disk := disk w; fault := fault w; ticks := S (ticks w);
     llm := llm w; clock := clock w |}.

Definition write_disk (m : Memory) (w : world) : world :=
  {| disk := Document m; fault := fault w; ticks := ticks w;
     llm := llm w; clock := clock w |}.

(** The file after [open(path, 'w')] and an interrupted [json.dump]. *)
Definition truncate_disk (w : world) : world :=
  {| disk := Truncated; fault := fault w; ticks := ticks w;
     llm := llm w; clock := clock w |}.

Inductive result (A : Type) :=
| Ok (a : A) (w : world)
| Raise (e : exn) (w : world).

Arguments Ok {A} a w.
Arguments Raise {A} e w.

Definition M (A : Type) := world -> result A.

Definition ret {A} (a : A) : M A := fun w => Ok a w.

Definition bind {A B} (c : M A) (k : A -> M B) : M B :=
  fun w => match c w with
           | Ok a w' => k a w'
           | Raise e w' => Raise e w'
           end.

(** [try: body  except cs as e: handler(e)] *)
Definition try_except {A} (body : M A) (cs : list exn_class) (handler : exn -> M A) : M A :=
  fun w => match body w with
           | Ok a w' => Ok a w'
           | Raise e w' => if caught_by cs e then handler e w' else Raise e w'
           end.

Declare Scope agent_scope.
Delimit Scope agent_scope with agent.
Bind Scope agent_scope with M.
Notation "x <- c ;; k" := (bind c (fun x => k))
  (at level 61, c at next level, right associativity) : agent_scope.
Notation "c ;;; k" := (bind c (fun _ => k))
  (at level 61, right associativity) : agent_scope.
Open Scope agent_scope.

(** [datetime.datetime.now().isoformat()] *)
Definition datetime_now_isoformat : M str :=
  fun w => Ok (clock w (ticks w)) (tick w).

(** [self.model.generate_content(prompt).text] *)
Definition model_generate_content (prompt : str) : M str :=
  fun w => match llm w (ticks w) prompt with
           | Returns t => Ok t (tick w)
           | Throws e => Raise e (tick w)
           end.

(* ================================================================== *)
(** ** base.py *)
(* ================================================================== *)

Module BaseAgent.

Definition default_memory : Memory :=
  {| research_question := [];
     citations := [];
     notes := [];
     literature_reviews := [];
     hypotheses := [];
     drafts := [];
     progress := {| literature_review_completed := false;
                    hypothesis_validated := false;
                    draft_polished := false |} |}.

(** [with open(...) as f: return json.load(f)] *)
Definition open_and_load : M Memory :=
  fun w => match disk w with
           | NoFile => Raise {| exn_cls := FileNotFoundError; exn_str := [] |} w
           | NotJson e => Raise {| exn_cls := JSONDecodeError; exn_str := e |} w
           | Truncated =>
               Raise {| exn_cls := JSONDecodeError;
                        exn_str := lit "Expecting value" |} w
           | Unreadable e => Raise e w
           | Document m => Ok m w
           end.

Definition load_memory : M Memory :=
  try_except open_and_load [FileNotFoundError; JSONDecodeError]
             (fun _ => ret default_memory).

(** [os.makedirs(...)], then
    [with open(path, 'w', encoding='utf-8') as f: json.dump(memory, f, ...)].
    Nothing is caught.  A location that cannot be opened raises before the
    file is touched.  Opening the file empties it; [json.dump] then writes
    the document piece by piece, so a write that fails, on the device or at
    a string that UTF-8 cannot encode, leaves the beginning of a document. *)
Definition save_memory (memory : Memory) : M unit :=
  fun w =>
    match fault w with
    | Some (OpenFails e) => Raise e w
    | Some (DumpFails e) => Raise e (truncate_disk w)
    | None =>
        if storable memory then Ok tt (write_disk memory w)
        else Raise {| exn_cls := UnicodeEncodeError;
                      exn_str := lit "surrogates not allowed" |}
                   (truncate_disk w)
    end.

Definition generate_response (prompt : str) : M str :=
  try_except (model_generate_content prompt) [Exception]
             (fun e => ret (lit "Error generating response: " ++ exn_str e)).

End BaseAgent.

(* ================================================================== *)
(** ** literature_review_agent.py *)
(* ================================================================== *)

Module LiteratureReviewAgent.

Record input := {
  in_research_question : str;
  in_citations : list str;
  in_notes : list str
}.

Record output := {
  status : str;
  agent : str;
  out_review : str;
  out_sources_analyzed : nat;
  recommendations : list str
}.

Definition agent_name : str := lit "Literature Review Agent".

(** The list comprehension and the slice of [_generate_recommendations]. *)
Definition parse_recommendations (response : str) : list str :=
  firstn 5
    (List.map strip
       (List.filter
          (fun line =>
             truthy (strip line)
             && (contains (lit "1.") line || contains (lit "2.") line
                 || contains (lit "3.") line || contains (lit "4.") line
                 || contains (lit "5.") line))
          (split_lines response))).

Section Agent.

(** The two f-string templates; their text only reaches the model. *)
Variable review_prompt : str -> list str -> list str -> str.
Variable recommendations_prompt : str -> list str -> str.

Definition _generate_literature_review
           (research_question : str) (citations notes : list str) : M str :=
  BaseAgent.generate_response (review_prompt research_question citations notes).

Definition _generate_recommendations
           (research_question : str) (citations : list str) : M (list str) :=
  response <- BaseAgent.generate_response
                (recommendations_prompt research_question citations) ;;
  ret (parse_recommendations response).

Definition process (input_data : input) : M output :=
  let research_question := in_research_question input_data in
  let citations := in_citations input_data in
  let notes := in_notes input_data in
  memory <- BaseAgent.load_memory ;;
  let memory := if truthy research_question
                then set_research_question research_question memory
                else memory in
  let memory := if truthy citations
                then extend_citations citations memory
                else memory in
  let memory := if truthy notes
                then extend_notes notes memory
                else memory in
  review <- _generate_literature_review research_question citations notes ;;
  timestamp <- datetime_now_isoformat ;;
  let review_entry :=
    {| review_timestamp := timestamp;
       review := review;
       sources_analyzed := List.length citations |} in
  let memory := append_review review_entry memory in
  let memory := set_flag LiteratureReviewCompleted memory in
  BaseAgent.save_memory memory ;;;
  recs <- _generate_recommendations research_question citations ;;
  ret {| status := lit "success";
         agent := agent_name;
         out_review := review;
         out_sources_analyzed := List.length citations;
         recommendations := recs |}.

Variable source_quality_prompt : list str -> str.

Definition analyze_source_quality (citations : list str) : M (str * nat * str) :=
  analysis <- BaseAgent.generate_response (source_quality_prompt citations) ;;
  timestamp <- datetime_now_isoformat ;;
  ret (analysis, List.length citations, timestamp).

End Agent.

End LiteratureReviewAgent.

(* ================================================================== *)
(** ** hypothesis_validator_agent.py *)
(* ================================================================== *)

Module HypothesisValidatorAgent.

Definition agent_name : str := lit "Hypothesis Validator Agent".

Definition criteria : list str :=
  [lit "CLARITY"; lit "TESTABILITY"; lit "SPECIFICITY"; lit "RELEVANCE";
   lit "ORIGINALITY"; lit "FEASIBILITY"; lit "THEORETICAL"].

(** *** The regular expression [\b([1-9]|10)\b] *)

(** [\w] *)
Definition is_word (c : char) : bool := is_alnum c || (c =? 95)%N.

Definition word_before (prev : option char) : bool :=
  match prev with Some c => is_word c | None => false end.

Definition word_at (s : str) : bool :=
  match s with c :: _ => is_word c | [] => false end.

(** [\b] between the character [prev] and the text [s] that follows it. *)
Definition boundary (prev : option char) (s : str) : bool :=
  xorb (word_before prev) (word_at s).

Definition digit_value (c : char) : Z := Z.of_N c - 48.

(** One attempt of the pattern at a position: the group's value and the
    number of characters consumed.  The alternative [[1-9]] is tried
    first; when the closing [\b] fails after it, [10] is tried. *)
Definition match_here (prev : option char) (s : str) : option (Z * nat) :=
  if boundary prev s then
    match s with
    | d :: rest =>
        if between 49 57 d && boundary (Some d) rest
        then Some (digit_value d, 1)
        else match s with
             | o :: z :: rest' =>
                 if (o =? 49)%N && (z =? 48)%N && boundary (Some z) rest'
                 then Some (10%Z, 2)
                 else None
             | _ => None
             end
    | [] => None
    end
  else None.

(** [re.findall(r'\b([1-9]|10)\b', line)], the groups as integers:
    leftmost matches, the scan resuming after each match. *)
Fixpoint findall_from (prev : option char) (s : str) {struct s} : list Z :=
  match s with
  | [] => []
  | c :: rest =>
      match match_here prev s with
      | None => findall_from (Some c) rest
      | Some (v, 1) => v :: findall_from (Some c) rest
      | Some (v, _) =>
          match rest with
          | c2 :: rest2 => v :: findall_from (Some c2) rest2
          | [] => [v]
          end
      end
  end.

Definition findall (line : str) : list Z := findall_from None line.

(** The [for] loop of [_calculate_overall_score], [scores] being the
    accumulator. *)
Fixpoint score_loop (lines : list str) (scores : list Z) : list Z :=
  match lines with
  | [] => scores
  | line :: rest =>
      if contains_any criteria (upper line) then
        match findall line with
        | n :: _ => score_loop rest (scores ++ [n])
        | [] => score_loop rest scores
        end
      else score_loop rest scores
  end.

Definition sum (scores : list Z) : Z := fold_left Z.add scores 0%Z.

(** [sum(scores) / len(scores) if scores else 5.0]; the quotient of the
    two integers is kept as the exact rational (the float returned by
    Python is the double nearest to it). *)
Definition _calculate_overall_score (analysis : str) : Q :=
  let scores := score_loop (split_lines analysis) [] in
  if truthy scores
  then (inject_Z (sum scores) / inject_Z (Z.of_nat (List.length scores)))%Q
  else 5.0%Q.

Definition _get_assessment_level (score : Q) : str :=
  if Qle_bool 8%Q score then lit "Strong"
  else if Qle_bool 6%Q score then lit "Moderate"
  else lit "Weak".

(** The list comprehension and the slice of
    [_generate_improvement_recommendations]. *)
Definition parse_recommendations (response : str) : list str :=
  firstn 5
    (List.map strip
       (List.filter
          (fun line =>
             truthy (strip line)
             && existsb (fun num => contains num line)
                        [lit "1."; lit "2."; lit "3."; lit "4."; lit "5."])
          (split_lines response))).

(** The [for] loop of [generate_alternative_hypotheses]; the state is
    [(alternatives, current_hypothesis)]. *)
Fixpoint alternatives_loop (lines : list str) (alternatives : list str)
         (current_hypothesis : str) : list str * str :=
  match lines with
  | [] => (alternatives, current_hypothesis)
  | line :: rest =>
      if truthy (strip line)
         && (contains (lit "Hypothesis") line
             || startswith_any line [lit "1."; lit "2."; lit "3."])
      then
        let alternatives :=
          if truthy current_hypothesis
          then alternatives ++ [strip current_hypothesis]
          else alternatives in
        alternatives_loop rest alternatives line
      else if truthy (strip line) && truthy current_hypothesis
      then alternatives_loop rest alternatives (current_hypothesis ++ lit " " ++ line)
      else alternatives_loop rest alternatives current_hypothesis
  end.

Definition parse_alternatives (response : str) : list str :=
  let '(alternatives, current_hypothesis) :=
    alternatives_loop (split_lines response) [] [] in
  let alternatives :=
    if truthy current_hypothesis
    then alternatives ++ [strip current_hypothesis]
    else alternatives in
  firstn 3 alternatives.

(** [memory['literature_reviews'][-1].get('review', '')] *)
Definition latest_review (memory : Memory) : str :=
  match rev (literature_reviews memory) with
  | e :: _ => review e
  | [] => []
  end.

(** The [literature_context] of [_validate_hypothesis]. *)
Definition validation_context (memory : Memory) : str :=
  if truthy (literature_reviews memory)
  then lit "Based on literature review: "
       ++ firstn 500 (latest_review memory) ++ lit "..."
  else [].

Record output := {
  status : str;
  agent : str;
  out_hypothesis : str;
  out_validation : ValidationResult;
  recommendations : list str
}.

Section Agent.

(** The f-string templates; their text only reaches the model. *)
Variable validation_prompt : str -> str -> str -> str.
Variable improvement_prompt : str -> ValidationResult -> str.
Variable alternatives_prompt : str -> str -> str -> str.

Definition _validate_hypothesis
           (hypothesis research_question : str) (memory : Memory)
  : M ValidationResult :=
  let literature_context := validation_context memory in
  response <- BaseAgent.generate_response
                (validation_prompt research_question hypothesis literature_context) ;;
  let overall_score := _calculate_overall_score response in
  timestamp <- datetime_now_isoformat ;;
  ret {| detailed_analysis := response;
         overall_score := overall_score;
         assessment := _get_assessment_level overall_score;
         validation_timestamp := timestamp |}.

Definition _generate_improvement_recommendations
           (hypothesis : str) (validation_result : ValidationResult)
  : M (list str) :=
  response <- BaseAgent.generate_response
                (improvement_prompt hypothesis validation_result) ;;
  ret (parse_recommendations response).

Definition process (input_hypothesis input_research_question : str) : M output :=
  memory <- BaseAgent.load_memory ;;
  let asked_question :=
    if negb (truthy input_research_question)
    then research_question memory
    else input_research_question in
  validation_result <- _validate_hypothesis input_hypothesis asked_question memory ;;
  timestamp <- datetime_now_isoformat ;;
  let validation_entry :=
    {| hypothesis_timestamp := timestamp;
       hypothesis := input_hypothesis;
       validation := validation_result;
       hypothesis_research_question := asked_question |} in
  let memory := append_hypothesis validation_entry memory in
  let memory := set_flag HypothesisValidated memory in
  BaseAgent.save_memory memory ;;;
  recs <- _generate_improvement_recommendations input_hypothesis validation_result ;;
  ret {| status := lit "success";
         agent := agent_name;
         out_hypothesis := input_hypothesis;
         out_validation := validation_result;
         recommendations := recs |}.

Definition generate_alternative_hypotheses
           (research_question context : str) : M (list str) :=
  memory <- BaseAgent.load_memory ;;
  let literature_context :=
    if truthy (literature_reviews memory)
    then lit "Literature context: "
         ++ firstn 500 (latest_review memory) ++ lit "..."
    else [] in
  response <- BaseAgent.generate_response
                (alternatives_prompt research_question context literature_context) ;;
  ret (parse_alternatives response).

End Agent.

End HypothesisValidatorAgent.

(* ================================================================== *)
(** ** draft_polisher_agent.py *)
(* ================================================================== *)

Module DraftPolisherAgent.

Definition agent_name : str := lit "Draft Polisher Agent".

(** [line.strip().startswith(('-', '*', '•')) or
     any(num in line[:3] for num in ['1.', '2.', '3.'])] *)
Definition is_list_item (line : str) : bool :=
  startswith_any (strip line) [lit "-"; lit "*"; [bullet]]
  || existsb (fun num => contains num (firstn 3 line))
             [lit "1."; lit "2."; lit "3."].

(** The [for] loop of [_extract_improvements]. *)
Fixpoint improvements_loop (lines : list str) (in_improvements_section : bool)
         (improvements : list str) : list str :=
  match lines with
  | [] => improvements
  | line :: rest =>
      if contains (lit "IMPROVEMENTS") (upper line)
         || contains (lit "CORRECTIONS") (upper line)
      then improvements_loop rest true improvements
      else if truthy (strip line)
              && startswith_any (strip line)
                   [lit "POLISHED"; lit "SUGGESTIONS"; lit "QUALITY"]
      then improvements_loop rest false improvements
      else if in_improvements_section && truthy (strip line)
      then if is_list_item line
           then improvements_loop rest in_improvements_section
                                  (improvements ++ [strip line])
           else improvements_loop rest in_improvements_section improvements
      else improvements_loop rest in_improvements_section improvements
  end.

Definition _extract_improvements (response : str) : list str :=
  firstn 10 (improvements_loop (split_lines response) false []).

(** The [for] loop of [_extract_suggestions]. *)
Fixpoint suggestions_loop (lines : list str) (in_suggestions_section : bool)
         (suggestions : list str) : list str :=
  match lines with
  | [] => suggestions
  | line :: rest =>
      if contains (lit "SUGGESTIONS") (upper line)
      then suggestions_loop rest true suggestions
      else if truthy (strip line) && startswith (strip line) (lit "QUALITY")
      then suggestions_loop rest false suggestions
      else if in_suggestions_section && truthy (strip line)
      then if is_list_item line
           then suggestions_loop rest in_suggestions_section
                                 (suggestions ++ [strip line])
           else suggestions_loop rest in_suggestions_section suggestions
      else suggestions_loop rest in_suggestions_section suggestions
  end.

Definition _extract_suggestions (response : str) : list str :=
  firstn 5 (suggestions_loop (split_lines response) false []).

Definition _assess_quality_score (original_text polished_response : str) : Q :=
  if contains (lit "excellent") (lower polished_response)
     || contains (lit "high quality") (lower polished_response)
  then 9.0%Q
  else if contains (lit "good") (lower polished_response)
          || contains (lit "well") (lower polished_response)
  then 7.5%Q
  else if contains (lit "improvement") (lower polished_response)
  then 6.0%Q
  else 7.0%Q.

Definition text_markers : list str :=
  [lit "POLISHED TEXT"; lit "CORRECTED TEXT"; lit "RESTRUCTURED TEXT";
   lit "CLARIFIED TEXT"; lit "IMPROVED TEXT"].

Definition end_markers : list str :=
  [lit "IMPROVEMENTS"; lit "CORRECTIONS"; lit "SUGGESTIONS"; lit "QUALITY"].

(** The [for] loop of [_extract_polished_text]. *)
Fixpoint polished_loop (lines : list str) (in_polished_section : bool)
         (polished_lines : list str) : list str :=
  match lines with
  | [] => polished_lines
  | line :: rest =>
      if contains_any text_markers (upper line)
      then polished_loop rest true polished_lines
      else if truthy (strip line) && contains_any end_markers (upper line)
      then polished_loop rest false polished_lines
      else if in_polished_section && truthy (strip line)
      then polished_loop rest in_polished_section (polished_lines ++ [line])
      else polished_loop rest in_polished_section polished_lines
  end.

Definition _extract_polished_text (response original_text : str) : str :=
  let polished_lines := polished_loop (split_lines response) false [] in
  let polished_text := strip (join [newline] polished_lines) in
  if truthy polished_text then polished_text else original_text.

(** [memory['hypotheses'][-1].get('hypothesis', '')] *)
Definition latest_hypothesis (memory : Memory) : str :=
  match rev (hypotheses memory) with
  | e :: _ => hypothesis e
  | [] => []
  end.

Definition _build_research_context (memory : Memory) : str :=
  let context_parts := [] in
  let context_parts :=
    if truthy (research_question memory)
    then context_parts ++ [lit "Research Question: " ++ research_question memory]
    else context_parts in
  let context_parts :=
    if truthy (literature_reviews memory)
    then context_parts
         ++ [lit "Literature Context: "
             ++ firstn 300 (HypothesisValidatorAgent.latest_review memory)
             ++ lit "..."]
    else context_parts in
  let context_parts :=
    if truthy (hypotheses memory)
    then context_parts ++ [lit "Research Hypothesis: " ++ latest_hypothesis memory]
    else context_parts in
  join [newline] context_parts.

Record polished := {
  polished_text : str;
  improvements : list str;
  suggestions : list str;
  quality_score : Q
}.

Record output := {
  status : str;
  agent : str;
  original_text : str;
  out_polished_text : str;
  out_improvements : list str;
  out_quality_score : Q;
  out_suggestions : list str
}.

Definition str_eqb (a b : str) : bool :=
  if list_eq_dec N.eq_dec a b then true else false.

Section Agent.

(** The five f-string templates of the polish types, each a function of
    [draft_text], [target_audience] and [research_context]; their text
    only reaches the model. *)
Variable _get_comprehensive_polish_prompt : str -> str -> str -> str.
Variable _get_grammar_polish_prompt : str -> str -> str -> str.
Variable _get_structure_polish_prompt : str -> str -> str -> str.
Variable _get_clarity_polish_prompt : str -> str -> str -> str.
Variable _get_citations_polish_prompt : str -> str -> str -> str.
Variable comparison_prompt : str -> str -> str.

(** [polish_prompts.get(polish_type, polish_prompts['comprehensive'])] *)
Definition prompt_func (polish_type : str) : str -> str -> str -> str :=
  if str_eqb polish_type (lit "comprehensive") then _get_comprehensive_polish_prompt
  else if str_eqb polish_type (lit "grammar") then _get_grammar_polish_prompt
  else if str_eqb polish_type (lit "structure") then _get_structure_polish_prompt
  else if str_eqb polish_type (lit "clarity") then _get_clarity_polish_prompt
  else if str_eqb polish_type (lit "citations") then _get_citations_polish_prompt
  else _get_comprehensive_polish_prompt.

Definition _polish_draft (draft_text polish_type target_audience : str)
           (memory : Memory) : M polished :=
  let research_context := _build_research_context memory in
  let prompt := prompt_func polish_type draft_text target_audience research_context in
  response <- BaseAgent.generate_response prompt ;;
  let improvements := _extract_improvements response in
  let suggestions := _extract_suggestions response in
  let quality_score := _assess_quality_score draft_text response in
  let polished_text := _extract_polished_text response draft_text in
  ret {| polished_text := polished_text;
         improvements := improvements;
         suggestions := suggestions;
         quality_score := quality_score |}.

Definition process (draft_text input_polish_type target_audience : str) : M output :=
  memory <- BaseAgent.load_memory ;;
  polished_result <- _polish_draft draft_text input_polish_type target_audience memory ;;
  timestamp <- datetime_now_isoformat ;;
  let draft_entry :=
    {| draft_timestamp := timestamp;
       original_draft := draft_text;
       polished_draft := polished_text polished_result;
       polish_type := input_polish_type;
       improvements_made := improvements polished_result;
       word_count_original := word_count draft_text;
       word_count_polished := word_count (polished_text polished_result) |} in
  let memory := append_draft draft_entry memory in
  let memory := set_flag DraftPolished memory in
  BaseAgent.save_memory memory ;;;
  ret {| status := lit "success";
         agent := agent_name;
         original_text := draft_text;
         out_polished_text := polished_text polished_result;
         out_improvements := improvements polished_result;
         out_quality_score := quality_score polished_result;
         out_suggestions := suggestions polished_result |}.

Definition compare_versions (version1 version2 : str) : M (str * nat * nat * str) :=
  analysis <- BaseAgent.generate_response (comparison_prompt version1 version2) ;;
  timestamp <- datetime_now_isoformat ;;
  ret (analysis, word_count version1, word_count version2, timestamp).

End Agent.

End DraftPolisherAgent.

(* ================================================================== *)
(** ** Vocabulary of the specification *)
(* ================================================================== *)

(** [kw] occurs in [text] when the case of the ASCII letters is ignored:
    some substring of [text] has the same letters as [kw]. *)
Definition occurs_ci (kw text : str) : Prop :=
  exists pre w post, text = pre ++ w ++ post /\ lower w = lower kw.

(** The priority rules of the draft quality score. *)
Inductive quality_rule (response : str) : Q -> Prop :=
| rule_excellent :
    occurs_ci (lit "excellent") response \/ occurs_ci (lit "high quality") response ->
    quality_rule response 9.0%Q
| rule_good :
    ~ (occurs_ci (lit "excellent") response \/ occurs_ci (lit "high quality") response) ->
    occurs_ci (lit "good") response \/ occurs_ci (lit "well") response ->
    quality_rule response 7.5%Q
| rule_improvement :
    ~ (occurs_ci (lit "excellent") response \/ occurs_ci (lit "high quality") response) ->
    ~ (occurs_ci (lit "good") response \/ occurs_ci (lit "well") response) ->
    occurs_ci (lit "improvement") response ->
    quality_rule response 6.0%Q
| rule_default :
    ~ (occurs_ci (lit "excellent") response \/ occurs_ci (lit "high quality") response) ->
    ~ (occurs_ci (lit "good") response \/ occurs_ci (lit "well") response) ->
    ~ occurs_ci (lit "improvement") response ->
    quality_rule response 7.0%Q.

(** *** Hypothesis scores *)

(** The decimal numeral of a score between 1 and 10. *)
Definition numeral (v : Z) : str :=
  if (v =? 10)%Z then [49%N; 48%N] else [Z.to_N (48 + v)].

(** The character just before the offset that follows [pre], [prev] being
    the character before [pre] itself. *)
Definition last_char (prev : option char) (pre : str) : option char :=
  match rev pre with c :: _ => Some c | [] => prev end.

(** The integer [v], between 1 and 10, stands alone at offset [i] of the
    text [s] that follows the character [prev]: its numeral is written
    there and neither the character before it nor the one after it is a
    word character. *)
Definition standalone_from (prev : option char) (s : str) (i : nat) (v : Z) : Prop :=
  (1 <= v <= 10)%Z
  /\ exists pre post,
      s = pre ++ numeral v ++ post
      /\ List.length pre = i
      /\ HypothesisValidatorAgent.word_before (last_char prev pre) = false
      /\ HypothesisValidatorAgent.word_at post = false.

Definition standalone_at (line : str) (i : nat) (v : Z) : Prop :=
  standalone_from None line i v.

(** [v] is the first standalone integer between 1 and 10 of the line. *)
Definition first_standalone (line : str) (v : Z) : Prop :=
  exists i, standalone_at line i v
            /\ forall j v', j < i -> ~ standalone_at line j v'.

(** The line names [kw]: [kw] occurs in the upper-cased line.  This is the
    letter-case-blind test that the source makes of a line for a
    criterion, a header word or a marker. *)
Definition names (kw line : str) : Prop :=
  exists pre post, upper line = pre ++ kw ++ post.

(** A keyword written in ASCII without lower-case letters, and a text
    written in ASCII. *)
Definition plain_upper (kw : str) : bool :=
  forallb (fun c => is_ascii c && negb (is_lower c)) kw.

Definition ascii_text (s : str) : bool := forallb is_ascii s.

(** The line names one of the seven criteria. *)
Definition mentions_criterion (line : str) : Prop :=
  exists kw, In kw HypothesisValidatorAgent.criteria /\ names kw line.

(** What one line of the analysis contributes: the first standalone
    integer of a line that names a criterion, nothing otherwise. *)
Inductive line_yields (line : str) : option Z -> Prop :=
| yields_score v :
    mentions_criterion line -> first_standalone line v ->
    line_yields line (Some v)
| yields_nothing_unnamed :
    ~ mentions_criterion line -> line_yields line None
| yields_nothing_unscored :
    mentions_criterion line -> (forall i v, ~ standalone_at line i v) ->
    line_yields line None.

(** The scores collected from the per-line contributions, in line order. *)
Definition collected (per_line : list (option Z)) : list Z :=
  flat_map (fun o => match o with Some v => [v] | None => [] end) per_line.

(** Arithmetic mean of a non-empty list of integers. *)
Definition mean (scores : list Z) : Q :=
  (inject_Z (fold_right Z.add 0%Z scores)
   / inject_Z (Z.of_nat (List.length scores)))%Q.

(** *** Sections and list items of a draft-polishing response *)

(** A line that opens the improvements section: it names IMPROVEMENTS or
    CORRECTIONS in any letter case. *)
Definition improvements_header (line : str) : bool :=
  contains (lit "IMPROVEMENTS") (upper line)
  || contains (lit "CORRECTIONS") (upper line).

(** A line that closes it, when it is not a header: not blank, and after
    trimming it begins with POLISHED, SUGGESTIONS or QUALITY. *)
Definition improvements_end (line : str) : bool :=
  truthy (strip line)
  && startswith_any (strip line) [lit "POLISHED"; lit "SUGGESTIONS"; lit "QUALITY"].

Definition suggestions_header (line : str) : bool :=
  contains (lit "SUGGESTIONS") (upper line).

Definition suggestions_end (line : str) : bool :=
  truthy (strip line) && startswith (strip line) (lit "QUALITY").

(** The lines inside a section: those that follow a header line, up to
    the next closing line, headers and closing lines excluded.  [inside]
    tells whether a section is open when the scan starts. *)
Fixpoint section_lines (header closing : str -> bool) (inside : bool)
         (lines : list str) : list str :=
  match lines with
  | [] => []
  | line :: rest =>
      if header line then section_lines header closing true rest
      else if closing line then section_lines header closing false rest
      else if inside then line :: section_lines header closing inside rest
      else section_lines header closing inside rest
  end.

(** The lines of a section: those that follow a header line, up to the
    next closing line.  The header line that opens the section and the
    closing line are not among them; a line that names the header word
    while the section is open is.  [inside] tells whether a section is
    open when the scan starts. *)
Fixpoint section_span (header closing : str -> bool) (inside : bool)
         (lines : list str) : list str :=
  match lines with
  | [] => []
  | line :: rest =>
      if header line
      then (if inside then [line] else [])
           ++ section_span header closing true rest
      else if closing line then section_span header closing false rest
      else (if inside then [line] else [])
           ++ section_span header closing inside rest
  end.

(** A list item: a non-blank line that, once trimmed, begins with '-',
    '*' or the bullet, or that has one of the given digits immediately
    followed by '.' within its first three characters. *)
Definition item_with_digits (digits : list char) (line : str) : bool :=
  truthy (strip line)
  && (startswith_any (strip line) [lit "-"; lit "*"; [bullet]]
      || existsb (fun d => contains [d; 46%N] (firstn 3 line)) digits).

(** The digits 1 to 9, and the digits 1 to 3. *)
Definition digits_1_9 : list char :=
  [49; 50; 51; 52; 53; 54; 55; 56; 57]%N.
Definition digits_1_3 : list char := [49; 50; 51]%N.

(** The items of the section, trimmed, in line order. *)
Definition section_items (header closing : str -> bool) (digits : list char)
           (response : str) : list str :=
  List.map strip
    (List.filter (item_with_digits digits)
       (section_lines header closing false (split_lines response))).

(** A response whose improvements section holds one item numbered 7, and
    one whose suggestions section does. *)
Definition seventh_improvement : str :=
  lit "IMPROVEMENTS MADE" ++ [newline] ++ lit "7. Fixed the tense".
Definition seventh_suggestion : str :=
  lit "SUGGESTIONS" ++ [newline] ++ lit "7. Add a figure".

(** A line in bullet style: trimmed, it begins with '-', '*' or the bullet. *)
Definition bullet_style (line : str) : bool :=
  startswith_any (strip line) [lit "-"; lit "*"; [bullet]].

(** *** The store and the gateway *)

(** Reading the backing file does not raise out of [load_memory]. *)
Definition readable (w : world) : bool :=
  match disk w with
  | Unreadable e => caught_by [FileNotFoundError; JSONDecodeError] e
  | _ => true
  end.

(** The session memory as a reader of the store sees it. *)
Definition memory_of (w : world) : Memory :=
  match disk w with
  | Document m => m
  | _ => BaseAgent.default_memory
  end.

(** The store takes the document: its location can be written and every
    string of the document can be encoded. *)
Definition accepted (m : Memory) (w : world) : bool :=
  writable w && storable m.

(** The store after a save that failed: as it was when the location could
    not be opened, truncated otherwise. *)
Definition failed_save (w : world) : world :=
  match fault w with
  | Some (OpenFails _) => w
  | _ => truncate_disk w
  end.


(** The message that stands for the model's output after a failure. *)
Definition error_text (e : exn) : str :=
  lit "Error generating response: " ++ exn_str e.

(** The text that the gateway hands back for a prompt in a given world. *)
Definition response_text (w : world) (prompt : str) : str :=
  match llm w (ticks w) prompt with
  | Returns t => t
  | Throws e => error_text e
  end.

(** A world whose model always fails with the same exception. *)
Definition failing_world (d : backing) (e : exn) : world :=
  {| disk := d; fault := None; ticks := 0;
     llm := fun _ _ => Throws e; clock := fun _ => lit "2025-01-01T00:00:00" |}.

(** A world whose model always answers the same text. *)
Definition answering_world (d : backing) (answer : str) : world :=
  {| disk := d; fault := None; ticks := 0;
     llm := fun _ _ => Returns answer; clock := fun _ => lit "2025-01-01T00:00:00" |}.

(** *** The task operations and the documents they save *)

(** The prompt templates of the three agents. *)
Record templates := {
  t_review : str -> list str -> list str -> str;
  t_recommendations : str -> list str -> str;
  t_source_quality : list str -> str;
  t_validation : str -> str -> str -> str;
  t_improvement : str -> ValidationResult -> str;
  t_alternatives : str -> str -> str -> str;
  t_comprehensive : str -> str -> str -> str;
  t_grammar : str -> str -> str -> str;
  t_structure : str -> str -> str -> str;
  t_clarity : str -> str -> str -> str;
  t_citations : str -> str -> str -> str;
  t_comparison : str -> str -> str
}.

(** The six task operations that the request layer forwards to the agents. *)
Inductive task :=
| LiteratureReview (input_data : LiteratureReviewAgent.input)
| SourceAnalysis (citations : list str)
| HypothesisValidation (hypothesis research_question : str)
| AlternativeHypotheses (research_question context : str)
| DraftPolish (draft_text polish_type target_audience : str)
| DraftComparison (version1 version2 : str).

Definition run_task (T : templates) (t : task) : M unit :=
  match t with
  | LiteratureReview input_data =>
      _ <- LiteratureReviewAgent.process (t_review T) (t_recommendations T) input_data ;;
      ret tt
  | SourceAnalysis cs =>
      _ <- LiteratureReviewAgent.analyze_source_quality (t_source_quality T) cs ;;
      ret tt
  | HypothesisValidation h q =>
      _ <- HypothesisValidatorAgent.process (t_validation T) (t_improvement T) h q ;;
      ret tt
  | AlternativeHypotheses q c =>
      _ <- HypothesisValidatorAgent.generate_alternative_hypotheses
             (t_alternatives T) q c ;;
      ret tt
  | DraftPolish d p a =>
      _ <- DraftPolisherAgent.process (t_comprehensive T) (t_grammar T)
             (t_structure T) (t_clarity T) (t_citations T) d p a ;;
      ret tt
  | DraftComparison v1 v2 =>
      _ <- DraftPolisherAgent.compare_versions (t_comparison T) v1 v2 ;;
      ret tt
  end.

(** Consecutive invocations. *)
Fixpoint run_tasks (T : templates) (ts : list task) : M unit :=
  match ts with
  | [] => ret tt
  | t :: rest => run_task T t ;;; run_tasks T rest
  end.

(** The progress flag that belongs to a task, if it has one. *)
Definition task_flag (t : task) : option flag :=
  match t with
  | LiteratureReview _ => Some LiteratureReviewCompleted
  | HypothesisValidation _ _ => Some HypothesisValidated
  | DraftPolish _ _ _ => Some DraftPolished
  | _ => None
  end.

(** The document saved by a literature review. *)
Definition reviewed (inp : LiteratureReviewAgent.input) (review_text timestamp : str)
           (m : Memory) : Memory :=
  let m := if truthy (LiteratureReviewAgent.in_research_question inp)
           then set_research_question (LiteratureReviewAgent.in_research_question inp) m
           else m in
  let m := if truthy (LiteratureReviewAgent.in_citations inp)
           then extend_citations (LiteratureReviewAgent.in_citations inp) m
           else m in
  let m := if truthy (LiteratureReviewAgent.in_notes inp)
           then extend_notes (LiteratureReviewAgent.in_notes inp) m
           else m in
  set_flag LiteratureReviewCompleted
    (append_review
       {| review_timestamp := timestamp;
          review := review_text;
          sources_analyzed := List.length (LiteratureReviewAgent.in_citations inp) |}
       m).

(** The validation result drawn from a response text. *)
Definition validation_of (response timestamp : str) : ValidationResult :=
  {| detailed_analysis := response;
     overall_score := HypothesisValidatorAgent._calculate_overall_score response;
     assessment :=
       HypothesisValidatorAgent._get_assessment_level
         (HypothesisValidatorAgent._calculate_overall_score response);
     validation_timestamp := timestamp |}.

(** The polished result drawn from a response text. *)
Definition polished_of (draft_text response : str) : DraftPolisherAgent.polished :=
  {| DraftPolisherAgent.polished_text :=
       DraftPolisherAgent._extract_polished_text response draft_text;
     DraftPolisherAgent.improvements :=
       DraftPolisherAgent._extract_improvements response;
     DraftPolisherAgent.suggestions :=
       DraftPolisherAgent._extract_suggestions response;
     DraftPolisherAgent.quality_score :=
       DraftPolisherAgent._assess_quality_score draft_text response |}.

(** The question a hypothesis is validated against. *)
Definition asked_question (input_research_question : str) (m : Memory) : str :=
  if truthy input_research_question then input_research_question
  else research_question m.

(** The documents that the three task agents hand to [save_memory] in a
    world whose store can be read. *)
Definition review_document (rp : str -> list str -> list str -> str)
           (inp : LiteratureReviewAgent.input) (w : world) : Memory :=
  reviewed inp
    (response_text w (rp (LiteratureReviewAgent.in_research_question inp)
                         (LiteratureReviewAgent.in_citations inp)
                         (LiteratureReviewAgent.in_notes inp)))
    (clock w (S (ticks w))) (memory_of w).

Definition validation_document (vp : str -> str -> str -> str)
           (h rq : str) (w : world) : Memory :=
  set_flag HypothesisValidated
    (append_hypothesis
       {| hypothesis_timestamp := clock w (S (S (ticks w)));
          hypothesis := h;
          validation :=
            validation_of
              (response_text w
                 (vp (asked_question rq (memory_of w)) h
                     (HypothesisValidatorAgent.validation_context (memory_of w))))
              (clock w (S (ticks w)));
          hypothesis_research_question := asked_question rq (memory_of w) |}
       (memory_of w)).

Definition draft_result (cpp gpp spp lpp ipp : str -> str -> str -> str)
           (draft ptype audience : str) (w : world)
  : DraftPolisherAgent.polished :=
  polished_of draft
    (response_text w
       (DraftPolisherAgent.prompt_func cpp gpp spp lpp ipp ptype draft audience
          (DraftPolisherAgent._build_research_context (memory_of w)))).

Definition draft_document (cpp gpp spp lpp ipp : str -> str -> str -> str)
           (draft ptype audience : str) (w : world) : Memory :=
  set_flag DraftPolished
    (append_draft
       {| draft_timestamp := clock w (S (ticks w));
          original_draft := draft;
          polished_draft :=
            DraftPolisherAgent.polished_text
              (draft_result cpp gpp spp lpp ipp draft ptype audience w);
          polish_type := ptype;
          improvements_made :=
            DraftPolisherAgent.improvements
              (draft_result cpp gpp spp lpp ipp draft ptype audience w);
          word_count_original := word_count draft;
          word_count_polished :=
            word_count
              (DraftPolisherAgent.polished_text
                 (draft_result cpp gpp spp lpp ipp draft ptype audience w)) |}
       (memory_of w)).

(** Twelve improvement lines in bullet style under their header. *)
Definition twelve_bullets : list str :=
  [lit "- item 1"; lit "- item 2"; lit "- item 3"; lit "- item 4";
   lit "* item 5"; lit "* item 6"; lit "- item 7"; lit "- item 8";
   lit "  - item 9"; lit "- item 10"; lit "- item 11"; lit "- item 12"].

Definition twelve_bullet_response : str :=
  join [newline] (lit "IMPROVEMENTS MADE:" :: twelve_bullets).

(** Twelve improvement lines in bullet style, three of which name the
    corrections or the improvements. *)
Definition twelve_with_corrections : list str :=
  [lit "- item 1"; lit "- item 2"; lit "- Grammar corrections applied";
   lit "- item 4"; lit "- item 5"; lit "- Structural improvements";
   lit "- item 7"; lit "- item 8"; lit "- More corrections";
   lit "- item 10"; lit "- item 11"; lit "- item 12"].

Definition twelve_with_corrections_response : str :=
  join [newline] (lit "IMPROVEMENTS MADE:" :: twelve_with_corrections).

(** A line that a recommendation list takes: not blank, with one of "1."
    to "5." somewhere in it. *)
Definition numbered_line (line : str) : bool :=
  truthy (strip line)
  && existsb (fun d => contains [d; 46%N] line) [49; 50; 51; 52; 53]%N.

(** Templates that ignore their inputs. *)
Definition plain_templates : templates :=
  {| t_review := fun _ _ _ => lit "review";
     t_recommendations := fun _ _ => lit "recommend";
     t_source_quality := fun _ => lit "sources";
     t_validation := fun _ _ _ => lit "validate";
     t_improvement := fun _ _ => lit "improve";
     t_alternatives := fun _ _ _ => lit "alternatives";
     t_comprehensive := fun _ _ _ => lit "comprehensive";
     t_grammar := fun _ _ _ => lit "grammar";
     t_structure := fun _ _ _ => lit "structure";
     t_clarity := fun _ _ _ => lit "clarity";
     t_citations := fun _ _ _ => lit "citations";
     t_comparison := fun _ _ => lit "compare" |}.

(** Two literature review requests, and a world without a backing file. *)
Definition two_citations : LiteratureReviewAgent.input :=
  {| LiteratureReviewAgent.in_research_question := [];
     LiteratureReviewAgent.in_citations := [lit "A"; lit "B"];
     LiteratureReviewAgent.in_notes := [] |}.

Definition one_citation : LiteratureReviewAgent.input :=
  {| LiteratureReviewAgent.in_research_question := lit "X";
     LiteratureReviewAgent.in_citations := [lit "C"];
     LiteratureReviewAgent.in_notes := [lit "n"] |}.

Definition first_world : world := answering_world NoFile (lit "A review.").

(** A citation and a draft that hold a lone surrogate, which UTF-8 cannot
    encode. *)
Definition lone_surrogate : str := [55296%N].   (* U+D800 *)

Definition surrogate_citation : LiteratureReviewAgent.input :=
  {| LiteratureReviewAgent.in_research_question := [];
     LiteratureReviewAgent.in_citations := [lone_surrogate];
     LiteratureReviewAgent.in_notes := [] |}.

(** A world whose store holds a question, a citation and the flag of a
    completed literature review. *)
Definition stored_memory : Memory :=
  {| research_question := lit "Does sleep help recall?";
     citations := [lit "A"];
     notes := [];
     literature_reviews := [];
     hypotheses := [];
     drafts := [];
     progress := {| literature_review_completed := true;
                    hypothesis_validated := false;
                    draft_polished := false |} |}.

Definition stored_world : world :=
  answering_world (Document stored_memory) (lit "A review.").

(** A line that names CLARITY through a letter that is not ASCII (the
    dotless i, U+0131, whose upper-case form is I), and a line whose
    first digit follows a letter that is not ASCII (U+00E9). *)
Definition dotless_clarity : str :=
  [99; 108; 97; 114; 305; 116; 121]%N ++ lit ": 8".

Definition accented_clarity : str :=
  lit "CLARITY: " ++ [233%N] ++ lit "8 then 3".

(** A failure of the model service, and a world in which every call fails so. *)
Definition quota_exceeded : exn :=
  {| exn_cls := RuntimeError; exn_str := lit "quota exceeded" |}.

Definition offline_world : world := failing_world NoFile quota_exceeded.

(** *** Auxiliary readings of the loops *)

(** The first element of [findall], from a given position. *)
Definition first_match (prev : option char) (s : str) : option Z :=
  hd_error (HypothesisValidatorAgent.findall_from prev s).

(** What the body of the scoring loop adds to [scores] for one line. *)
Definition line_scores (line : str) : list Z :=
  if contains_any HypothesisValidatorAgent.criteria (upper line)
  then firstn 1 (HypothesisValidatorAgent.findall line)
  else [].

(** *** Further vocabulary *)

(** The line names one of the seven criteria (the test of the scoring loop). *)
Definition criterion_line (line : str) : bool :=
  contains_any HypothesisValidatorAgent.criteria (upper line).

(** A line that starts an alternative hypothesis: not blank, and it has
    the word Hypothesis or begins with "1.", "2." or "3.". *)
Definition alternative_header (line : str) : bool :=
  truthy (strip line)
  && (contains (lit "Hypothesis") line
      || startswith_any line [lit "1."; lit "2."; lit "3."]).

(** The non-blank lines that continue an alternative: those before the
    next header. *)
Fixpoint continuation_lines (lines : list str) : list str :=
  match lines with
  | [] => []
  | line :: rest =>
      if alternative_header line then []
      else if truthy (strip line) then line :: continuation_lines rest
      else continuation_lines rest
  end.

(** The alternatives of a response: each header line with the lines that
    continue it. *)
Fixpoint alternative_groups (lines : list str) : list (list str) :=
  match lines with
  | [] => []
  | line :: rest =>
      if alternative_header line
      then (line :: continuation_lines rest) :: alternative_groups rest
      else alternative_groups rest
  end.

(** An alternative as it is returned: its lines joined by single spaces,
    trimmed. *)
Definition render_alternative (group : list str) : str :=
  strip (join (lit " ") group).

(** The end of [generate_alternative_hypotheses]'s parsing: the pending
    hypothesis is flushed. *)
Definition flush (state : list str * str) : list str :=
  let '(alternatives, current_hypothesis) := state in
  if truthy current_hypothesis
  then alternatives ++ [strip current_hypothesis]
  else alternatives.

(** A response with two alternatives and an introduction. *)
Definition two_alternatives : str :=
  join [newline]
       [lit "Here are some ideas:";
        lit "1. Sleep improves recall";
        lit "   because of consolidation";
        lit "";
        lit "Hypothesis B: naps do too"].

(** A grammar response one of whose bullets names the corrections. *)
Definition corrections_response : str :=
  join [newline]
       [lit "CORRECTIONS MADE:";
        lit "- Grammar corrections applied";
        lit "- Fixed a typo"].

(** A line that opens a text block, and one that closes it (when it is
    not itself an opening line). *)
Definition text_header (line : str) : bool :=
  contains_any DraftPolisherAgent.text_markers (upper line).

Definition text_end (line : str) : bool :=
  truthy (strip line) && contains_any DraftPolisherAgent.end_markers (upper line).

(** The non-blank lines of the text blocks of a response. *)
Definition polished_body (response : str) : list str :=
  List.filter (fun line => truthy (strip line))
    (section_lines text_header text_end false (split_lines response)).

(** A comprehensive response with a two-paragraph text block. *)
Definition polished_response : str :=
  join [newline]
       [lit "POLISHED TEXT:";
        lit "  Sleep helps memory.";
        lit "";
        lit "Naps help too.  ";
        lit "IMPROVEMENTS MADE:";
        lit "- Shorter sentences"].

(** Worlds whose store cannot be read, or cannot be written. *)
Definition locked_world : world :=
  {| disk := Unreadable {| exn_cls := PermissionError; exn_str := lit "denied" |};
     fault := None; ticks := 0;
     llm := fun _ _ => Returns (lit "text");
     clock := fun _ => lit "2025-01-01T00:00:00" |}.


(** The kinds of task that append to the store. *)
Definition is_review (t : task) : bool :=
  match t with LiteratureReview _ => true | _ => false end.
Definition is_validation (t : task) : bool :=
  match t with HypothesisValidation _ _ => true | _ => false end.
Definition is_polish (t : task) : bool :=
  match t with DraftPolish _ _ _ => true | _ => false end.

(** From [m] to [m'] the five sequences of the store were only extended:
    by [n_r] reviews, [n_h] hypotheses and [n_d] drafts. *)
Definition grows (n_r n_h n_d : nat) (m m' : Memory) : Prop :=
  (exists more, citations m' = citations m ++ more)
  /\ (exists more, notes m' = notes m ++ more)
  /\ (exists more, literature_reviews m' = literature_reviews m ++ more
                   /\ List.length more = n_r)
  /\ (exists more, hypotheses m' = hypotheses m ++ more
                   /\ List.length more = n_h)
  /\ (exists more, drafts m' = drafts m ++ more
                   /\ List.length more = n_d).

(** One when the test holds, zero otherwise. *)
Definition bump (b : bool) : nat := if b then 1 else 0.

(** The research question in force after a sequence of tasks that starts
    with the question [q]: the last non-empty one supplied to a
    literature review. *)
Definition question_after (q : str) (ts : list task) : str :=
  fold_left
    (fun q t =>
       match t with
       | LiteratureReview inp =>
           if truthy (LiteratureReviewAgent.in_research_question inp)
           then LiteratureReviewAgent.in_research_question inp
           else q
       | _ => q
       end)
    ts q.

(** The citations and the notes that a task hands over for storage. *)
Definition stored_citations (t : task) : list str :=
  match t with
  | LiteratureReview inp => LiteratureReviewAgent.in_citations inp
  | _ => []
  end.

Definition stored_notes (t : task) : list str :=
  match t with
  | LiteratureReview inp => LiteratureReviewAgent.in_notes inp
  | _ => []
  end.

(* ================================================================== *)
(** ** Facts about the string primitives *)
(* ================================================================== *)

Section TextFacts.

Lemma startswith_app (p post : str) : startswith (p ++ post) p = true.
Proof.
  induction p as [|a p IH]; simpl; [reflexivity|].
  now rewrite N.eqb_refl, IH.
Qed.

Lemma startswith_inv (s p : str) :
  startswith s p = true -> exists post, s = p ++ post.
Proof.
  revert s; induction p as [|a p IH]; intros s H.
  - now exists s.
  - destruct s as [|b s]; simpl in H; [discriminate|].
    apply andb_prop in H as [Hab Hs].
    apply N.eqb_eq in Hab; subst b.
    destruct (IH _ Hs) as [post ->].
    now exists post.
Qed.

Lemma contains_unfold (needle hay : str) :
  contains needle hay
  = startswith hay needle
    || match hay with [] => false | _ :: t => contains needle t end.
Proof. destruct hay; reflexivity. Qed.

Lemma contains_iff (needle hay : str) :
  contains needle hay = true <-> exists pre post, hay = pre ++ needle ++ post.
Proof.
  split.
  - induction hay as [|c hay IH]; simpl; intros H.
    + rewrite orb_false_r in H.
      apply startswith_inv in H as [post ->]. now exists [], post.
    + apply orb_prop in H as [H|H].
      * apply startswith_inv in H as [post ->]. now exists [], post.
      * destruct (IH H) as (pre & post & ->). now exists (c :: pre), post.
  - intros (pre & post & ->).
    induction pre as [|c pre IH].
    + rewrite contains_unfold, app_nil_l, startswith_app. reflexivity.
    + simpl. rewrite IH. apply orb_true_r.
Qed.

Lemma contains_any_iff (needles : list str) (hay : str) :
  contains_any needles hay = true
  <-> exists k, In k needles /\ contains k hay = true.
Proof. unfold contains_any. apply existsb_exists. Qed.

(** [kw in text.lower()] for a keyword written in lower case. *)
Lemma contains_lower_iff (kw text : str) :
  lower kw = kw ->
  contains kw (lower text) = true <-> occurs_ci kw text.
Proof.
  intros Hkw. rewrite contains_iff. unfold occurs_ci. split.
  - intros (pre & post & H). unfold lower in H.
    apply map_eq_app in H as (s1 & s23 & -> & _ & H).
    apply map_eq_app in H as (s2 & s3 & -> & H & _).
    exists s1, s2, s3. split; [reflexivity|].
    fold (lower s2) in H. now rewrite H, Hkw.
  - intros (pre & w & post & -> & H).
    exists (lower pre), (lower post). unfold lower.
    rewrite !map_app. fold (lower w). now rewrite H, Hkw.
Qed.

(** [line.upper()] *)
Lemma upper_app (a b : str) : upper (a ++ b) = upper a ++ upper b.
Proof. unfold upper. apply flat_map_app. Qed.

Lemma upper_cons (c : char) (s : str) : upper (c :: s) = upper_char c ++ upper s.
Proof. reflexivity. Qed.

(** [kw in line.upper()] *)
Lemma names_iff (kw line : str) :
  contains kw (upper line) = true <-> names kw line.
Proof. apply contains_iff. Qed.

Lemma names_false (kw line : str) :
  contains kw (upper line) = false <-> ~ names kw line.
Proof.
  rewrite <- names_iff. destruct (contains kw (upper line)); split;
    congruence.
Qed.

Lemma names_any_iff (kws : list str) (line : str) :
  contains_any kws (upper line) = true
  <-> exists kw, In kw kws /\ names kw line.
Proof.
  rewrite contains_any_iff. split; intros (kw & Hin & H); exists kw;
    (split; [exact Hin|]); now apply names_iff.
Qed.

Lemma names_any_false (kws : list str) (line : str) :
  contains_any kws (upper line) = false
  <-> forall kw, In kw kws -> ~ names kw line.
Proof.
  split.
  - intros H kw Hin Hn.
    assert (contains_any kws (upper line) = true)
      by (apply names_any_iff; now exists kw).
    congruence.
  - intros H. destruct (contains_any kws (upper line)) eqn:E; [|reflexivity].
    apply names_any_iff in E as (kw & Hin & Hn). now destruct (H kw Hin).
Qed.

(** A character with the lower-case form of an ASCII character that is
    not a lower-case letter has this character as its upper-case form. *)
Lemma upper_char_of_lower_char (c k : char) :
  is_ascii k = true -> is_lower k = false ->
  lower_char c = lower_char k -> upper_char c = [k].
Proof.
  unfold upper_char, lower_char, is_ascii, is_lower, is_upper, between.
  intros Hk Hl H. apply N.ltb_lt in Hk.
  assert (Hc : (c <? 128)%N = true).
  { apply N.ltb_lt.
    destruct (N.leb_spec 65 c), (N.leb_spec c 90),
      (N.leb_spec 65 k), (N.leb_spec k 90); simpl in H; lia. }
  rewrite Hc. f_equal.
  destruct (N.leb_spec 97 k), (N.leb_spec k 122); simpl in Hl;
    try discriminate;
    destruct (N.leb_spec 65 c), (N.leb_spec c 90),
      (N.leb_spec 65 k), (N.leb_spec k 90),
      (N.leb_spec 97 c), (N.leb_spec c 122); simpl in *; lia.
Qed.

Lemma upper_of_lower (w kw : str) :
  plain_upper kw = true -> lower w = lower kw -> upper w = kw.
Proof.
  revert kw; induction w as [|c w IH]; intros [|k kw] Hkw H;
    try discriminate; [reflexivity|].
  simpl in Hkw. apply andb_prop in Hkw as [Hk Hkw].
  apply andb_prop in Hk as [Ha Hl]. apply negb_true_iff in Hl.
  injection H as Hc Hw.
  rewrite upper_cons, (upper_char_of_lower_char c k Ha Hl Hc).
  simpl. f_equal. now apply IH.
Qed.

(** A keyword written in ASCII capitals that occurs in a line, in any
    ASCII letter case, is named by the line. *)
Lemma occurs_ci_names (kw line : str) :
  plain_upper kw = true -> occurs_ci kw line -> names kw line.
Proof.
  intros Hkw (pre & w & post & -> & H).
  exists (upper pre), (upper post).
  now rewrite !upper_app, (upper_of_lower w kw Hkw H).
Qed.

(** On a line written in ASCII the two readings agree. *)
Lemma upper_ascii (s : str) :
  ascii_text s = true ->
  upper s = List.map (fun c => if is_lower c then (c - 32)%N else c) s.
Proof.
  induction s as [|c s IH]; intros H; [reflexivity|].
  simpl in H. apply andb_prop in H as [Hc Hs].
  rewrite upper_cons, (IH Hs). unfold upper_char. now rewrite Hc.
Qed.

Lemma lower_of_upper_ascii (w kw : str) :
  ascii_text w = true ->
  List.map (fun c => if is_lower c then (c - 32)%N else c) w = kw ->
  lower w = lower kw.
Proof.
  intros Hw <-. unfold lower. rewrite map_map.
  apply map_ext_in. intros c Hin.
  unfold lower_char, is_lower, is_upper, between.
  destruct (N.leb_spec 97 c), (N.leb_spec c 122); simpl; [|reflexivity..].
  destruct (N.leb_spec 65 c), (N.leb_spec c 90); simpl; try lia.
  destruct (N.leb_spec 65 (c - 32)), (N.leb_spec (c - 32) 90); simpl; lia.
Qed.

Lemma names_ascii (kw line : str) :
  ascii_text line = true -> names kw line -> occurs_ci kw line.
Proof.
  intros Ha (pre & post & H).
  rewrite (upper_ascii _ Ha) in H.
  apply map_eq_app in H as (s1 & s23 & -> & _ & H).
  apply map_eq_app in H as (s2 & s3 & -> & H & _).
  exists s1, s2, s3. split; [reflexivity|].
  apply lower_of_upper_ascii; [|exact H].
  unfold ascii_text in *. rewrite !forallb_app in Ha.
  apply andb_prop in Ha as [_ Ha]. now apply andb_prop in Ha as [Ha _].
Qed.

End TextFacts.

(* ================================================================== *)
(** ** Draft quality score *)
(* ================================================================== *)

Section QualityScore.

Import DraftPolisherAgent.

Lemma keyword_test (kw response : str) :
  lower kw = kw ->
  if contains kw (lower response)
  then occurs_ci kw response
  else ~ occurs_ci kw response.
Proof.
  intros Hkw. destruct (contains kw (lower response)) eqn:E.
  - now apply contains_lower_iff.
  - intros H. apply (contains_lower_iff _ _ Hkw) in H. congruence.
Qed.

Ltac sniff kw response :=
  let H := fresh "H" in
  assert (H := keyword_test kw response eq_refl);
  destruct (contains kw (lower response)).

(** C2.  The draft quality score follows the four rules in priority
    order: 9.0 when the response mentions "excellent" or "high quality"
    in any letter case, otherwise 7.5 for "good" or "well", otherwise 6.0
    for "improvement", otherwise the default 7.0; a response with both
    "good" and "excellent" gets 9.0. *)
Theorem assess_quality_score_priority (original_text response : str) :
  quality_rule response (_assess_quality_score original_text response)
  /\ (occurs_ci (lit "good") response ->
      occurs_ci (lit "excellent") response ->
      _assess_quality_score original_text response = 9.0%Q).
Proof.
  unfold _assess_quality_score.
  sniff (lit "excellent") response; sniff (lit "high quality") response;
    sniff (lit "good") response; sniff (lit "well") response;
    sniff (lit "improvement") response; simpl;
    (split;
     [ first [ apply rule_excellent; tauto
             | apply rule_good; tauto
             | apply rule_improvement; tauto
             | apply rule_default; tauto ]
     | intros; first [ reflexivity | tauto ] ]).
Qed.

Lemma assess_quality_score_priority_witness :
  occurs_ci (lit "good") (lit "A good draft, excellent prose")
  /\ occurs_ci (lit "excellent") (lit "A good draft, excellent prose")
  /\ _assess_quality_score (lit "draft") (lit "A good draft, excellent prose") = 9.0%Q.
Proof.
  assert (Hg : occurs_ci (lit "good") (lit "A good draft, excellent prose")).
  { exists (lit "A "), (lit "good"), (lit " draft, excellent prose").
    split; reflexivity. }
  assert (He : occurs_ci (lit "excellent") (lit "A good draft, excellent prose")).
  { exists (lit "A good draft, "), (lit "excellent"), (lit " prose").
    split; reflexivity. }
  split; [exact Hg|]. split; [exact He|].
  exact (proj2 (assess_quality_score_priority (lit "draft")
                  (lit "A good draft, excellent prose")) Hg He).
Defined.

End QualityScore.

(* ================================================================== *)
(** ** Hypothesis overall score *)
(* ================================================================== *)

Section OverallScore.

Import HypothesisValidatorAgent.

Lemma last_char_cons prev c pre :
  last_char prev (c :: pre) = last_char (Some c) pre.
Proof.
  unfold last_char; simpl. destruct (rev pre); reflexivity.
Qed.

Lemma numeral_cases v :
  (1 <= v <= 10)%Z ->
  v = 1%Z \/ v = 2%Z \/ v = 3%Z \/ v = 4%Z \/ v = 5%Z \/ v = 6%Z
  \/ v = 7%Z \/ v = 8%Z \/ v = 9%Z \/ v = 10%Z.
Proof. lia. Qed.

Lemma score_digit_word d : between 49 57 d = true -> is_word d = true.
Proof.
  unfold is_word, is_alnum, is_ascii, is_digit, between. intros H.
  apply andb_prop in H as [H1 H2].
  apply N.leb_le in H1, H2.
  replace (d <? 128)%N with true by (symmetry; apply N.ltb_lt; lia).
  replace (48 <=? d)%N with true by (symmetry; apply N.leb_le; lia).
  now replace (d <=? 57)%N with true by (symmetry; apply N.leb_le; lia).
Qed.

Lemma score_digit_numeral d :
  between 49 57 d = true ->
  (1 <= digit_value d <= 9)%Z /\ numeral (digit_value d) = [d].
Proof.
  unfold between, digit_value, numeral. intros H.
  apply andb_prop in H as [H1 H2].
  apply N.leb_le in H1, H2.
  split; [lia|].
  destruct (Z.eqb_spec (Z.of_N d - 48) 10); [lia|].
  f_equal. lia.
Qed.

(** A match of the pattern at a position is a standalone integer at
    offset 0, and conversely. *)
Lemma match_here_sound prev s v k :
  match_here prev s = Some (v, k) -> standalone_from prev s 0 v.
Proof.
  unfold match_here. destruct (boundary prev s) eqn:Hb; [|discriminate].
  destruct s as [|d rest]; [discriminate|].
  destruct (between 49 57 d && boundary (Some d) rest) eqn:H1.
  - intros H; injection H as <- <-.
    apply andb_prop in H1 as [Hd Hr].
    destruct (score_digit_numeral d Hd) as [Hv Hn].
    pose proof (score_digit_word d Hd) as Hw.
    unfold boundary in Hb, Hr; simpl in Hb, Hr. rewrite Hw in Hb, Hr.
    split; [lia|]. exists [], rest. rewrite Hn. unfold last_char. simpl.
    repeat split.
    + now destruct (word_before prev).
    + now destruct (word_at rest).
  - destruct rest as [|z rest']; [discriminate|].
    destruct ((d =? 49)%N && (z =? 48)%N && boundary (Some z) rest') eqn:H2;
      [|discriminate].
    intros H; injection H as <- <-.
    apply andb_prop in H2 as [H2 Hr]. apply andb_prop in H2 as [Hd Hz].
    apply N.eqb_eq in Hd, Hz. subst d z.
    unfold boundary in Hb, Hr; simpl in Hb, Hr.
    split; [lia|]. exists [], rest'. unfold last_char. simpl.
    repeat split.
    + now destruct (word_before prev).
    + now destruct (word_at rest').
Qed.

Lemma match_here_complete prev s v :
  standalone_from prev s 0 v -> exists k, match_here prev s = Some (v, k).
Proof.
  intros (Hv & pre & post & -> & Hlen & Hp & Hq).
  destruct pre; [|discriminate]. simpl in *.
  unfold last_char in Hp; simpl in Hp.
  destruct (numeral_cases v Hv) as [->|[->|[->|[->|[->|[->|[->|[->|[->| ->]]]]]]]]];
    unfold match_here, boundary; simpl; rewrite ?Hp, ?Hq; simpl;
    eexists; reflexivity.
Qed.

Lemma standalone_from_cons prev c s i v :
  standalone_from prev (c :: s) (S i) v <-> standalone_from (Some c) s i v.
Proof.
  split; intros (Hv & pre & post & Hs & Hlen & Hp & Hq); (split; [exact Hv|]).
  - destruct pre as [|c' pre]; [discriminate|].
    simpl in Hs. injection Hs as <- ->. injection Hlen as Hlen.
    rewrite last_char_cons in Hp. now exists pre, post.
  - exists (c :: pre), post. subst s. simpl.
    rewrite last_char_cons. now rewrite Hlen.
Qed.

Lemma standalone_from_nil prev i v : ~ standalone_from prev [] i v.
Proof.
  intros (Hv & pre & post & Hs & _).
  destruct pre; simpl in Hs.
  - unfold numeral in Hs. destruct (v =? 10)%Z; discriminate.
  - discriminate.
Qed.

Lemma standalone_from_unique prev s i v v' :
  standalone_from prev s i v -> standalone_from prev s i v' -> v = v'.
Proof.
  revert prev s; induction i as [|i IH]; intros prev s H H'.
  - apply match_here_complete in H as [k Hk], H' as [k' Hk'].
    congruence.
  - destruct s as [|c s]; [now apply standalone_from_nil in H|].
    apply standalone_from_cons in H, H'. eauto.
Qed.

Lemma first_match_cons prev c rest :
  first_match prev (c :: rest)
  = match match_here prev (c :: rest) with
    | Some (v, _) => Some v
    | None => first_match (Some c) rest
    end.
Proof.
  unfold first_match. simpl findall_from.
  destruct (match_here prev (c :: rest)) as [[v [|[|k]]]|]; try reflexivity;
    destruct rest; reflexivity.
Qed.

Lemma first_match_spec prev s :
  match first_match prev s with
  | Some v =>
      exists i, standalone_from prev s i v
                /\ forall j v', j < i -> ~ standalone_from prev s j v'
  | None => forall i v, ~ standalone_from prev s i v
  end.
Proof.
  revert prev; induction s as [|c rest IH]; intros prev.
  - simpl. intros i v. apply standalone_from_nil.
  - rewrite first_match_cons.
    destruct (match_here prev (c :: rest)) as [[v k]|] eqn:Hm.
    + exists 0. split; [now apply match_here_sound in Hm|]. intros; lia.
    + assert (H0 : forall v, ~ standalone_from prev (c :: rest) 0 v).
      { intros v Hv. apply match_here_complete in Hv as [k Hk]. congruence. }
      specialize (IH (Some c)).
      destruct (first_match (Some c) rest) as [v|].
      * destruct IH as (i & Hi & Hlt).
        exists (S i). split; [now apply standalone_from_cons|].
        intros [|j] v' Hj; [apply H0|].
        rewrite standalone_from_cons. apply Hlt. lia.
      * intros [|i] v; [apply H0|].
        rewrite standalone_from_cons. apply IH.
Qed.

Lemma first_standalone_unique line v v' :
  first_standalone line v -> first_standalone line v' -> v = v'.
Proof.
  intros (i & Hi & Hlt) (i' & Hi' & Hlt').
  destruct (Nat.lt_trichotomy i i') as [H|[H|H]].
  - exfalso. exact (Hlt' _ _ H Hi).
  - subst i'. exact (standalone_from_unique _ _ _ _ _ Hi Hi').
  - exfalso. exact (Hlt _ _ H Hi').
Qed.

(** [numbers[0]] is the first standalone integer of the line, and
    [numbers] is empty exactly when the line has none. *)
Lemma findall_first line v :
  hd_error (findall line) = Some v <-> first_standalone line v.
Proof.
  pose proof (first_match_spec None line) as H.
  unfold first_match in H. fold (findall line) in H.
  destruct (hd_error (findall line)) as [v0|].
  - split.
    + intros E; injection E as <-. exact H.
    + intros Hv. f_equal. exact (first_standalone_unique _ _ _ H Hv).
  - split; [discriminate|].
    intros (i & Hi & _). exfalso. exact (H _ _ Hi).
Qed.

Lemma findall_none line :
  findall line = [] <-> forall i v, ~ standalone_at line i v.
Proof.
  pose proof (first_match_spec None line) as H.
  unfold first_match in H. fold (findall line) in H.
  destruct (findall line) as [|v0 l]; simpl in H.
  - split; [intros _; exact H|reflexivity].
  - split; [discriminate|].
    intros Hn. destruct H as (i & Hi & _). exfalso. exact (Hn _ _ Hi).
Qed.

Lemma score_loop_flat_map lines scores :
  score_loop lines scores = scores ++ flat_map line_scores lines.
Proof.
  revert scores; induction lines as [|line rest IH]; intros scores.
  - simpl. now rewrite app_nil_r.
  - cbn [score_loop flat_map]. unfold line_scores at 1.
    destruct (contains_any criteria (upper line)).
    + destruct (findall line) as [|n ns]; cbn [firstn app]; rewrite IH.
      * reflexivity.
      * now rewrite <- app_assoc.
    + now rewrite IH.
Qed.

Lemma criterion_test line :
  contains_any criteria (upper line) = true <-> mentions_criterion line.
Proof. apply names_any_iff. Qed.

Lemma line_scores_yields line :
  line_yields line (hd_error (line_scores line))
  /\ line_scores line = collected [hd_error (line_scores line)].
Proof.
  unfold line_scores.
  destruct (contains_any criteria (upper line)) eqn:Hc.
  - apply criterion_test in Hc.
    destruct (findall line) as [|n ns] eqn:Hf; simpl.
    + split; [|reflexivity].
      apply yields_nothing_unscored; [exact Hc|]. now apply findall_none.
    + split; [|reflexivity].
      apply yields_score; [exact Hc|].
      apply findall_first. now rewrite Hf.
  - split; [|reflexivity].
    apply yields_nothing_unnamed. intros H. apply criterion_test in H.
    congruence.
Qed.

Lemma lines_yield lines :
  Forall2 line_yields lines (List.map (fun l => hd_error (line_scores l)) lines)
  /\ flat_map line_scores lines
     = collected (List.map (fun l => hd_error (line_scores l)) lines).
Proof.
  induction lines as [|line rest [IH1 IH2]]; simpl.
  - split; constructor.
  - destruct (line_scores_yields line) as [H1 H2]. split.
    + now constructor.
    + unfold collected in *. simpl. rewrite <- IH2.
      simpl in H2. rewrite app_nil_r in H2. now rewrite <- H2.
Qed.

(** A line has one contribution only. *)
Lemma line_yields_functional line a b :
  line_yields line a -> line_yields line b -> a = b.
Proof.
  intros Ha Hb.
  destruct Ha as [v Hm Hv | Hn | Hm Hnone];
    destruct Hb as [v' Hm' Hv' | Hn' | Hm' Hnone']; try reflexivity;
    try contradiction.
  - f_equal. exact (first_standalone_unique line v v' Hv Hv').
  - destruct Hv as (i & Hi & _). exfalso. exact (Hnone' i v Hi).
  - destruct Hv' as (i & Hi & _). exfalso. exact (Hnone i v' Hi).
Qed.

Lemma lines_yield_functional lines a b :
  Forall2 line_yields lines a -> Forall2 line_yields lines b -> a = b.
Proof.
  intros Ha; revert b.
  induction Ha as [|line x lines a Hx _ IH]; intros b Hb.
  - now inversion Hb.
  - inversion Hb as [|line' y lines' b' Hy Hb']; subst.
    f_equal; [exact (line_yields_functional line x y Hx Hy)|now apply IH].
Qed.

Lemma sum_fold_right scores : sum scores = fold_right Z.add 0%Z scores.
Proof.
  unfold sum.
  assert (H : forall a, fold_left Z.add scores a
                        = (a + fold_right Z.add 0 scores)%Z).
  { induction scores as [|x l IH]; intros a; simpl.
    - lia.
    - rewrite IH. lia. }
  rewrite H. lia.
Qed.

Lemma overall_score_of_scores analysis :
  _calculate_overall_score analysis
  = match flat_map line_scores (split_lines analysis) with
    | [] => 5.0%Q
    | _ :: _ => mean (flat_map line_scores (split_lines analysis))
    end.
Proof.
  unfold _calculate_overall_score. rewrite score_loop_flat_map. simpl.
  destruct (flat_map line_scores (split_lines analysis)) as [|v l] eqn:E;
    [reflexivity|].
  unfold truthy, mean. now rewrite sum_fold_right.
Qed.

Lemma unnamed_lines_score_nothing others :
  Forall (fun l => ~ mentions_criterion l) others ->
  flat_map line_scores others = [].
Proof.
  induction 1 as [|l others Hl _ IH]; simpl; [reflexivity|].
  rewrite IH, app_nil_r. unfold line_scores.
  destruct (contains_any criteria (upper l)) eqn:E; [|reflexivity].
  apply criterion_test in E. contradiction.
Qed.

(** C1.  Every line of the analysis that names a criterion (whatever the
    letter case: the name occurs in the upper-cased line) contributes its
    first standalone integer between 1 and 10, the other lines contribute
    nothing (these contributions exist and are determined by the text),
    and the overall score is the arithmetic mean of the collected scores,
    or exactly 5.0 when nothing was collected.  When the only lines naming
    a criterion are "CLARITY: 8" and "TESTABILITY: 6", the score is 7.0.
    A criterion written in ASCII letters of any case is named. *)
Theorem calculate_overall_score_spec (analysis : str) :
  (forall kw line,
      In kw criteria -> occurs_ci kw line -> mentions_criterion line)
  /\ (exists per_line, Forall2 line_yields (split_lines analysis) per_line)
  /\ (forall per_line,
         Forall2 line_yields (split_lines analysis) per_line ->
         _calculate_overall_score analysis
         = match collected per_line with
           | [] => 5.0%Q
           | _ :: _ => mean (collected per_line)
           end)
  /\ (forall others,
         Permutation (split_lines analysis)
                     (lit "CLARITY: 8" :: lit "TESTABILITY: 6" :: others) ->
         Forall (fun l => ~ mentions_criterion l) others ->
         (_calculate_overall_score analysis == 7.0)%Q).
Proof.
  destruct (lines_yield (split_lines analysis)) as [H1 H2].
  split; [|split; [|split]].
  - intros kw line Hin H. exists kw. split; [exact Hin|].
    apply occurs_ci_names; [|exact H].
    clear H. revert kw Hin. apply Forall_forall. repeat constructor.
  - eexists. exact H1.
  - intros per_line Hp.
    rewrite (lines_yield_functional _ _ _ Hp H1), <- H2.
    apply overall_score_of_scores.
  - intros others Hperm Hothers.
    rewrite overall_score_of_scores.
    apply (Permutation_flat_map line_scores) in Hperm.
    simpl in Hperm.
    rewrite (unnamed_lines_score_nothing others Hothers) in Hperm.
    change (Permutation (flat_map line_scores (split_lines analysis))
                        [8%Z; 6%Z]) in Hperm.
    apply Permutation_sym, Permutation_length_2_inv in Hperm.
    destruct Hperm as [-> | ->]; reflexivity.
Qed.

Lemma calculate_overall_score_spec_witness :
  Permutation (split_lines (lit "CLARITY: 8" ++ [newline] ++ lit "TESTABILITY: 6"))
              (lit "CLARITY: 8" :: lit "TESTABILITY: 6" :: [])
  /\ Forall (fun l => ~ mentions_criterion l) []
  /\ (_calculate_overall_score
        (lit "CLARITY: 8" ++ [newline] ++ lit "TESTABILITY: 6") == 7.0)%Q.
Proof.
  assert (Hp : Permutation
                 (split_lines (lit "CLARITY: 8" ++ [newline] ++ lit "TESTABILITY: 6"))
                 (lit "CLARITY: 8" :: lit "TESTABILITY: 6" :: [])).
  { apply Permutation_refl. }
  split; [exact Hp|]. split; [constructor|].
  exact (proj2 (proj2 (proj2 (calculate_overall_score_spec
                         (lit "CLARITY: 8" ++ [newline] ++ lit "TESTABILITY: 6"))))
               [] Hp (Forall_nil _)).
Defined.

End OverallScore.

(* ================================================================== *)
(** ** Extractors of the draft polisher *)
(* ================================================================== *)

Section DraftExtractors.

Import DraftPolisherAgent.

Lemma is_list_item_digits line :
  truthy (strip line) && is_list_item line = item_with_digits digits_1_3 line.
Proof. reflexivity. Qed.

Lemma improvements_loop_section lines inside acc :
  improvements_loop lines inside acc
  = acc ++ List.map strip
             (List.filter (item_with_digits digits_1_3)
                (section_lines improvements_header improvements_end inside lines)).
Proof.
  revert inside acc; induction lines as [|line rest IH]; intros inside acc.
  - simpl. now rewrite app_nil_r.
  - cbn [improvements_loop section_lines].
    fold (improvements_header line). fold (improvements_end line).
    destruct (improvements_header line); [apply IH|].
    destruct (improvements_end line); [apply IH|].
    destruct inside; cbn [andb]; [|apply IH].
    cbn [List.filter]. rewrite <- is_list_item_digits.
    destruct (truthy (strip line)); cbn [andb]; [|apply IH].
    destruct (is_list_item line); rewrite IH; [|reflexivity].
    cbn [List.map]. now rewrite <- app_assoc.
Qed.

Lemma suggestions_loop_section lines inside acc :
  suggestions_loop lines inside acc
  = acc ++ List.map strip
             (List.filter (item_with_digits digits_1_3)
                (section_lines suggestions_header suggestions_end inside lines)).
Proof.
  revert inside acc; induction lines as [|line rest IH]; intros inside acc.
  - simpl. now rewrite app_nil_r.
  - cbn [suggestions_loop section_lines].
    fold (suggestions_header line). fold (suggestions_end line).
    destruct (suggestions_header line); [apply IH|].
    destruct (suggestions_end line); [apply IH|].
    destruct inside; cbn [andb]; [|apply IH].
    cbn [List.filter]. rewrite <- is_list_item_digits.
    destruct (truthy (strip line)); cbn [andb]; [|apply IH].
    destruct (is_list_item line); rewrite IH; [|reflexivity].
    cbn [List.map]. now rewrite <- app_assoc.
Qed.

Lemma section_lines_span header closing inside lines :
  section_lines header closing inside lines
  = List.filter (fun line => negb (header line))
                (section_span header closing inside lines).
Proof.
  revert inside; induction lines as [|line rest IH]; intros inside;
    [reflexivity|].
  cbn [section_lines section_span].
  destruct (header line) eqn:Hh.
  - rewrite filter_app, <- IH.
    destruct inside; cbn [List.filter]; rewrite ?Hh; reflexivity.
  - destruct (closing line); [apply IH|].
    rewrite filter_app, <- IH.
    destruct inside; cbn [List.filter]; rewrite ?Hh; reflexivity.
Qed.

Lemma filter_filter {A} (f g : A -> bool) (l : list A) :
  List.filter f (List.filter g l) = List.filter (fun x => g x && f x) l.
Proof.
  induction l as [|x l IH]; [reflexivity|]. simpl.
  destruct (g x); simpl; [destruct (f x)|]; now rewrite IH.
Qed.

Lemma improvements_loop_span lines :
  improvements_loop lines false []
  = List.map strip
      (List.filter
         (fun line => negb (improvements_header line)
                      && item_with_digits digits_1_3 line)
         (section_span improvements_header improvements_end false lines)).
Proof.
  now rewrite improvements_loop_section, section_lines_span, filter_filter.
Qed.

Lemma suggestions_loop_span lines :
  suggestions_loop lines false []
  = List.map strip
      (List.filter
         (fun line => negb (suggestions_header line)
                      && item_with_digits digits_1_3 line)
         (section_span suggestions_header suggestions_end false lines)).
Proof.
  now rewrite suggestions_loop_section, section_lines_span, filter_filter.
Qed.

(** C3 (as the code has it).  From the lines of an improvements or
    corrections section, and of a suggestions section, the extractors
    collect, in line order and trimmed, the first 10 (improvements) or
    the first 5 (suggestions) of exactly those non-blank lines that do
    not name the header word of the section (IMPROVEMENTS or CORRECTIONS;
    SUGGESTIONS) and that, once trimmed, begin with '-', '*' or the
    bullet, or have one of the digits 1, 2, 3 immediately followed by '.'
    within the first three characters of the line.  Every other line is
    discarded: so is a line beginning "7. ", and so is a bullet that
    names the corrections. *)
Theorem extractors_collect_items (response : str) :
  _extract_improvements response
  = firstn 10
      (List.map strip
         (List.filter
            (fun line => negb (improvements_header line)
                         && item_with_digits digits_1_3 line)
            (section_span improvements_header improvements_end false
                          (split_lines response))))
  /\ _extract_suggestions response
     = firstn 5
         (List.map strip
            (List.filter
               (fun line => negb (suggestions_header line)
                            && item_with_digits digits_1_3 line)
               (section_span suggestions_header suggestions_end false
                             (split_lines response))))
  /\ _extract_improvements seventh_improvement = []
  /\ _extract_suggestions seventh_suggestion = []
  /\ (section_span improvements_header improvements_end false
                   (split_lines corrections_response)
      = [lit "- Grammar corrections applied"; lit "- Fixed a typo"]
      /\ _extract_improvements corrections_response = [lit "- Fixed a typo"]).
Proof.
  unfold _extract_improvements, _extract_suggestions.
  rewrite improvements_loop_span, suggestions_loop_span.
  repeat split.
Qed.

(** C3 as stated fails: with every digit 1 to 9 accepted, the line
    "7. Fixed the tense" of the improvements section (and "7. Add a
    figure" of the suggestions section) would be collected; the
    extractors return nothing.  Nor is every bullet of a section
    collected: "- Grammar corrections applied" is inside the section, is
    not blank and begins with '-', and is dropped; and of twelve bullets
    ten are returned. *)
Lemma extractors_skip_digit_seven :
  section_items improvements_header improvements_end digits_1_9
                seventh_improvement = [lit "7. Fixed the tense"]
  /\ _extract_improvements seventh_improvement
     <> firstn 10 (section_items improvements_header improvements_end
                                 digits_1_9 seventh_improvement)
  /\ section_items suggestions_header suggestions_end digits_1_9
                   seventh_suggestion = [lit "7. Add a figure"]
  /\ _extract_suggestions seventh_suggestion
     <> firstn 5 (section_items suggestions_header suggestions_end
                                digits_1_9 seventh_suggestion)
  /\ (In (lit "- Grammar corrections applied")
         (section_span improvements_header improvements_end false
                       (split_lines corrections_response))
      /\ bullet_style (lit "- Grammar corrections applied") = true
      /\ ~ In (lit "- Grammar corrections applied")
             (_extract_improvements corrections_response))
  /\ (List.filter bullet_style
         (section_span improvements_header improvements_end false
                       (split_lines twelve_bullet_response))
      = twelve_bullets
      /\ List.length (_extract_improvements twelve_bullet_response) = 10).
Proof.
  split; [reflexivity|]. split; [vm_compute; discriminate|].
  split; [reflexivity|]. split; [vm_compute; discriminate|].
  split.
  - split; [left; reflexivity|]. split; [reflexivity|].
    vm_compute. intros [H|[]]. discriminate H.
  - split; reflexivity.
Qed.

Lemma polished_loop_no_marker lines :
  Forall (fun line => contains_any text_markers (upper line) = false) lines ->
  polished_loop lines false [] = [].
Proof.
  induction 1 as [|line rest Hl _ IH]; [reflexivity|].
  cbn [polished_loop]. rewrite Hl.
  destruct (truthy (strip line) && contains_any end_markers (upper line));
    exact IH.
Qed.

(** C4.  When no line of the response names one of the five text-block
    markers (whatever the letter case: the marker does not occur in the
    upper-cased line), the extractor returns the original draft text
    itself; the extractor is a total function, so this fallback is a
    normal return. *)
Theorem extract_polished_text_fallback (response original_text : str) :
  (forall line marker,
      In line (split_lines response) -> In marker text_markers ->
      ~ names marker line) ->
  _extract_polished_text response original_text = original_text.
Proof.
  intros Hno. unfold _extract_polished_text.
  rewrite polished_loop_no_marker; [reflexivity|].
  apply Forall_forall. intros line Hin.
  apply names_any_false. intros marker Hm. now apply Hno.
Qed.

Lemma extract_polished_text_fallback_witness :
  (forall line marker,
      In line (split_lines (lit "Here is a tidier paragraph.")) ->
      In marker text_markers ->
      ~ names marker line)
  /\ _extract_polished_text (lit "Here is a tidier paragraph.") (lit "my draft")
     = lit "my draft".
Proof.
  assert (Hno : forall line marker,
             In line (split_lines (lit "Here is a tidier paragraph.")) ->
             In marker text_markers ->
             ~ names marker line).
  { intros line marker [<-|[]] Hm.
    simpl in Hm.
    destruct Hm as [<-|[<-|[<-|[<-|[<-|[]]]]]];
      (apply names_false; reflexivity). }
  split; [exact Hno|].
  exact (extract_polished_text_fallback (lit "Here is a tidier paragraph.")
                                        (lit "my draft") Hno).
Defined.

Lemma bullet_style_item digits line :
  bullet_style line = true -> item_with_digits digits line = true.
Proof.
  unfold bullet_style, item_with_digits. intros H. rewrite H.
  rewrite orb_true_l, andb_true_r.
  destruct (strip line); [discriminate H|reflexivity].
Qed.

End DraftExtractors.

(* ================================================================== *)
(** ** Memory store and generation gateway *)
(* ================================================================== *)

Section StoreAndGateway.

Import BaseAgent.

Lemma bind_ok {A B} (c : M A) (k : A -> M B) w a w' :
  c w = Ok a w' -> bind c k w = k a w'.
Proof. unfold bind. now intros ->. Qed.

Lemma bind_raise {A B} (c : M A) (k : A -> M B) w e w' :
  c w = Raise e w' -> bind c k w = Raise e w'.
Proof. unfold bind. now intros ->. Qed.

Lemma load_memory_run w :
  load_memory w
  = if readable w then Ok (memory_of w) w
    else match disk w with
         | Unreadable e => Raise e w
         | _ => Ok (memory_of w) w
         end.
Proof.
  unfold load_memory, try_except, open_and_load, readable, memory_of.
  destruct (disk w) as [| s | | e | m]; reflexivity.
Qed.

Lemma load_memory_readable w :
  readable w = true -> load_memory w = Ok (memory_of w) w.
Proof. intros H. now rewrite load_memory_run, H. Qed.

Lemma load_memory_unreadable w :
  readable w = false -> exists e, load_memory w = Raise e w.
Proof.
  intros H. rewrite load_memory_run, H.
  unfold readable in H. destruct (disk w) as [| s | | e | m]; try discriminate.
  now exists e.
Qed.

Lemma save_memory_accepted m w :
  accepted m w = true -> save_memory m w = Ok tt (write_disk m w).
Proof.
  unfold accepted, writable, save_memory.
  destruct (fault w); [discriminate|]. simpl. now intros ->.
Qed.

Lemma save_memory_refused m w :
  accepted m w = false -> exists e, save_memory m w = Raise e (failed_save w).
Proof.
  unfold accepted, writable, save_memory, failed_save.
  destruct (fault w) as [[e|e]|]; simpl.
  - now exists e.
  - now exists e.
  - intros ->. eexists. reflexivity.
Qed.

Lemma exception_catches_all e : caught_by [Exception] e = true.
Proof. destruct e as [c s]; destruct c; reflexivity. Qed.

Lemma generate_response_run prompt w :
  generate_response prompt w = Ok (response_text w prompt) (tick w).
Proof.
  unfold generate_response, try_except, model_generate_content, response_text.
  destruct (llm w (ticks w) prompt) as [t|e]; [reflexivity|].
  now rewrite exception_catches_all.
Qed.

Lemma datetime_now_run w :
  datetime_now_isoformat w = Ok (clock w (ticks w)) (tick w).
Proof. reflexivity. Qed.




End StoreAndGateway.

(* ================================================================== *)
(** ** One invocation of each task *)
(* ================================================================== *)

Section AgentRuns.

Import BaseAgent.

Ltac step H := rewrite (bind_ok _ _ _ _ _ H).
Ltac stop H := rewrite (bind_raise _ _ _ _ _ H).

Lemma generate_recommendations_run cp rq cits w :
  LiteratureReviewAgent._generate_recommendations cp rq cits w
  = Ok (LiteratureReviewAgent.parse_recommendations (response_text w (cp rq cits)))
       (tick w).
Proof.
  unfold LiteratureReviewAgent._generate_recommendations.
  now step (generate_response_run (cp rq cits) w).
Qed.

(** A literature review whose document the store takes. *)
Lemma literature_process_run rp cp inp w :
  readable w = true -> accepted (review_document rp inp w) w = true ->
  let review_text :=
    response_text w (rp (LiteratureReviewAgent.in_research_question inp)
                        (LiteratureReviewAgent.in_citations inp)
                        (LiteratureReviewAgent.in_notes inp)) in
  exists out w',
    LiteratureReviewAgent.process rp cp inp w = Ok out w'
    /\ disk w' = Document (reviewed inp review_text (clock w (S (ticks w)))
                                    (memory_of w))
    /\ fault w' = fault w
    /\ LiteratureReviewAgent.out_review out = review_text
    /\ LiteratureReviewAgent.out_sources_analyzed out
       = List.length (LiteratureReviewAgent.in_citations inp).
Proof.
  intros Hr Hw review_text. unfold LiteratureReviewAgent.process.
  step (load_memory_readable w Hr).
  unfold LiteratureReviewAgent._generate_literature_review.
  step (generate_response_run
          (rp (LiteratureReviewAgent.in_research_question inp)
              (LiteratureReviewAgent.in_citations inp)
              (LiteratureReviewAgent.in_notes inp)) w).
  step (datetime_now_run (tick w)).
  step (save_memory_accepted (review_document rp inp w) (tick (tick w)) Hw).
  match goal with
  | |- context [LiteratureReviewAgent._generate_recommendations cp ?q ?c] =>
      step (generate_recommendations_run cp q c
              (write_disk (review_document rp inp w) (tick (tick w))))
  end.
  unfold ret. eexists. eexists. split; [reflexivity|].
  simpl. repeat split.
Qed.

(** A literature review whose document the store does not take. *)
Lemma literature_process_fails rp cp inp w :
  readable w = true -> accepted (review_document rp inp w) w = false ->
  exists e,
    LiteratureReviewAgent.process rp cp inp w
    = Raise e (failed_save (tick (tick w))).
Proof.
  intros Hr Hw. unfold LiteratureReviewAgent.process.
  step (load_memory_readable w Hr).
  unfold LiteratureReviewAgent._generate_literature_review.
  step (generate_response_run
          (rp (LiteratureReviewAgent.in_research_question inp)
              (LiteratureReviewAgent.in_citations inp)
              (LiteratureReviewAgent.in_notes inp)) w).
  step (datetime_now_run (tick w)).
  destruct (save_memory_refused (review_document rp inp w) (tick (tick w)) Hw)
    as [e He].
  exists e. now stop He.
Qed.

Lemma literature_process_unreadable rp cp inp w :
  readable w = false ->
  exists e, LiteratureReviewAgent.process rp cp inp w = Raise e w.
Proof.
  intros Hr. destruct (load_memory_unreadable w Hr) as [e He].
  exists e. unfold LiteratureReviewAgent.process. now stop He.
Qed.

(** A literature review completes exactly when the store can be read and
    takes the document; the document is then the content of the store. *)
Lemma literature_process_completes rp cp inp w out w' :
  LiteratureReviewAgent.process rp cp inp w = Ok out w' ->
  readable w = true
  /\ accepted (review_document rp inp w) w = true
  /\ disk w' = Document (review_document rp inp w)
  /\ fault w' = fault w.
Proof.
  intros H. destruct (readable w) eqn:Hr.
  - destruct (accepted (review_document rp inp w) w) eqn:Ha.
    + destruct (literature_process_run rp cp inp w Hr Ha)
        as (out0 & w0 & Hrun & Hd & Hf & _).
      rewrite Hrun in H. injection H as _ <-. now repeat split.
    + destruct (literature_process_fails rp cp inp w Hr Ha) as [e He].
      congruence.
  - destruct (literature_process_unreadable rp cp inp w Hr) as [e He].
    congruence.
Qed.

Lemma analyze_source_quality_run sp cits w :
  exists out,
    LiteratureReviewAgent.analyze_source_quality sp cits w
    = Ok out (tick (tick w)).
Proof.
  unfold LiteratureReviewAgent.analyze_source_quality.
  step (generate_response_run (sp cits) w).
  step (datetime_now_run (tick w)).
  eexists. reflexivity.
Qed.

Lemma validate_hypothesis_run vp h rq m w :
  HypothesisValidatorAgent._validate_hypothesis vp h rq m w
  = Ok (validation_of
          (response_text w (vp rq h (HypothesisValidatorAgent.validation_context m)))
          (clock w (S (ticks w))))
       (tick (tick w)).
Proof.
  unfold HypothesisValidatorAgent._validate_hypothesis.
  step (generate_response_run
          (vp rq h (HypothesisValidatorAgent.validation_context m)) w).
  now step (datetime_now_run (tick w)).
Qed.

Lemma improvement_recommendations_run ip h v w :
  HypothesisValidatorAgent._generate_improvement_recommendations ip h v w
  = Ok (HypothesisValidatorAgent.parse_recommendations (response_text w (ip h v)))
       (tick w).
Proof.
  unfold HypothesisValidatorAgent._generate_improvement_recommendations.
  now step (generate_response_run (ip h v) w).
Qed.

Lemma asked_question_test rq m :
  (if negb (truthy rq) then research_question m else rq) = asked_question rq m.
Proof. unfold asked_question. now destruct (truthy rq). Qed.

(** A hypothesis validation whose document the store takes. *)
Lemma hypothesis_process_run vp ip h rq w :
  readable w = true -> accepted (validation_document vp h rq w) w = true ->
  let asked := asked_question rq (memory_of w) in
  let v := validation_of
             (response_text w
                (vp asked h (HypothesisValidatorAgent.validation_context (memory_of w))))
             (clock w (S (ticks w))) in
  exists out w',
    HypothesisValidatorAgent.process vp ip h rq w = Ok out w'
    /\ disk w'
       = Document
           (set_flag HypothesisValidated
              (append_hypothesis
                 {| hypothesis_timestamp := clock w (S (S (ticks w)));
                    hypothesis := h;
                    validation := v;
                    hypothesis_research_question := asked |}
                 (memory_of w)))
    /\ fault w' = fault w
    /\ HypothesisValidatorAgent.out_validation out = v
    /\ HypothesisValidatorAgent.out_hypothesis out = h.
Proof.
  intros Hr Hw asked v. unfold HypothesisValidatorAgent.process.
  step (load_memory_readable w Hr).
  rewrite asked_question_test. fold asked.
  step (validate_hypothesis_run vp h asked (memory_of w) w).
  step (datetime_now_run (tick (tick w))).
  step (save_memory_accepted (validation_document vp h rq w)
          (tick (tick (tick w))) Hw).
  match goal with
  | |- context [bind (HypothesisValidatorAgent._generate_improvement_recommendations
                        ip ?a ?b) _ ?w0] =>
      step (improvement_recommendations_run ip a b w0)
  end.
  unfold ret. eexists. eexists. split; [reflexivity|].
  simpl. repeat split.
Qed.

Lemma hypothesis_process_fails vp ip h rq w :
  readable w = true -> accepted (validation_document vp h rq w) w = false ->
  exists e,
    HypothesisValidatorAgent.process vp ip h rq w
    = Raise e (failed_save (tick (tick (tick w)))).
Proof.
  intros Hr Hw. unfold HypothesisValidatorAgent.process.
  step (load_memory_readable w Hr).
  rewrite asked_question_test.
  step (validate_hypothesis_run vp h (asked_question rq (memory_of w))
          (memory_of w) w).
  step (datetime_now_run (tick (tick w))).
  destruct (save_memory_refused (validation_document vp h rq w)
              (tick (tick (tick w))) Hw) as [e He].
  exists e. now stop He.
Qed.

Lemma hypothesis_process_unreadable vp ip h rq w :
  readable w = false ->
  exists e, HypothesisValidatorAgent.process vp ip h rq w = Raise e w.
Proof.
  intros Hr. destruct (load_memory_unreadable w Hr) as [e He].
  exists e. unfold HypothesisValidatorAgent.process. now stop He.
Qed.

Lemma hypothesis_process_completes vp ip h rq w out w' :
  HypothesisValidatorAgent.process vp ip h rq w = Ok out w' ->
  readable w = true
  /\ accepted (validation_document vp h rq w) w = true
  /\ disk w' = Document (validation_document vp h rq w)
  /\ fault w' = fault w.
Proof.
  intros H. destruct (readable w) eqn:Hr.
  - destruct (accepted (validation_document vp h rq w) w) eqn:Ha.
    + destruct (hypothesis_process_run vp ip h rq w Hr Ha)
        as (out0 & w0 & Hrun & Hd & Hf & _).
      rewrite Hrun in H. injection H as _ <-. now repeat split.
    + destruct (hypothesis_process_fails vp ip h rq w Hr Ha) as [e He].
      congruence.
  - destruct (hypothesis_process_unreadable vp ip h rq w Hr) as [e He].
    congruence.
Qed.

Lemma alternative_hypotheses_run ap rq ctx w :
  readable w = true ->
  exists alts,
    HypothesisValidatorAgent.generate_alternative_hypotheses ap rq ctx w
    = Ok (HypothesisValidatorAgent.parse_alternatives alts) (tick w).
Proof.
  intros Hr. unfold HypothesisValidatorAgent.generate_alternative_hypotheses.
  step (load_memory_readable w Hr).
  match goal with
  | |- context [generate_response ?p] => step (generate_response_run p w)
  end.
  eexists. reflexivity.
Qed.

Lemma polish_draft_run cpp gpp spp lpp ipp draft ptype audience m w :
  DraftPolisherAgent._polish_draft cpp gpp spp lpp ipp draft ptype audience m w
  = Ok (polished_of draft
          (response_text w
             (DraftPolisherAgent.prompt_func cpp gpp spp lpp ipp ptype draft audience
                (DraftPolisherAgent._build_research_context m))))
       (tick w).
Proof.
  unfold DraftPolisherAgent._polish_draft.
  match goal with
  | |- context [generate_response ?p] => step (generate_response_run p w)
  end.
  reflexivity.
Qed.

(** A draft polishing whose document the store takes. *)
Lemma draft_process_run cpp gpp spp lpp ipp draft ptype audience w :
  readable w = true ->
  accepted (draft_document cpp gpp spp lpp ipp draft ptype audience w) w = true ->
  let p := polished_of draft
             (response_text w
                (DraftPolisherAgent.prompt_func cpp gpp spp lpp ipp ptype draft audience
                   (DraftPolisherAgent._build_research_context (memory_of w)))) in
  exists out w',
    DraftPolisherAgent.process cpp gpp spp lpp ipp draft ptype audience w = Ok out w'
    /\ disk w'
       = Document
           (set_flag DraftPolished
              (append_draft
                 {| draft_timestamp := clock w (S (ticks w));
                    original_draft := draft;
                    polished_draft := DraftPolisherAgent.polished_text p;
                    polish_type := ptype;
                    improvements_made := DraftPolisherAgent.improvements p;
                    word_count_original := word_count draft;
                    word_count_polished :=
                      word_count (DraftPolisherAgent.polished_text p) |}
                 (memory_of w)))
    /\ fault w' = fault w
    /\ DraftPolisherAgent.out_polished_text out = DraftPolisherAgent.polished_text p
    /\ DraftPolisherAgent.out_improvements out = DraftPolisherAgent.improvements p
    /\ DraftPolisherAgent.out_suggestions out = DraftPolisherAgent.suggestions p
    /\ DraftPolisherAgent.out_quality_score out = DraftPolisherAgent.quality_score p
    /\ DraftPolisherAgent.original_text out = draft.
Proof.
  intros Hr Hw p. unfold DraftPolisherAgent.process.
  step (load_memory_readable w Hr).
  step (polish_draft_run cpp gpp spp lpp ipp draft ptype audience (memory_of w) w).
  step (datetime_now_run (tick w)).
  step (save_memory_accepted
          (draft_document cpp gpp spp lpp ipp draft ptype audience w)
          (tick (tick w)) Hw).
  unfold ret. eexists. eexists. split; [reflexivity|].
  simpl. repeat split.
Qed.

Lemma draft_process_fails cpp gpp spp lpp ipp draft ptype audience w :
  readable w = true ->
  accepted (draft_document cpp gpp spp lpp ipp draft ptype audience w) w = false ->
  exists e,
    DraftPolisherAgent.process cpp gpp spp lpp ipp draft ptype audience w
    = Raise e (failed_save (tick (tick w))).
Proof.
  intros Hr Hw. unfold DraftPolisherAgent.process.
  step (load_memory_readable w Hr).
  step (polish_draft_run cpp gpp spp lpp ipp draft ptype audience (memory_of w) w).
  step (datetime_now_run (tick w)).
  destruct (save_memory_refused
              (draft_document cpp gpp spp lpp ipp draft ptype audience w)
              (tick (tick w)) Hw) as [e He].
  exists e. now stop He.
Qed.

Lemma draft_process_unreadable cpp gpp spp lpp ipp draft ptype audience w :
  readable w = false ->
  exists e,
    DraftPolisherAgent.process cpp gpp spp lpp ipp draft ptype audience w
    = Raise e w.
Proof.
  intros Hr. destruct (load_memory_unreadable w Hr) as [e He].
  exists e. unfold DraftPolisherAgent.process. now stop He.
Qed.

Lemma draft_process_completes cpp gpp spp lpp ipp draft ptype audience w out w' :
  DraftPolisherAgent.process cpp gpp spp lpp ipp draft ptype audience w
  = Ok out w' ->
  readable w = true
  /\ accepted (draft_document cpp gpp spp lpp ipp draft ptype audience w) w = true
  /\ disk w' = Document (draft_document cpp gpp spp lpp ipp draft ptype audience w)
  /\ fault w' = fault w.
Proof.
  intros H. destruct (readable w) eqn:Hr.
  - destruct (accepted (draft_document cpp gpp spp lpp ipp draft ptype audience w) w)
      eqn:Ha.
    + destruct (draft_process_run cpp gpp spp lpp ipp draft ptype audience w Hr Ha)
        as (out0 & w0 & Hrun & Hd & Hf & _).
      rewrite Hrun in H. injection H as _ <-. now repeat split.
    + destruct (draft_process_fails cpp gpp spp lpp ipp draft ptype audience w Hr Ha)
        as [e He].
      congruence.
  - destruct (draft_process_unreadable cpp gpp spp lpp ipp draft ptype audience w Hr)
      as [e He].
    congruence.
Qed.

Lemma compare_versions_run cp v1 v2 w :
  exists out,
    DraftPolisherAgent.compare_versions cp v1 v2 w = Ok out (tick (tick w)).
Proof.
  unfold DraftPolisherAgent.compare_versions.
  step (generate_response_run (cp v1 v2) w).
  step (datetime_now_run (tick w)).
  eexists. reflexivity.
Qed.

End AgentRuns.

(* ================================================================== *)
(** ** What the task agents do to the session memory *)
(* ================================================================== *)

Section MemoryEffects.

Import LiteratureReviewAgent.

Lemma truthy_false_nil {A} (l : list A) : truthy l = false -> l = [].
Proof. destruct l; [reflexivity|discriminate]. Qed.

Lemma reviewed_research_question inp r ts m :
  research_question (reviewed inp r ts m)
  = if truthy (in_research_question inp) then in_research_question inp
    else research_question m.
Proof.
  unfold reviewed.
  destruct (truthy (in_research_question inp)), (truthy (in_citations inp)),
    (truthy (in_notes inp)); reflexivity.
Qed.

Lemma reviewed_citations inp r ts m :
  citations (reviewed inp r ts m) = citations m ++ in_citations inp.
Proof.
  unfold reviewed.
  destruct (truthy (in_citations inp)) eqn:E.
  - destruct (truthy (in_research_question inp)), (truthy (in_notes inp));
      reflexivity.
  - apply truthy_false_nil in E. rewrite E, app_nil_r.
    destruct (truthy (in_research_question inp)), (truthy (in_notes inp));
      reflexivity.
Qed.

Lemma reviewed_notes inp r ts m :
  notes (reviewed inp r ts m) = notes m ++ in_notes inp.
Proof.
  unfold reviewed.
  destruct (truthy (in_notes inp)) eqn:E.
  - destruct (truthy (in_research_question inp)), (truthy (in_citations inp));
      reflexivity.
  - apply truthy_false_nil in E. rewrite E, app_nil_r.
    destruct (truthy (in_research_question inp)), (truthy (in_citations inp));
      reflexivity.
Qed.

Lemma reviewed_rest inp r ts m :
  literature_reviews (reviewed inp r ts m)
  = literature_reviews m
    ++ [{| review_timestamp := ts; review := r;
           sources_analyzed := List.length (in_citations inp) |}]
  /\ hypotheses (reviewed inp r ts m) = hypotheses m
  /\ drafts (reviewed inp r ts m) = drafts m
  /\ progress (reviewed inp r ts m)
     = progress (set_flag LiteratureReviewCompleted m).
Proof.
  unfold reviewed.
  destruct (truthy (in_research_question inp)), (truthy (in_citations inp)),
    (truthy (in_notes inp)); repeat split.
Qed.

Lemma set_flag_sets f m : get_flag f (progress (set_flag f m)) = true.
Proof. destruct f; reflexivity. Qed.

Lemma set_flag_keeps g f m :
  get_flag f (progress m) = true -> get_flag f (progress (set_flag g m)) = true.
Proof. destruct f, g; simpl; auto. Qed.

Lemma set_flag_other g f m :
  f <> g -> get_flag f (progress (set_flag g m)) = get_flag f (progress m).
Proof. destruct f, g; simpl; congruence. Qed.

(** C10 (as the code has it).  A literature review that completes
    overwrites the stored research question only when a non-empty one is
    supplied, and extends the stored citations and notes only when the
    supplied list is non-empty; a field whose input is empty is saved
    exactly as it was.  The rest of the step goes on as usual: one review
    entry is appended, the literature flag is set, the other fields are
    untouched. *)
Theorem literature_review_frame rp cp (inp : input) (w : world) out w' :
  process rp cp inp w = Ok out w' ->
  exists m',
    disk w' = Document m'
    /\ (in_research_question inp <> [] ->
        research_question m' = in_research_question inp)
    /\ (in_research_question inp = [] ->
        research_question m' = research_question (memory_of w))
    /\ (in_citations inp <> [] ->
        citations m' = citations (memory_of w) ++ in_citations inp)
    /\ (in_citations inp = [] -> citations m' = citations (memory_of w))
    /\ (in_notes inp <> [] -> notes m' = notes (memory_of w) ++ in_notes inp)
    /\ (in_notes inp = [] -> notes m' = notes (memory_of w))
    /\ (exists entry,
           literature_reviews m' = literature_reviews (memory_of w) ++ [entry]
           /\ review entry = out_review out
           /\ sources_analyzed entry = List.length (in_citations inp))
    /\ hypotheses m' = hypotheses (memory_of w)
    /\ drafts m' = drafts (memory_of w)
    /\ literature_review_completed (progress m') = true
    /\ hypothesis_validated (progress m')
       = hypothesis_validated (progress (memory_of w))
    /\ draft_polished (progress m') = draft_polished (progress (memory_of w)).
Proof.
  intros Hok.
  destruct (literature_process_completes rp cp inp w out w' Hok)
    as (Hr & Ha & _ & _).
  destruct (literature_process_run rp cp inp w Hr Ha)
    as (out0 & w0 & Hrun & Hdisk & _ & Hrev & _).
  rewrite Hok in Hrun. injection Hrun as <- <-.
  eexists. split; [exact Hdisk|].
  rewrite reviewed_research_question, reviewed_citations, reviewed_notes.
  destruct (reviewed_rest inp
              (response_text w (rp (in_research_question inp) (in_citations inp)
                                   (in_notes inp)))
              (clock w (S (ticks w))) (memory_of w))
    as (Hl & Hh & Hd & Hp).
  rewrite Hl, Hh, Hd, Hp.
  repeat split.
  - intros Hne. destruct (in_research_question inp); [contradiction|reflexivity].
  - intros ->. reflexivity.
  - intros ->. now rewrite app_nil_r.
  - intros ->. now rewrite app_nil_r.
  - eexists. split; [reflexivity|]. split; [|reflexivity].
    simpl. now rewrite Hrev.
Qed.

Lemma literature_review_frame_witness :
  exists out w',
    process (t_review plain_templates) (t_recommendations plain_templates)
            two_citations stored_world
    = Ok out w'
    /\ exists m',
        disk w' = Document m'
        /\ research_question m' = lit "Does sleep help recall?"
        /\ citations m' = [lit "A"; lit "A"; lit "B"]
        /\ notes m' = [].
Proof.
  assert (E : exists out w',
             process (t_review plain_templates)
                     (t_recommendations plain_templates)
                     two_citations stored_world = Ok out w').
  { vm_compute. eexists. eexists. reflexivity. }
  destruct E as (out & w' & E). exists out, w'. split; [exact E|].
  destruct (literature_review_frame (t_review plain_templates)
              (t_recommendations plain_templates) two_citations stored_world
              out w' E)
    as (m' & Hdisk & _ & Hq & Hc & _ & _ & Hn & _).
  exists m'. split; [exact Hdisk|].
  split; [exact (Hq eq_refl)|].
  split; [apply Hc; discriminate|].
  exact (Hn eq_refl).
Defined.

(** C10 as stated fails: a literature review with an empty research
    question, whose only citation holds a lone surrogate, does not
    complete: [json.dump] raises UnicodeEncodeError after the file was
    emptied, and the stored research question is lost, not unchanged. *)
Lemma literature_review_loses_question :
  in_research_question surrogate_citation = []
  /\ research_question (memory_of stored_world) = lit "Does sleep help recall?"
  /\ exists e w',
      process (t_review plain_templates) (t_recommendations plain_templates)
              surrogate_citation stored_world
      = Raise e w'
      /\ exn_cls e = UnicodeEncodeError
      /\ disk w' = Truncated
      /\ research_question (memory_of w') = []
      /\ research_question (memory_of w')
         <> research_question (memory_of stored_world).
Proof.
  split; [reflexivity|]. split; [reflexivity|].
  vm_compute. eexists. eexists. split; [reflexivity|].
  repeat split. discriminate.
Qed.

Lemma memory_of_document w m : disk w = Document m -> memory_of w = m.
Proof. unfold memory_of. now intros ->. Qed.

Lemma memory_of_same_disk w w' : disk w' = disk w -> memory_of w' = memory_of w.
Proof. unfold memory_of. now intros ->. Qed.

Lemma bind_ret_inv {A} (c : M A) w w' :
  bind c (fun _ => ret tt) w = Ok tt w' -> exists a, c w = Ok a w'.
Proof.
  unfold bind, ret. destruct (c w) as [a w0|e w0]; [|discriminate].
  intros H. injection H as <-. now exists a.
Qed.

Lemma alternative_hypotheses_unreadable ap rq ctx w :
  readable w = false ->
  exists e,
    HypothesisValidatorAgent.generate_alternative_hypotheses ap rq ctx w
    = Raise e w.
Proof.
  intros Hr. destruct (load_memory_unreadable w Hr) as [e He].
  exists e. unfold HypothesisValidatorAgent.generate_alternative_hypotheses.
  now rewrite (bind_raise _ _ _ _ _ He).
Qed.

(** The document that a task saves, if it saves one. *)
Lemma run_task_completes T t w w' :
  run_task T t w = Ok tt w' ->
  match t with
  | LiteratureReview inp =>
      disk w' = Document (review_document (t_review T) inp w)
  | HypothesisValidation h q =>
      disk w' = Document (validation_document (t_validation T) h q w)
  | DraftPolish d p a =>
      disk w'
      = Document (draft_document (t_comprehensive T) (t_grammar T)
                    (t_structure T) (t_clarity T) (t_citations T) d p a w)
  | _ => disk w' = disk w
  end.
Proof.
  destruct t as [inp | cs | h q | q c | d p a | v1 v2]; unfold run_task;
    intros H; apply bind_ret_inv in H as [out H].
  - now apply literature_process_completes in H.
  - destruct (analyze_source_quality_run (t_source_quality T) cs w) as [o Ho].
    rewrite Ho in H. now injection H as _ <-.
  - now apply hypothesis_process_completes in H.
  - destruct (readable w) eqn:Hr.
    + destruct (alternative_hypotheses_run (t_alternatives T) q c w Hr)
        as [alts Ho].
      rewrite Ho in H. now injection H as _ <-.
    + destruct (alternative_hypotheses_unreadable (t_alternatives T) q c w Hr)
        as [e He].
      congruence.
  - now apply draft_process_completes in H.
  - destruct (compare_versions_run (t_comparison T) v1 v2 w) as [o Ho].
    rewrite Ho in H. now injection H as _ <-.
Qed.

Lemma run_tasks_cons_inv T t ts w w' :
  run_tasks T (t :: ts) w = Ok tt w' ->
  exists w1, run_task T t w = Ok tt w1 /\ run_tasks T ts w1 = Ok tt w'.
Proof.
  cbn [run_tasks]. unfold bind at 1.
  destruct (run_task T t w) as [[] w1|e w1]; [|discriminate].
  intros H. now exists w1.
Qed.

(** A task that completes sets its own flag and resets none. *)
Lemma run_task_flags T t w w' :
  run_task T t w = Ok tt w' ->
  (forall f, task_flag t = Some f ->
             exists m', disk w' = Document m'
                        /\ get_flag f (progress m') = true)
  /\ (forall f, get_flag f (progress (memory_of w)) = true ->
                get_flag f (progress (memory_of w')) = true).
Proof.
  intros H. apply run_task_completes in H.
  destruct t as [inp | cs | h q | q c | d p a | v1 v2]; simpl task_flag.
  - unfold review_document in H.
    match type of H with
    | _ = Document (reviewed ?i ?r ?ts ?m) =>
        destruct (reviewed_rest i r ts m) as (_ & _ & _ & Hp)
    end.
    split.
    + intros f [= <-]. eexists. split; [exact H|].
      rewrite Hp. apply set_flag_sets.
    + intros f Hf. rewrite (memory_of_document _ _ H), Hp.
      now apply set_flag_keeps.
  - split; [discriminate|]. intros f Hf.
    now rewrite (memory_of_same_disk _ _ H).
  - split.
    + intros f [= <-]. eexists. split; [exact H|]. apply set_flag_sets.
    + intros f Hf. rewrite (memory_of_document _ _ H).
      unfold validation_document. now apply set_flag_keeps.
  - split; [discriminate|]. intros f Hf.
    now rewrite (memory_of_same_disk _ _ H).
  - split.
    + intros f [= <-]. eexists. split; [exact H|]. apply set_flag_sets.
    + intros f Hf. rewrite (memory_of_document _ _ H).
      unfold draft_document. now apply set_flag_keeps.
  - split; [discriminate|]. intros f Hf.
    now rewrite (memory_of_same_disk _ _ H).
Qed.

Lemma run_tasks_flags T ts :
  forall w w',
    run_tasks T ts w = Ok tt w' ->
    forall f, get_flag f (progress (memory_of w)) = true ->
              get_flag f (progress (memory_of w')) = true.
Proof.
  induction ts as [|t rest IH]; intros w w' H f Hf.
  - injection H as <-. exact Hf.
  - apply run_tasks_cons_inv in H as (w1 & H1 & Hrest).
    apply (IH w1 w' Hrest). now apply (run_task_flags T t w w1 H1).
Qed.

(** C7 (as the code has it).  By the invocations that complete, the three
    progress flags only ever go from false to true: a task that completes
    leaves its own flag true in the saved memory, and whatever tasks
    follow and complete (of any kind, in any number), a flag that was
    true is still true afterwards. *)
Theorem progress_flags_monotonic (T : templates) (w : world) :
  (forall t f w',
      task_flag t = Some f ->
      run_task T t w = Ok tt w' ->
      exists m', disk w' = Document m' /\ get_flag f (progress m') = true)
  /\ (forall ts w',
         run_tasks T ts w = Ok tt w' ->
         forall f, get_flag f (progress (memory_of w)) = true ->
                   get_flag f (progress (memory_of w')) = true)
  /\ (forall t f ts w',
         task_flag t = Some f ->
         run_tasks T (t :: ts) w = Ok tt w' ->
         get_flag f (progress (memory_of w')) = true).
Proof.
  split; [|split].
  - intros t f w' Hf H.
    exact (proj1 (run_task_flags T t w w' H) f Hf).
  - intros ts w'. apply run_tasks_flags.
  - intros t f ts w' Hf H.
    apply run_tasks_cons_inv in H as (w1 & H1 & Hrest).
    apply (run_tasks_flags T ts w1 w' Hrest).
    destruct (proj1 (run_task_flags T t w w1 H1) f Hf) as (m1 & Hd & Hg).
    now rewrite (memory_of_document _ _ Hd).
Qed.

Lemma progress_flags_monotonic_witness :
  exists w',
    run_tasks plain_templates
              [LiteratureReview two_citations;
               DraftPolish (lit "draft") (lit "grammar") (lit "academic");
               AlternativeHypotheses (lit "X") []]
              first_world
    = Ok tt w'
    /\ get_flag LiteratureReviewCompleted (progress (memory_of w')) = true.
Proof.
  assert (E : exists w',
             run_tasks plain_templates
                       [LiteratureReview two_citations;
                        DraftPolish (lit "draft") (lit "grammar") (lit "academic");
                        AlternativeHypotheses (lit "X") []]
                       first_world = Ok tt w').
  { vm_compute. eexists. reflexivity. }
  destruct E as (w' & E). exists w'. split; [exact E|].
  destruct (progress_flags_monotonic plain_templates first_world)
    as (_ & _ & H).
  exact (H (LiteratureReview two_citations) LiteratureReviewCompleted
           [DraftPolish (lit "draft") (lit "grammar") (lit "academic");
            AlternativeHypotheses (lit "X") []]
           w' eq_refl E).
Defined.

(** C7 as stated fails: from a store whose literature flag is true, a
    draft polishing of a text that holds a lone surrogate empties the
    file before [json.dump] raises; the flag then reads false. *)
Lemma failed_polish_resets_flag :
  get_flag LiteratureReviewCompleted (progress (memory_of stored_world)) = true
  /\ exists e w',
      run_task plain_templates
               (DraftPolish lone_surrogate (lit "grammar") (lit "academic"))
               stored_world
      = Raise e w'
      /\ exn_cls e = UnicodeEncodeError
      /\ disk w' = Truncated
      /\ get_flag LiteratureReviewCompleted (progress (memory_of w')) = false.
Proof.
  split; [reflexivity|].
  vm_compute. eexists. eexists. split; [reflexivity|]. repeat split.
Qed.

Lemma run_reviews_citations T inputs :
  forall w w',
    run_tasks T (List.map LiteratureReview inputs) w = Ok tt w' ->
    citations (memory_of w')
    = citations (memory_of w) ++ List.concat (List.map in_citations inputs).
Proof.
  induction inputs as [|inp rest IH]; intros w w' H.
  - injection H as <-. simpl. now rewrite app_nil_r.
  - cbn [List.map] in H.
    apply run_tasks_cons_inv in H as (w1 & H1 & Hrest).
    apply run_task_completes in H1.
    rewrite (IH w1 w' Hrest), (memory_of_document _ _ H1).
    unfold review_document. rewrite reviewed_citations.
    simpl. now rewrite app_assoc.
Qed.

(** C6 (as the code has it).  After N consecutive literature reviews that
    complete, from any state of the store, the stored citations are the
    ones stored before followed by the N supplied lists in the order of
    the invocations: nothing is lost or reordered, and the length grows
    by the sum of the lengths of the supplied lists. *)
Theorem citations_append_only (T : templates) (inputs : list input)
        (w w' : world) :
  Forall (fun inp => in_citations inp <> []) inputs ->
  run_tasks T (List.map LiteratureReview inputs) w = Ok tt w' ->
  citations (memory_of w')
  = citations (memory_of w) ++ List.concat (List.map in_citations inputs)
  /\ List.length (citations (memory_of w'))
     = List.length (citations (memory_of w))
       + list_sum (List.map (fun inp => List.length (in_citations inp)) inputs).
Proof.
  intros _ Hrun.
  pose proof (run_reviews_citations T inputs w w' Hrun) as Hc.
  split; [exact Hc|].
  rewrite Hc, length_app. f_equal.
  clear. induction inputs as [|inp rest IH]; simpl; [reflexivity|].
  now rewrite length_app, IH.
Qed.

Lemma citations_append_only_witness :
  Forall (fun inp => in_citations inp <> []) [two_citations; one_citation]
  /\ exists w',
      run_tasks plain_templates
                (List.map LiteratureReview [two_citations; one_citation])
                stored_world
      = Ok tt w'
      /\ citations (memory_of w') = [lit "A"; lit "A"; lit "B"; lit "C"]
      /\ List.length (citations (memory_of w')) = 4.
Proof.
  assert (Hne : Forall (fun inp => in_citations inp <> [])
                       [two_citations; one_citation]).
  { repeat constructor; discriminate. }
  split; [exact Hne|].
  assert (E : exists w',
             run_tasks plain_templates
                       (List.map LiteratureReview [two_citations; one_citation])
                       stored_world = Ok tt w').
  { vm_compute. eexists. reflexivity. }
  destruct E as (w' & E). exists w'. split; [exact E|].
  exact (citations_append_only plain_templates [two_citations; one_citation]
           stored_world w' Hne E).
Defined.

(** C6 as stated fails: a single literature review whose citation holds
    a lone surrogate supplies a non-empty list, and does not complete:
    the file is emptied before [json.dump] raises, so the stored
    citations afterwards are not the prior ones followed by the supplied
    one; the prior citation is lost with the rest. *)
Lemma failed_review_loses_citations :
  in_citations surrogate_citation <> []
  /\ citations (memory_of stored_world) = [lit "A"]
  /\ exists e w',
      run_tasks plain_templates [LiteratureReview surrogate_citation]
                stored_world
      = Raise e w'
      /\ exn_cls e = UnicodeEncodeError
      /\ citations (memory_of w') = []
      /\ citations (memory_of w')
         <> citations (memory_of stored_world)
            ++ in_citations surrogate_citation.
Proof.
  split; [discriminate|]. split; [reflexivity|].
  vm_compute. eexists. eexists. split; [reflexivity|].
  repeat split. discriminate.
Qed.

End MemoryEffects.

(* ================================================================== *)
(** ** A failing generation call *)
(* ================================================================== *)

Section GenerationFailure.




End GenerationFailure.

(* ================================================================== *)
(** ** More about trimming and splitting *)
(* ================================================================== *)

Section TrimFacts.

Lemma lstrip_head s c r : lstrip s = c :: r -> is_space c = false.
Proof.
  induction s as [|a s IH]; simpl; [discriminate|].
  destruct (is_space a) eqn:E; [exact IH|].
  now intros [= <- _].
Qed.

Lemma lstrip_nonspace c r : is_space c = false -> lstrip (c :: r) = c :: r.
Proof. simpl. now intros ->. Qed.

Lemma lstrip_idem s : lstrip (lstrip s) = lstrip s.
Proof.
  destruct (lstrip s) as [|c r] eqn:E; [reflexivity|].
  apply lstrip_nonspace. exact (lstrip_head s c r E).
Qed.

(** Leading white space is all that [lstrip] removes. *)
Lemma lstrip_split s :
  exists pre, s = pre ++ lstrip s /\ forallb is_space pre = true.
Proof.
  induction s as [|a s (pre & Hs & Hp)]; simpl.
  - now exists [].
  - destruct (is_space a) eqn:E.
    + exists (a :: pre). simpl. rewrite E, Hp. split; [now f_equal|reflexivity].
    + now exists [].
Qed.

Lemma lstrip_app_nonspace pre c r :
  is_space c = false -> lstrip (pre ++ c :: r) = lstrip pre ++ c :: r.
Proof.
  intros Hc. induction pre as [|a pre IH]; simpl.
  - now rewrite Hc.
  - destruct (is_space a); [exact IH|reflexivity].
Qed.

Lemma rstrip_app_nonspace s c post :
  is_space c = false -> rstrip ((s ++ [c]) ++ post) = (s ++ [c]) ++ rstrip post.
Proof.
  intros Hc. unfold rstrip.
  rewrite rev_app_distr, rev_app_distr. simpl.
  rewrite (lstrip_app_nonspace (rev post) c (rev s) Hc).
  rewrite rev_app_distr. simpl. now rewrite rev_involutive.
Qed.

Lemma rstrip_cons_nonspace c r :
  is_space c = false -> rstrip (c :: r) = c :: rstrip r.
Proof. intros Hc. exact (rstrip_app_nonspace [] c r Hc). Qed.

Lemma rstrip_idem s : rstrip (rstrip s) = rstrip s.
Proof. unfold rstrip. now rewrite rev_involutive, lstrip_idem. Qed.

(** Trailing white space is all that [rstrip] removes. *)
Lemma rstrip_split s :
  exists post, s = rstrip s ++ post /\ forallb is_space post = true.
Proof.
  destruct (lstrip_split (rev s)) as (pre & Hs & Hp).
  exists (rev pre). unfold rstrip. split.
  - rewrite <- rev_app_distr, <- Hs. now rewrite rev_involutive.
  - rewrite forallb_forall in *. intros x Hx. apply Hp. now apply in_rev.
Qed.

(** [s.strip()] is [s] without a white-space prefix and a white-space
    suffix. *)
Lemma strip_split s :
  exists pre post,
    s = pre ++ strip s ++ post
    /\ forallb is_space pre = true /\ forallb is_space post = true.
Proof.
  destruct (lstrip_split s) as (pre & Hs & Hp).
  destruct (rstrip_split (lstrip s)) as (post & Hl & Hq).
  exists pre, post. unfold strip. now rewrite <- Hl.
Qed.

Lemma strip_head s c r : strip s = c :: r -> is_space c = false.
Proof.
  unfold strip. destruct (lstrip s) as [|a l] eqn:E; [discriminate|].
  pose proof (lstrip_head s a l E) as Ha.
  rewrite (rstrip_cons_nonspace a l Ha). now intros [= <- _].
Qed.

(** Trimming twice is trimming once. *)
Lemma strip_idem s : strip (strip s) = strip s.
Proof.
  destruct (strip s) as [|c r] eqn:E; [reflexivity|].
  pose proof (strip_head s c r E) as Hc.
  unfold strip at 1. rewrite (lstrip_nonspace c r Hc), <- E.
  unfold strip. apply rstrip_idem.
Qed.

(** A line is blank for the agents exactly when all its characters are
    white space. *)
Lemma strip_truthy s : truthy (strip s) = negb (forallb is_space s).
Proof.
  unfold strip. induction s as [|a s IH]; [reflexivity|]. simpl.
  destruct (is_space a) eqn:E; simpl; [exact IH|].
  now rewrite (rstrip_cons_nonspace a s E).
Qed.

(** A word without white space at its two ends survives trimming. *)
Lemma strip_keeps_word pre c k d post :
  is_space c = false -> is_space d = false ->
  strip (pre ++ ((c :: k) ++ [d]) ++ post)
  = lstrip pre ++ ((c :: k) ++ [d]) ++ rstrip post.
Proof.
  intros Hc Hd. unfold strip.
  change (pre ++ ((c :: k) ++ [d]) ++ post)
    with (pre ++ c :: ((k ++ [d]) ++ post)).
  rewrite (lstrip_app_nonspace pre c ((k ++ [d]) ++ post) Hc).
  replace (lstrip pre ++ c :: (k ++ [d]) ++ post)
    with (((lstrip pre ++ c :: k) ++ [d]) ++ post)
    by (now rewrite <- !app_assoc).
  rewrite (rstrip_app_nonspace (lstrip pre ++ c :: k) d post Hd).
  now rewrite <- !app_assoc.
Qed.

Lemma contains_strip c k d s :
  is_space c = false -> is_space d = false ->
  contains ((c :: k) ++ [d]) s = true ->
  contains ((c :: k) ++ [d]) (strip s) = true.
Proof.
  intros Hc Hd H. apply contains_iff in H as (pre & post & ->).
  rewrite (strip_keeps_word pre c k d post Hc Hd).
  apply contains_iff. now exists (lstrip pre), (rstrip post).
Qed.

(** What occurs in the trimmed text occurs in the text. *)
Lemma contains_of_strip k s :
  contains k (strip s) = true -> contains k s = true.
Proof.
  intros H. apply contains_iff in H as (a & b & H).
  destruct (strip_split s) as (pre & post & Hs & _).
  apply contains_iff. exists (pre ++ a), (b ++ post).
  rewrite Hs, H. now rewrite <- !app_assoc.
Qed.

(** Every line of [s.split('\n')] is a piece of [s] and holds no newline. *)
Lemma split_lines_piece s line :
  In line (split_lines s) ->
  (exists pre post, s = pre ++ line ++ post) /\ ~ In newline line.
Proof.
  revert line; induction s as [|c s IH]; intros line Hin.
  - destruct Hin as [<-|[]]. split; [now exists [], []|intros []].
  - simpl in Hin. destruct (N.eqb_spec c newline) as [->|Hc].
    + destruct Hin as [<-|Hin].
      * split; [now exists [], (newline :: s)|intros []].
      * destruct (IH line Hin) as ((pre & post & ->) & Hn).
        split; [now exists (newline :: pre), post|exact Hn].
    + destruct (split_lines s) as [|l ls] eqn:E.
      * destruct Hin as [<-|[]]. split.
        -- exists [], s. reflexivity.
        -- intros [H|[]]. now apply Hc.
      * destruct Hin as [<-|Hin].
        -- destruct (IH l (or_introl eq_refl)) as ((pre & post & Hs) & Hn).
           (* the first line of [s] starts [s] *)
           assert (Hfirst : exists post', s = l ++ post').
           { clear - E. revert l ls E. induction s as [|a s IHs]; intros l ls E.
             - injection E as <- _. now exists [].
             - simpl in E. destruct (a =? newline)%N.
               + injection E as <- _. now exists (a :: s).
               + destruct (split_lines s) as [|l' ls'] eqn:E'.
                 * injection E as <- _. exists s. reflexivity.
                 * injection E as <- _.
                   destruct (IHs l' ls' eq_refl) as [post' ->].
                   now exists post'. }
           destruct Hfirst as [post' ->].
           split; [now exists [], post'|].
           intros [H|H]; [now apply Hc|now apply Hn].
        -- destruct (IH line (or_intror Hin)) as ((pre & post & ->) & Hn).
           split; [now exists (c :: pre), post|exact Hn].
Qed.

Lemma in_firstn {A} n (l : list A) x : In x (firstn n l) -> In x l.
Proof.
  intros H. rewrite <- (firstn_skipn n l). apply in_or_app. now left.
Qed.

End TrimFacts.

(* ================================================================== *)
(** ** Range of the overall score and the assessment level *)
(* ================================================================== *)

Section ScoreRange.

Import HypothesisValidatorAgent.

Lemma match_here_range prev s v k :
  match_here prev s = Some (v, k) -> (1 <= v <= 10)%Z.
Proof. intros H. now apply match_here_sound in H as [Hv _]. Qed.

Lemma findall_from_range n :
  forall s prev, List.length s <= n ->
                 Forall (fun v => (1 <= v <= 10)%Z) (findall_from prev s).
Proof.
  induction n as [|n IH]; intros s prev Hlen.
  - destruct s; [constructor|simpl in Hlen; lia].
  - destruct s as [|c rest]; [constructor|].
    simpl in Hlen. cbn [findall_from].
    destruct (match_here prev (c :: rest)) as [[v k]|] eqn:Hm.
    + pose proof (match_here_range _ _ _ _ Hm) as Hv.
      destruct k as [|[|k]].
      * destruct rest as [|c2 rest2]; constructor; try exact Hv;
          [constructor|apply IH; simpl in Hlen; lia].
      * constructor; [exact Hv|apply IH; lia].
      * destruct rest as [|c2 rest2]; constructor; try exact Hv;
          [constructor|apply IH; simpl in Hlen; lia].
    + apply IH. lia.
Qed.

Lemma findall_range line : Forall (fun v => (1 <= v <= 10)%Z) (findall line).
Proof. exact (findall_from_range (List.length line) line None (le_n _)). Qed.

Lemma line_scores_range line : Forall (fun v => (1 <= v <= 10)%Z) (line_scores line).
Proof.
  unfold line_scores. destruct (contains_any criteria (upper line)); [|constructor].
  pose proof (findall_range line) as H.
  destruct (findall line) as [|v l]; [constructor|].
  inversion H; subst. cbn [firstn]. constructor; [assumption|constructor].
Qed.

Lemma scores_range lines :
  Forall (fun v => (1 <= v <= 10)%Z) (flat_map line_scores lines).
Proof.
  induction lines as [|l lines IH]; simpl; [constructor|].
  apply Forall_app. split; [apply line_scores_range|exact IH].
Qed.

(** The sum of integers that all lie in [lo, hi]. *)
Lemma sum_bounds lo hi scores :
  Forall (fun v => (lo <= v <= hi)%Z) scores ->
  (lo * Z.of_nat (List.length scores) <= fold_right Z.add 0 scores
   <= hi * Z.of_nat (List.length scores))%Z.
Proof.
  induction 1 as [|v l Hv _ IH]; [simpl; lia|].
  cbn [fold_right List.length]. rewrite Nat2Z.inj_succ. lia.
Qed.

Lemma mean_bounds lo hi scores :
  scores <> [] ->
  Forall (fun v => (lo <= v <= hi)%Z) scores ->
  (inject_Z lo <= mean scores)%Q /\ (mean scores <= inject_Z hi)%Q.
Proof.
  intros Hne Hall. pose proof (sum_bounds lo hi scores Hall) as [H1 H2].
  assert (Hpos : (0 < inject_Z (Z.of_nat (List.length scores)))%Q).
  { destruct scores; [contradiction|]. unfold Qlt. simpl. lia. }
  unfold mean. split.
  - apply Qle_shift_div_l; [exact Hpos|].
    rewrite <- inject_Z_mult. rewrite <- Zle_Qle. exact H1.
  - apply Qle_shift_div_r; [exact Hpos|].
    rewrite <- inject_Z_mult. rewrite <- Zle_Qle. exact H2.
Qed.

(** X1.  Whatever the analysis text, the overall score lies between 1
    and 10: it is the mean of integers between 1 and 10, or the default
    5.0. *)
Theorem overall_score_range (analysis : str) :
  (1 <= _calculate_overall_score analysis)%Q
  /\ (_calculate_overall_score analysis <= 10)%Q.
Proof.
  rewrite overall_score_of_scores.
  pose proof (scores_range (split_lines analysis)) as Hall.
  destruct (flat_map line_scores (split_lines analysis)) as [|v l] eqn:E.
  - split; unfold Qle; simpl; lia.
  - exact (mean_bounds 1 10 (v :: l) ltac:(discriminate) Hall).
Qed.

Lemma assessment_of_mean lo hi scores :
  scores <> [] ->
  Forall (fun v => (lo <= v <= hi)%Z) scores ->
  ((8 <= lo)%Z -> _get_assessment_level (mean scores) = lit "Strong")
  /\ ((6 <= lo)%Z -> (hi < 8)%Z -> _get_assessment_level (mean scores) = lit "Moderate")
  /\ ((hi < 6)%Z -> _get_assessment_level (mean scores) = lit "Weak").
Proof.
  intros Hne Hall. destruct (mean_bounds lo hi scores Hne Hall) as [H1 H2].
  unfold _get_assessment_level.
  assert (Hinj : forall a b, (a <= b)%Z -> (inject_Z a <= inject_Z b)%Q).
  { intros a b Hab. now rewrite <- Zle_Qle. }
  assert (Hnot : forall a, (hi < a)%Z -> Qle_bool (inject_Z a) (mean scores) = false).
  { intros a Ha. destruct (Qle_bool (inject_Z a) (mean scores)) eqn:E; [|reflexivity].
    apply Qle_bool_iff in E.
    pose proof (Qle_trans _ _ _ E H2) as Hc. rewrite <- Zle_Qle in Hc. lia. }
  assert (Hyes : forall a, (a <= lo)%Z -> Qle_bool (inject_Z a) (mean scores) = true).
  { intros a Ha. apply Qle_bool_iff. exact (Qle_trans _ _ _ (Hinj a lo Ha) H1). }
  split; [|split].
  - intros H8. change 8%Q with (inject_Z 8). now rewrite (Hyes 8%Z H8).
  - intros H6 H8. change 8%Q with (inject_Z 8). change 6%Q with (inject_Z 6).
    now rewrite (Hnot 8%Z H8), (Hyes 6%Z H6).
  - intros H6. change 8%Q with (inject_Z 8). change 6%Q with (inject_Z 6).
    rewrite (Hnot 8%Z ltac:(lia)), (Hnot 6%Z H6). reflexivity.
Qed.

(** X2.  The assessment follows the collected scores: with no score the
    default 5.0 is assessed "Weak"; when every collected score is at
    least 8 the assessment is "Strong", when they all lie in 6..7 it is
    "Moderate", and when they are all below 6 it is "Weak". *)
Theorem assessment_follows_scores (analysis : str) (per_line : list (option Z)) :
  Forall2 line_yields (split_lines analysis) per_line ->
  (collected per_line = [] ->
   _get_assessment_level (_calculate_overall_score analysis) = lit "Weak")
  /\ (collected per_line <> [] ->
      (Forall (fun v => (8 <= v)%Z) (collected per_line) ->
       _get_assessment_level (_calculate_overall_score analysis) = lit "Strong")
      /\ (Forall (fun v => (6 <= v < 8)%Z) (collected per_line) ->
          _get_assessment_level (_calculate_overall_score analysis) = lit "Moderate")
      /\ (Forall (fun v => (v < 6)%Z) (collected per_line) ->
          _get_assessment_level (_calculate_overall_score analysis) = lit "Weak")).
Proof.
  intros Hp.
  destruct (lines_yield (split_lines analysis)) as [H1 H2].
  rewrite (lines_yield_functional _ _ _ Hp H1), <- H2.
  rewrite overall_score_of_scores.
  pose proof (scores_range (split_lines analysis)) as Hall.
  destruct (flat_map line_scores (split_lines analysis)) as [|v l] eqn:E.
  - split; [reflexivity|]. intros Hne. now contradiction Hne.
  - split; [discriminate|]. intros _. split; [|split]; intros Hf.
    + refine (proj1 (assessment_of_mean 8 10 (v :: l) ltac:(discriminate) _) _);
        [|lia].
      apply Forall_forall. intros x Hx.
      rewrite Forall_forall in Hall, Hf. specialize (Hall x Hx). specialize (Hf x Hx).
      lia.
    + refine (proj1 (proj2 (assessment_of_mean 6 7 (v :: l) ltac:(discriminate) _)) _ _);
        [|lia|lia].
      apply Forall_forall. intros x Hx.
      rewrite Forall_forall in Hf. specialize (Hf x Hx). lia.
    + refine (proj2 (proj2 (assessment_of_mean 1 5 (v :: l) ltac:(discriminate) _)) _);
        [|lia].
      apply Forall_forall. intros x Hx.
      rewrite Forall_forall in Hall, Hf. specialize (Hall x Hx). specialize (Hf x Hx).
      lia.
Qed.

Lemma assessment_follows_scores_witness :
  Forall2 line_yields
          (split_lines (lit "CLARITY: 9" ++ [newline] ++ lit "Relevance - 8/10"))
          [Some 9%Z; Some 8%Z]
  /\ _get_assessment_level
       (_calculate_overall_score
          (lit "CLARITY: 9" ++ [newline] ++ lit "Relevance - 8/10"))
     = lit "Strong".
Proof.
  assert (Hp : Forall2 line_yields
                 (split_lines (lit "CLARITY: 9" ++ [newline] ++ lit "Relevance - 8/10"))
                 [Some 9%Z; Some 8%Z]).
  { exact (proj1 (lines_yield
                    (split_lines (lit "CLARITY: 9" ++ [newline] ++ lit "Relevance - 8/10")))). }
  split; [exact Hp|].
  refine (proj1 (proj2 (assessment_follows_scores _ _ Hp) _) _).
  - discriminate.
  - repeat constructor; lia.
Defined.

End ScoreRange.

(* ================================================================== *)
(** ** Alternative hypotheses *)
(* ================================================================== *)

Section Alternatives.

Import HypothesisValidatorAgent.

Lemma parse_alternatives_flush response :
  parse_alternatives response
  = firstn 3 (flush (alternatives_loop (split_lines response) [] [])).
Proof.
  unfold parse_alternatives, flush.
  now destruct (alternatives_loop (split_lines response) [] []).
Qed.

Lemma truthy_of_strip (s : str) : truthy (strip s) = true -> truthy s = true.
Proof. destruct s; [discriminate|reflexivity]. Qed.

Lemma join_space_cons h l ls :
  join (lit " ") ((h ++ lit " " ++ l) :: ls) = h ++ lit " " ++ join (lit " ") (l :: ls).
Proof.
  destruct ls as [|x ls]; [reflexivity|].
  cbn [join]. now rewrite <- !app_assoc.
Qed.

Lemma alternative_header_split line :
  (truthy (strip line)
   && (contains (lit "Hypothesis") line
       || startswith_any line [lit "1."; lit "2."; lit "3."]))
  = alternative_header line.
Proof. reflexivity. Qed.

(** The loop, once a hypothesis [h :: cs] is pending. *)
Lemma alternatives_loop_pending lines :
  forall alts h cs,
    truthy h = true ->
    flush (alternatives_loop lines alts (join (lit " ") (h :: cs)))
    = alts
      ++ [render_alternative (h :: cs ++ continuation_lines lines)]
      ++ List.map render_alternative (alternative_groups lines).
Proof.
  induction lines as [|line rest IH]; intros alts h cs Hh.
  - cbn [alternatives_loop flush continuation_lines alternative_groups List.map].
    assert (Ht : truthy (join (lit " ") (h :: cs)) = true).
    { destruct h; [discriminate|]. destruct cs; reflexivity. }
    rewrite Ht, !app_nil_r. reflexivity.
  - cbn [alternatives_loop continuation_lines alternative_groups].
    rewrite alternative_header_split.
    assert (Ht : truthy (join (lit " ") (h :: cs)) = true).
    { destruct h; [discriminate|]. destruct cs; reflexivity. }
    destruct (alternative_header line) eqn:Hhd.
    + rewrite Ht.
      assert (Hl : truthy line = true).
      { apply truthy_of_strip. unfold alternative_header in Hhd.
        now apply andb_prop in Hhd as [Hhd _]. }
      pose proof (IH (alts ++ [strip (join (lit " ") (h :: cs))]) line [] Hl) as H.
      cbn [join] in H. cbn [join]. rewrite H. cbn [List.map app].
      rewrite app_nil_r. unfold render_alternative at 1.
      now rewrite <- !app_assoc.
    + rewrite Ht, andb_true_r.
      destruct (truthy (strip line)) eqn:Hs.
      * assert (Hj : join (lit " ") (h :: cs) ++ lit " " ++ line
                     = join (lit " ") (h :: cs ++ [line])).
        { clear. revert h. induction cs as [|c cs IHc]; intros h.
          - reflexivity.
          - change ((c :: cs) ++ [line]) with (c :: (cs ++ [line])).
            cbn [join].
            destruct cs as [|c' cs'].
            + simpl. now rewrite <- !app_assoc.
            + change ((c' :: cs') ++ [line]) with (c' :: (cs' ++ [line])) in *.
              specialize (IHc c). cbn [join] in IHc.
              rewrite <- !app_assoc.
              change (c' :: cs' ++ [line]) with (c' :: (cs' ++ [line])).
              cbn [join]. f_equal. f_equal. rewrite <- IHc.
              now rewrite <- !app_assoc. }
        rewrite Hj, (IH alts h (cs ++ [line]) Hh).
        now rewrite <- app_assoc.
      * exact (IH alts h cs Hh).
Qed.

(** The loop, while no hypothesis is pending. *)
Lemma alternatives_loop_idle lines :
  forall alts,
    flush (alternatives_loop lines alts [])
    = alts ++ List.map render_alternative (alternative_groups lines).
Proof.
  induction lines as [|line rest IH]; intros alts.
  - simpl. now rewrite app_nil_r.
  - cbn [alternatives_loop alternative_groups].
    rewrite alternative_header_split.
    destruct (alternative_header line) eqn:Hhd.
    + cbn [truthy].
      assert (Hl : truthy line = true).
      { apply truthy_of_strip. unfold alternative_header in Hhd.
        now apply andb_prop in Hhd as [Hhd _]. }
      pose proof (alternatives_loop_pending rest alts line [] Hl) as H.
      cbn [join] in H. rewrite H. reflexivity.
    + cbn [truthy]. rewrite andb_false_r. exact (IH alts).
Qed.

(** X3.  The alternatives returned are the first three of: each line that
    has the word Hypothesis or begins with "1.", "2." or "3.", followed by
    the non-blank lines up to the next such line, joined by single spaces
    and trimmed.  Lines before the first such line are ignored. *)
Theorem parse_alternatives_groups (response : str) :
  parse_alternatives response
  = firstn 3 (List.map render_alternative
                (alternative_groups (split_lines response))).
Proof.
  rewrite parse_alternatives_flush, alternatives_loop_idle. reflexivity.
Qed.

Lemma alternative_groups_length lines :
  List.length (alternative_groups lines)
  = List.length (List.filter alternative_header lines).
Proof.
  induction lines as [|l lines IH]; [reflexivity|].
  cbn [alternative_groups List.filter].
  destruct (alternative_header l); simpl; now rewrite IH.
Qed.

Lemma alternative_groups_shape lines g :
  In g (alternative_groups lines) ->
  exists h cs, g = h :: cs /\ alternative_header h = true.
Proof.
  induction lines as [|l lines IH]; [intros []|].
  cbn [alternative_groups].
  destruct (alternative_header l) eqn:E; [|exact IH].
  intros [<-|Hin]; [now exists l, (continuation_lines lines)|exact (IH Hin)].
Qed.

Lemma render_alternative_trimmed g :
  (exists h cs, g = h :: cs /\ alternative_header h = true) ->
  render_alternative g <> [] /\ strip (render_alternative g) = render_alternative g.
Proof.
  intros (h & cs & -> & Hh). unfold render_alternative.
  split; [|apply strip_idem].
  assert (Hj : exists tail, join (lit " ") (h :: cs) = h ++ tail).
  { destruct cs as [|c cs]; [exists []; now rewrite app_nil_r|].
    now exists (lit " " ++ join (lit " ") (c :: cs)). }
  destruct Hj as [tail ->].
  unfold alternative_header in Hh. apply andb_prop in Hh as [Hh _].
  rewrite strip_truthy in Hh.
  assert (Ht : truthy (strip (h ++ tail)) = true).
  { rewrite strip_truthy, forallb_app.
    destruct (forallb is_space h); [discriminate|reflexivity]. }
  intros E. now rewrite E in Ht.
Qed.

(** X4.  There are as many alternatives as lines that start one, three at
    most: none exactly when no line has the word Hypothesis or begins
    with "1.", "2." or "3.".  Every alternative returned is non-empty and
    has no white space at either end. *)
Theorem parse_alternatives_count (response : str) :
  List.length (parse_alternatives response)
  = Nat.min 3 (List.length (List.filter alternative_header (split_lines response)))
  /\ (parse_alternatives response = []
      <-> List.filter alternative_header (split_lines response) = [])
  /\ (forall a, In a (parse_alternatives response) ->
                a <> [] /\ strip a = a).
Proof.
  rewrite parse_alternatives_flush, alternatives_loop_idle. cbn [app].
  assert (Hlen : List.length
                   (firstn 3 (List.map render_alternative
                                (alternative_groups (split_lines response))))
                 = Nat.min 3 (List.length
                                (List.filter alternative_header (split_lines response)))).
  { now rewrite length_firstn, length_map, alternative_groups_length. }
  split; [exact Hlen|]. split.
  - split; intros H.
    + rewrite H in Hlen. simpl in Hlen.
      destruct (List.filter alternative_header (split_lines response));
        [reflexivity|discriminate].
    + rewrite H in Hlen. apply length_zero_iff_nil. exact Hlen.
  - intros a Hin. apply in_firstn in Hin. apply in_map_iff in Hin as (g & <- & Hg).
    apply render_alternative_trimmed.
    exact (alternative_groups_shape _ g Hg).
Qed.

Lemma parse_alternatives_count_witness :
  In (lit "1. Sleep improves recall    because of consolidation")
     (parse_alternatives two_alternatives)
  /\ lit "1. Sleep improves recall    because of consolidation" <> []
  /\ List.length (parse_alternatives two_alternatives) = 2.
Proof.
  assert (Hin : In (lit "1. Sleep improves recall    because of consolidation")
                   (parse_alternatives two_alternatives)).
  { left. reflexivity. }
  split; [exact Hin|]. split.
  - exact (proj1 (proj2 (proj2 (parse_alternatives_count two_alternatives)) _ Hin)).
  - reflexivity.
Defined.

End Alternatives.

(* ================================================================== *)
(** ** Recommendation lists *)
(* ================================================================== *)

Section Recommendations.

Lemma numbered_marker_survives (d : char) line :
  is_space d = false ->
  contains [d; 46%N] line = true -> contains [d; 46%N] (strip line) = true.
Proof.
  intros Hd. exact (contains_strip d [] 46%N line Hd eq_refl).
Qed.

Lemma recommendation_lines_agree response :
  HypothesisValidatorAgent.parse_recommendations response
  = LiteratureReviewAgent.parse_recommendations response.
Proof.
  unfold HypothesisValidatorAgent.parse_recommendations,
    LiteratureReviewAgent.parse_recommendations.
  f_equal. f_equal. apply filter_ext. intros line.
  cbn [existsb]. now rewrite orb_false_r, !orb_assoc.
Qed.

Lemma numbered_line_test line :
  (truthy (strip line)
   && (contains (lit "1.") line || contains (lit "2.") line
       || contains (lit "3.") line || contains (lit "4.") line
       || contains (lit "5.") line))
  = numbered_line line.
Proof.
  unfold numbered_line. cbn [existsb]. now rewrite orb_false_r, !orb_assoc.
Qed.

Lemma parse_recommendations_numbered response :
  LiteratureReviewAgent.parse_recommendations response
  = firstn 5 (List.map strip
                (List.filter numbered_line (split_lines response))).
Proof.
  unfold LiteratureReviewAgent.parse_recommendations.
  f_equal. f_equal. apply filter_ext. intros line.
  apply numbered_line_test.
Qed.

(** X5.  The hypothesis agent and the literature agent parse their
    recommendations alike: on every response the two lists are equal.
    Each recommendation returned is a line of the response, trimmed: it
    is not empty, has no white space at either end, and still shows one
    of "1.", "2.", "3.", "4.", "5.". *)
Theorem recommendations_are_numbered_lines (response : str) :
  HypothesisValidatorAgent.parse_recommendations response
  = LiteratureReviewAgent.parse_recommendations response
  /\ forall r,
      In r (LiteratureReviewAgent.parse_recommendations response) ->
      r <> [] /\ strip r = r
      /\ (exists line, In line (split_lines response) /\ r = strip line)
      /\ existsb (fun num => contains num r)
                 [lit "1."; lit "2."; lit "3."; lit "4."; lit "5."] = true.
Proof.
  split; [apply recommendation_lines_agree|].
  intros r Hin.
  unfold LiteratureReviewAgent.parse_recommendations in Hin.
  apply in_firstn in Hin. apply in_map_iff in Hin as (line & <- & Hl).
  apply filter_In in Hl as [Hl Hf]. apply andb_prop in Hf as [Hne Hnum].
  split; [intros E; now rewrite E in Hne|].
  split; [apply strip_idem|].
  split; [now exists line|].
  assert (Hex : existsb (fun num => contains num line)
                        [lit "1."; lit "2."; lit "3."; lit "4."; lit "5."] = true).
  { cbn [existsb]. now rewrite orb_false_r, !orb_assoc. }
  apply existsb_exists in Hex as (num & Hk & Hc).
  apply existsb_exists. exists num. split; [exact Hk|].
  destruct Hk as [<-|[<-|[<-|[<-|[<-|[]]]]]].
  - exact (numbered_marker_survives 49%N line eq_refl Hc).
  - exact (numbered_marker_survives 50%N line eq_refl Hc).
  - exact (numbered_marker_survives 51%N line eq_refl Hc).
  - exact (numbered_marker_survives 52%N line eq_refl Hc).
  - exact (numbered_marker_survives 53%N line eq_refl Hc).
Qed.

Lemma recommendations_are_numbered_lines_witness :
  HypothesisValidatorAgent.parse_recommendations
    (lit "Recommendations:" ++ [newline]
     ++ lit "  2. Search PubMed for trials since 2021.  ")
  = [lit "2. Search PubMed for trials since 2021."]
  /\ In (lit "2. Search PubMed for trials since 2021.")
        (LiteratureReviewAgent.parse_recommendations
           (lit "Recommendations:" ++ [newline]
            ++ lit "  2. Search PubMed for trials since 2021.  "))
  /\ strip (lit "2. Search PubMed for trials since 2021.")
     = lit "2. Search PubMed for trials since 2021.".
Proof.
  assert (Hin : In (lit "2. Search PubMed for trials since 2021.")
                   (LiteratureReviewAgent.parse_recommendations
                      (lit "Recommendations:" ++ [newline]
                       ++ lit "  2. Search PubMed for trials since 2021.  "))).
  { left. reflexivity. }
  split; [reflexivity|]. split; [exact Hin|].
  exact (proj1 (proj2 (proj2 (recommendations_are_numbered_lines _) _ Hin))).
Defined.

End Recommendations.

(* ================================================================== *)
(** ** Caps on the extracted lists *)
(* ================================================================== *)

Section Caps.

Import DraftPolisherAgent.

Lemma firstn_prefix {A} n (l : list A) :
  exists dropped,
    l = firstn n l ++ dropped
    /\ List.length (firstn n l) = Nat.min n (List.length l).
Proof.
  exists (skipn n l). split; [symmetry; apply firstn_skipn|apply length_firstn].
Qed.

Lemma bullets_are_items bullets :
  Forall (fun l => improvements_header l = false /\ bullet_style l = true)
         bullets ->
  List.filter (fun line => negb (improvements_header line)
                           && item_with_digits digits_1_3 line) bullets
  = bullets.
Proof.
  induction 1 as [|l bullets [Hh Hb] _ IH]; [reflexivity|].
  cbn [List.filter].
  now rewrite Hh, (bullet_style_item digits_1_3 l Hb), IH.
Qed.

(** C5 (as the code has it).  Each extracted list is cut to its cap by a
    slice, which never fails and keeps the first items in their order:
    the improvements are the first 10 of the items of the improvements
    section, the suggestions the first 5 of the items of the suggestions
    section, the recommendations (of both agents) the first 5 of the
    numbered lines, the alternatives the first 3 of the alternatives
    found; the rest is dropped.  The lists that the agents return are
    these.  When the improvements section holds 12 lines in bullet style,
    none of which names IMPROVEMENTS or CORRECTIONS, the first 10 of them
    are returned, trimmed, in their order. *)
Theorem extraction_caps (response : str) :
  (_extract_improvements response
   = firstn 10
       (List.map strip
          (List.filter
             (fun line => negb (improvements_header line)
                          && item_with_digits digits_1_3 line)
             (section_span improvements_header improvements_end false
                           (split_lines response))))
   /\ _extract_suggestions response
      = firstn 5
          (List.map strip
             (List.filter
                (fun line => negb (suggestions_header line)
                             && item_with_digits digits_1_3 line)
                (section_span suggestions_header suggestions_end false
                              (split_lines response))))
   /\ LiteratureReviewAgent.parse_recommendations response
      = firstn 5 (List.map strip
                    (List.filter numbered_line (split_lines response)))
   /\ HypothesisValidatorAgent.parse_recommendations response
      = firstn 5 (List.map strip
                    (List.filter numbered_line (split_lines response)))
   /\ HypothesisValidatorAgent.parse_alternatives response
      = firstn 3 (List.map render_alternative
                    (alternative_groups (split_lines response))))
  /\ (forall (n : nat) (found : list str),
         exists dropped,
           found = firstn n found ++ dropped
           /\ List.length (firstn n found) = Nat.min n (List.length found))
  /\ (List.length (_extract_improvements response) <= 10
      /\ List.length (_extract_suggestions response) <= 5
      /\ List.length (LiteratureReviewAgent.parse_recommendations response) <= 5
      /\ List.length (HypothesisValidatorAgent.parse_recommendations response) <= 5
      /\ List.length (HypothesisValidatorAgent.parse_alternatives response) <= 3)
  /\ (forall cp rq cits w,
         LiteratureReviewAgent._generate_recommendations cp rq cits w
         = Ok (LiteratureReviewAgent.parse_recommendations
                 (response_text w (cp rq cits)))
              (tick w))
  /\ (forall ip h v w,
         HypothesisValidatorAgent._generate_improvement_recommendations ip h v w
         = Ok (HypothesisValidatorAgent.parse_recommendations
                 (response_text w (ip h v)))
              (tick w))
  /\ (forall ap rq ctx w,
         match HypothesisValidatorAgent.generate_alternative_hypotheses ap rq ctx w with
         | Ok alts _ =>
             exists text,
               alts = HypothesisValidatorAgent.parse_alternatives text
         | Raise _ _ => readable w = false
         end)
  /\ (forall cpp gpp spp lpp ipp draft ptype audience w out w',
         process cpp gpp spp lpp ipp draft ptype audience w = Ok out w' ->
         exists text,
           out_improvements out = _extract_improvements text
           /\ out_suggestions out = _extract_suggestions text)
  /\ (forall bullets,
         section_span improvements_header improvements_end false
                      (split_lines response) = bullets ->
         Forall (fun l => improvements_header l = false /\ bullet_style l = true)
                bullets ->
         List.length bullets = 12 ->
         _extract_improvements response = List.map strip (firstn 10 bullets)
         /\ List.length (_extract_improvements response) = 10).
Proof.
  assert (Himp : _extract_improvements response
                 = firstn 10
                     (List.map strip
                        (List.filter
                           (fun line => negb (improvements_header line)
                                        && item_with_digits digits_1_3 line)
                           (section_span improvements_header improvements_end
                                         false (split_lines response))))).
  { unfold _extract_improvements. now rewrite improvements_loop_span. }
  split; [|split; [|split; [|split; [|split; [|split; [|split]]]]]].
  - split; [exact Himp|].
    split; [unfold _extract_suggestions; now rewrite suggestions_loop_span|].
    split; [apply parse_recommendations_numbered|].
    split; [rewrite recommendation_lines_agree;
            apply parse_recommendations_numbered|].
    now rewrite parse_alternatives_flush, alternatives_loop_idle.
  - intros n found. apply firstn_prefix.
  - unfold _extract_improvements, _extract_suggestions,
      LiteratureReviewAgent.parse_recommendations,
      HypothesisValidatorAgent.parse_recommendations.
    repeat split; try apply firstn_le_length.
    rewrite parse_alternatives_flush. apply firstn_le_length.
  - intros cp rq cits w. apply generate_recommendations_run.
  - intros ip h v w. apply improvement_recommendations_run.
  - intros ap rq ctx w.
    destruct (readable w) eqn:Hr.
    + destruct (alternative_hypotheses_run ap rq ctx w Hr) as [alts ->].
      now exists alts.
    + destruct (alternative_hypotheses_unreadable ap rq ctx w Hr) as [e ->].
      reflexivity.
  - intros cpp gpp spp lpp ipp draft ptype audience w out w' Hok.
    destruct (draft_process_completes _ _ _ _ _ _ _ _ _ _ _ Hok)
      as (Hr & Ha & _ & _).
    destruct (draft_process_run cpp gpp spp lpp ipp draft ptype audience w Hr Ha)
      as (out0 & w0 & Hrun & _ & _ & _ & H2 & H3 & _).
    rewrite Hok in Hrun. injection Hrun as <- <-.
    eexists. split; [exact H2|exact H3].
  - intros bullets Hspan Hbullets Hlen.
    rewrite Himp, Hspan, (bullets_are_items bullets Hbullets), firstn_map.
    split; [reflexivity|].
    rewrite length_map, length_firstn, Hlen. reflexivity.
Qed.

Lemma extraction_caps_witness :
  section_span improvements_header improvements_end false
               (split_lines twelve_bullet_response) = twelve_bullets
  /\ Forall (fun l => improvements_header l = false /\ bullet_style l = true)
            twelve_bullets
  /\ List.length twelve_bullets = 12
  /\ _extract_improvements twelve_bullet_response
     = List.map strip (firstn 10 twelve_bullets)
  /\ List.length (_extract_improvements twelve_bullet_response) = 10.
Proof.
  assert (Hb : Forall (fun l => improvements_header l = false /\ bullet_style l = true)
                      twelve_bullets).
  { repeat constructor. }
  split; [reflexivity|].
  split; [exact Hb|]. split; [reflexivity|].
  destruct (extraction_caps twelve_bullet_response)
    as (_ & _ & _ & _ & _ & _ & _ & H).
  exact (H twelve_bullets eq_refl Hb eq_refl).
Defined.

(** C5 as stated fails in its example: of 12 lines in bullet style in the
    improvements section, three of which name the corrections or the
    improvements, the extractor does not return the first 10: the three
    are taken for header lines and skipped, and the 9 others are
    returned. *)
Lemma twelve_bullets_with_header_words :
  section_span improvements_header improvements_end false
               (split_lines twelve_with_corrections_response)
  = twelve_with_corrections
  /\ Forall (fun l => bullet_style l = true) twelve_with_corrections
  /\ List.length twelve_with_corrections = 12
  /\ _extract_improvements twelve_with_corrections_response
     = [lit "- item 1"; lit "- item 2"; lit "- item 4"; lit "- item 5";
        lit "- item 7"; lit "- item 8"; lit "- item 10"; lit "- item 11";
        lit "- item 12"]
  /\ List.length (_extract_improvements twelve_with_corrections_response) = 9
  /\ _extract_improvements twelve_with_corrections_response
     <> List.map strip (firstn 10 twelve_with_corrections).
Proof.
  split; [reflexivity|]. split; [repeat constructor|].
  split; [reflexivity|]. split; [reflexivity|]. split; [reflexivity|].
  vm_compute. discriminate.
Qed.

End Caps.

(* ================================================================== *)
(** ** What the draft extractors return *)
(* ================================================================== *)

Section ExtractedItems.

Import DraftPolisherAgent.

Lemma section_lines_In header closing inside lines x :
  In x (section_lines header closing inside lines) ->
  In x lines /\ header x = false /\ closing x = false.
Proof.
  revert inside; induction lines as [|l lines IH]; intros inside; [intros []|].
  cbn [section_lines].
  destruct (header l) eqn:Hh.
  { intros H. destruct (IH _ H) as (H1 & H2). split; [now right|exact H2]. }
  destruct (closing l) eqn:Hc.
  { intros H. destruct (IH _ H) as (H1 & H2). split; [now right|exact H2]. }
  destruct inside.
  - intros [<-|H]; [now repeat split; try left|].
    destruct (IH _ H) as (H1 & H2). split; [now right|exact H2].
  - intros H. destruct (IH _ H) as (H1 & H2). split; [now right|exact H2].
Qed.

Lemma contains_upper_of_strip kw line :
  contains kw (upper (strip line)) = true -> contains kw (upper line) = true.
Proof.
  intros H. apply contains_iff in H as (a & b & H).
  destruct (strip_split line) as (pre & post & Hs & _).
  apply contains_iff. exists (upper pre ++ a), (b ++ upper post).
  rewrite Hs at 1. rewrite !upper_app, H.
  now rewrite <- !app_assoc.
Qed.

Lemma section_item_trimmed header closing response x :
  In x (section_items header closing digits_1_3 response) ->
  x <> [] /\ strip x = x
  /\ exists line,
      In line (split_lines response) /\ x = strip line
      /\ header line = false /\ closing line = false
      /\ item_with_digits digits_1_3 line = true.
Proof.
  unfold section_items. intros Hin.
  apply in_map_iff in Hin as (line & <- & Hl).
  apply filter_In in Hl as [Hl Hitem].
  apply section_lines_In in Hl as (Hl & Hh & Hc).
  split.
  - unfold item_with_digits in Hitem. apply andb_prop in Hitem as [Hne _].
    intros E. now rewrite E in Hne.
  - split; [apply strip_idem|]. now exists line.
Qed.

Lemma not_occurs_when_absent kw text :
  plain_upper kw = true ->
  contains kw (upper text) = false -> ~ occurs_ci kw text.
Proof.
  intros Hkw Hc Hocc. apply names_false in Hc.
  exact (Hc (occurs_ci_names kw text Hkw Hocc)).
Qed.

(** X6.  An improvement that is returned is a line of the response,
    trimmed and not empty, that is a list item (bullet, or "1.", "2.",
    "3." within its first three characters); it never names IMPROVEMENTS
    or CORRECTIONS, in any letter case, because such a line is taken as a
    section header.  Likewise a suggestion never names SUGGESTIONS. *)
Theorem extracted_items_never_name_headers (response x : str) :
  (In x (_extract_improvements response) ->
   x <> [] /\ strip x = x
   /\ ~ occurs_ci (lit "IMPROVEMENTS") x /\ ~ occurs_ci (lit "CORRECTIONS") x
   /\ exists line, In line (split_lines response) /\ x = strip line
                   /\ item_with_digits digits_1_3 line = true)
  /\ (In x (_extract_suggestions response) ->
      x <> [] /\ strip x = x
      /\ ~ occurs_ci (lit "SUGGESTIONS") x
      /\ exists line, In line (split_lines response) /\ x = strip line
                      /\ item_with_digits digits_1_3 line = true).
Proof.
  split; intros Hin.
  - unfold _extract_improvements in Hin. apply in_firstn in Hin.
    rewrite improvements_loop_section in Hin. cbn [app] in Hin.
    destruct (section_item_trimmed improvements_header improvements_end response x Hin)
      as (Hne & Hs & line & Hl & Hx & Hh & _ & Hitem).
    split; [exact Hne|]. split; [exact Hs|].
    unfold improvements_header in Hh. apply orb_false_elim in Hh as [H1 H2].
    split; [|split].
    + apply not_occurs_when_absent; [reflexivity|].
      destruct (contains (lit "IMPROVEMENTS") (upper x)) eqn:E; [|reflexivity].
      rewrite Hx in E. apply contains_upper_of_strip in E. congruence.
    + apply not_occurs_when_absent; [reflexivity|].
      destruct (contains (lit "CORRECTIONS") (upper x)) eqn:E; [|reflexivity].
      rewrite Hx in E. apply contains_upper_of_strip in E. congruence.
    + now exists line.
  - unfold _extract_suggestions in Hin. apply in_firstn in Hin.
    rewrite suggestions_loop_section in Hin. cbn [app] in Hin.
    destruct (section_item_trimmed suggestions_header suggestions_end response x Hin)
      as (Hne & Hs & line & Hl & Hx & Hh & _ & Hitem).
    split; [exact Hne|]. split; [exact Hs|].
    unfold suggestions_header in Hh.
    split.
    + apply not_occurs_when_absent; [reflexivity|].
      destruct (contains (lit "SUGGESTIONS") (upper x)) eqn:E; [|reflexivity].
      rewrite Hx in E. apply contains_upper_of_strip in E. congruence.
    + now exists line.
Qed.

Lemma extracted_items_never_name_headers_witness :
  _extract_improvements corrections_response = [lit "- Fixed a typo"]
  /\ ~ occurs_ci (lit "CORRECTIONS") (lit "- Fixed a typo").
Proof.
  split; [reflexivity|].
  refine (proj1 (proj2 (proj2 (proj2
            (proj1 (extracted_items_never_name_headers corrections_response
                      (lit "- Fixed a typo")) _))))).
  left. reflexivity.
Defined.

End ExtractedItems.

(* ================================================================== *)
(** ** The polished text *)
(* ================================================================== *)

Section PolishedText.

Import DraftPolisherAgent.

Lemma polished_loop_section lines inside acc :
  polished_loop lines inside acc
  = acc ++ List.filter (fun line => truthy (strip line))
             (section_lines text_header text_end inside lines).
Proof.
  revert inside acc; induction lines as [|line rest IH]; intros inside acc.
  - simpl. now rewrite app_nil_r.
  - cbn [polished_loop section_lines].
    fold (text_header line). fold (text_end line).
    destruct (text_header line); [apply IH|].
    destruct (text_end line); [apply IH|].
    destruct inside; cbn [andb]; [|apply IH].
    cbn [List.filter].
    destruct (truthy (strip line)); rewrite IH; [|reflexivity].
    now rewrite <- app_assoc.
Qed.

Lemma joined_body_not_blank l ls :
  truthy (strip l) = true -> truthy (strip (join [newline] (l :: ls))) = true.
Proof.
  intros Hl.
  assert (Hj : exists tail, join [newline] (l :: ls) = l ++ tail).
  { destruct ls as [|c cs]; [exists []; now rewrite app_nil_r|].
    now exists ([newline] ++ join [newline] (c :: cs)). }
  destruct Hj as [tail ->].
  rewrite strip_truthy in *. rewrite forallb_app.
  now destruct (forallb is_space l).
Qed.

(** X7.  The polished text is the trimmed join of the non-blank lines
    that lie in a text block (after a line with a text marker, before a
    line naming IMPROVEMENTS, CORRECTIONS, SUGGESTIONS or QUALITY); blank
    lines of the block are dropped.  The original text is returned
    exactly when there is no such line.  The result is empty only when
    the original text is. *)
Theorem extract_polished_text_result (response original_text : str) :
  (polished_body response = [] ->
   _extract_polished_text response original_text = original_text)
  /\ (polished_body response <> [] ->
      _extract_polished_text response original_text
      = strip (join [newline] (polished_body response))
      /\ _extract_polished_text response original_text <> [])
  /\ (original_text <> [] ->
      _extract_polished_text response original_text <> []).
Proof.
  unfold _extract_polished_text. rewrite polished_loop_section. cbn [app].
  fold (polished_body response).
  destruct (polished_body response) as [|l ls] eqn:E.
  - split; [reflexivity|]. split; [intros H; now contradiction H|].
    cbn. auto.
  - assert (Hl : truthy (strip l) = true).
    { assert (Hin : In l (polished_body response)) by (rewrite E; now left).
      unfold polished_body in Hin. now apply filter_In in Hin as [_ Hin]. }
    pose proof (joined_body_not_blank l ls Hl) as Ht.
    rewrite Ht.
    assert (Hne : strip (join [newline] (l :: ls)) <> []).
    { intros H. now rewrite H in Ht. }
    split; [discriminate|]. split; [now intros _|now intros _].
Qed.

Lemma extract_polished_text_result_witness :
  polished_body polished_response
  = [lit "  Sleep helps memory."; lit "Naps help too.  "]
  /\ _extract_polished_text polished_response (lit "draft")
     = lit "Sleep helps memory." ++ [newline] ++ lit "Naps help too.".
Proof.
  split; [reflexivity|].
  refine (eq_trans
            (proj1 (proj1 (proj2 (extract_polished_text_result polished_response
                                    (lit "draft"))) _)) _).
  - discriminate.
  - reflexivity.
Defined.

End PolishedText.

(* ================================================================== *)
(** ** Hypothesis validation and draft polishing: what is saved *)
(* ================================================================== *)

Section SavedEntries.

(** X8.  A hypothesis validation that completes appends exactly one entry
    to the stored hypotheses: it holds the hypothesis, the validation
    result that is also returned, and the research question used, which
    is the supplied one when it is not empty and the stored one
    otherwise.  The stored research question, citations, notes, reviews
    and drafts are left as they were; the hypothesis flag is set and the
    two other flags keep their values. *)
Theorem hypothesis_validation_frame vp ip (h rq : str) (w : world) out w' :
  HypothesisValidatorAgent.process vp ip h rq w = Ok out w' ->
  exists m' entry,
    disk w' = Document m'
    /\ hypotheses m' = hypotheses (memory_of w) ++ [entry]
    /\ hypothesis entry = h
    /\ validation entry = HypothesisValidatorAgent.out_validation out
    /\ (rq <> [] -> hypothesis_research_question entry = rq)
    /\ (rq = [] -> hypothesis_research_question entry
                   = research_question (memory_of w))
    /\ research_question m' = research_question (memory_of w)
    /\ citations m' = citations (memory_of w)
    /\ notes m' = notes (memory_of w)
    /\ literature_reviews m' = literature_reviews (memory_of w)
    /\ drafts m' = drafts (memory_of w)
    /\ hypothesis_validated (progress m') = true
    /\ literature_review_completed (progress m')
       = literature_review_completed (progress (memory_of w))
    /\ draft_polished (progress m') = draft_polished (progress (memory_of w)).
Proof.
  intros Hok.
  destruct (hypothesis_process_completes vp ip h rq w out w' Hok)
    as (Hr & Ha & _ & _).
  destruct (hypothesis_process_run vp ip h rq w Hr Ha)
    as (out0 & w0 & Hrun & Hdisk & _ & Hv & _).
  rewrite Hok in Hrun. injection Hrun as <- <-.
  eexists. eexists.
  split; [exact Hdisk|].
  rewrite Hv. cbn.
  repeat split.
  - intros Hne. unfold asked_question. destruct rq; [contradiction|reflexivity].
  - intros ->. reflexivity.
Qed.

Lemma hypothesis_validation_frame_witness :
  exists out w',
    HypothesisValidatorAgent.process (t_validation plain_templates)
      (t_improvement plain_templates) (lit "Naps help") [] stored_world
    = Ok out w'
    /\ exists m' entry,
        disk w' = Document m'
        /\ hypotheses m' = [entry]
        /\ hypothesis entry = lit "Naps help"
        /\ hypothesis_research_question entry = lit "Does sleep help recall?".
Proof.
  assert (E : exists out w',
             HypothesisValidatorAgent.process (t_validation plain_templates)
               (t_improvement plain_templates) (lit "Naps help") [] stored_world
             = Ok out w').
  { vm_compute. eexists. eexists. reflexivity. }
  destruct E as (out & w' & E). exists out, w'. split; [exact E|].
  destruct (hypothesis_validation_frame (t_validation plain_templates)
              (t_improvement plain_templates) (lit "Naps help") [] stored_world
              out w' E)
    as (m' & entry & Hdisk & Hh & He & _ & _ & Hq & _).
  exists m', entry. repeat split; try assumption. exact (Hq eq_refl).
Defined.

(** X9.  A draft polish that completes appends exactly one entry to the
    stored drafts: it holds the draft as given, the polish type as given,
    the polished text and the improvements that are also returned, and
    the word counts of the two texts.  Every other field of the store is
    left as it was; the draft flag is set and the two other flags keep
    their values. *)
Theorem draft_polish_frame cpp gpp spp lpp ipp (draft ptype audience : str)
        (w : world) out w' :
  DraftPolisherAgent.process cpp gpp spp lpp ipp draft ptype audience w
  = Ok out w' ->
  exists m' entry,
    disk w' = Document m'
    /\ drafts m' = drafts (memory_of w) ++ [entry]
    /\ original_draft entry = draft
    /\ polish_type entry = ptype
    /\ polished_draft entry = DraftPolisherAgent.out_polished_text out
    /\ improvements_made entry = DraftPolisherAgent.out_improvements out
    /\ word_count_original entry = word_count draft
    /\ word_count_polished entry
       = word_count (DraftPolisherAgent.out_polished_text out)
    /\ DraftPolisherAgent.original_text out = draft
    /\ research_question m' = research_question (memory_of w)
    /\ citations m' = citations (memory_of w)
    /\ notes m' = notes (memory_of w)
    /\ literature_reviews m' = literature_reviews (memory_of w)
    /\ hypotheses m' = hypotheses (memory_of w)
    /\ draft_polished (progress m') = true
    /\ literature_review_completed (progress m')
       = literature_review_completed (progress (memory_of w))
    /\ hypothesis_validated (progress m')
       = hypothesis_validated (progress (memory_of w)).
Proof.
  intros Hok.
  destruct (draft_process_completes _ _ _ _ _ _ _ _ _ _ _ Hok)
    as (Hr & Ha & _ & _).
  destruct (draft_process_run cpp gpp spp lpp ipp draft ptype audience w Hr Ha)
    as (out0 & w0 & Hrun & Hdisk & _ & H1 & H2 & _ & _ & Ho).
  rewrite Hok in Hrun. injection Hrun as <- <-.
  eexists. eexists.
  split; [exact Hdisk|].
  rewrite H1, H2, Ho. cbn.
  repeat split.
Qed.

Lemma draft_polish_frame_witness :
  exists out w',
    DraftPolisherAgent.process (t_comprehensive plain_templates)
      (t_grammar plain_templates) (t_structure plain_templates)
      (t_clarity plain_templates) (t_citations plain_templates)
      (lit "Sleep help memory") (lit "grammar") (lit "academic") first_world
    = Ok out w'
    /\ exists m' entry,
        disk w' = Document m'
        /\ drafts m' = [entry]
        /\ original_draft entry = lit "Sleep help memory"
        /\ word_count_original entry = 3.
Proof.
  assert (E : exists out w',
             DraftPolisherAgent.process (t_comprehensive plain_templates)
               (t_grammar plain_templates) (t_structure plain_templates)
               (t_clarity plain_templates) (t_citations plain_templates)
               (lit "Sleep help memory") (lit "grammar") (lit "academic")
               first_world
             = Ok out w').
  { vm_compute. eexists. eexists. reflexivity. }
  destruct E as (out & w' & E). exists out, w'. split; [exact E|].
  destruct (draft_polish_frame (t_comprehensive plain_templates)
              (t_grammar plain_templates) (t_structure plain_templates)
              (t_clarity plain_templates) (t_citations plain_templates)
              (lit "Sleep help memory") (lit "grammar") (lit "academic")
              first_world out w' E)
    as (m' & entry & Hdisk & Hd & Ho & _ & _ & _ & Hc & _).
  exists m', entry. repeat split; assumption.
Defined.

End SavedEntries.

(* ================================================================== *)
(** ** The store over a sequence of tasks *)
(* ================================================================== *)

Section StoreGrowth.

Lemma grows_refl m : grows 0 0 0 m m.
Proof.
  unfold grows. repeat split; exists []; rewrite ?app_nil_r; auto.
Qed.

Lemma grows_trans a b c a' b' c' m m1 m2 :
  grows a b c m m1 -> grows a' b' c' m1 m2 ->
  grows (a + a') (b + b') (c + c') m m2.
Proof.
  intros ((x1 & H1) & (x2 & H2) & (x3 & H3 & L3) & (x4 & H4 & L4) & (x5 & H5 & L5))
         ((y1 & G1) & (y2 & G2) & (y3 & G3 & K3) & (y4 & G4 & K4) & (y5 & G5 & K5)).
  unfold grows. repeat split.
  - exists (x1 ++ y1). now rewrite G1, H1, app_assoc.
  - exists (x2 ++ y2). now rewrite G2, H2, app_assoc.
  - exists (x3 ++ y3). rewrite G3, H3, app_assoc, length_app. now subst.
  - exists (x4 ++ y4). rewrite G4, H4, app_assoc, length_app. now subst.
  - exists (x5 ++ y5). rewrite G5, H5, app_assoc, length_app. now subst.
Qed.

Lemma run_task_grows T t w w' :
  run_task T t w = Ok tt w' ->
  grows (bump (is_review t)) (bump (is_validation t)) (bump (is_polish t))
        (memory_of w) (memory_of w').
Proof.
  intros H. apply run_task_completes in H.
  destruct t as [inp | cs | h q | q c | d p a | v1 v2];
    cbn [is_review is_validation is_polish bump].
  - rewrite (memory_of_document _ _ H). unfold review_document.
    match goal with
    | |- grows _ _ _ _ (reviewed ?i ?r ?ts ?m) =>
        destruct (reviewed_rest i r ts m) as (Hl & Hh & Hdr & _)
    end.
    unfold grows. rewrite reviewed_citations, reviewed_notes, Hl, Hh, Hdr.
    repeat split; try (eexists; split; [reflexivity|reflexivity]);
      try (eexists; reflexivity);
      exists []; rewrite app_nil_r; auto.
  - rewrite (memory_of_same_disk _ _ H). apply grows_refl.
  - rewrite (memory_of_document _ _ H).
    unfold grows, validation_document. cbn.
    repeat split; try (eexists; split; reflexivity);
      exists []; rewrite app_nil_r; auto.
  - rewrite (memory_of_same_disk _ _ H). apply grows_refl.
  - rewrite (memory_of_document _ _ H).
    unfold grows, draft_document. cbn.
    repeat split; try (eexists; split; reflexivity);
      exists []; rewrite app_nil_r; auto.
  - rewrite (memory_of_same_disk _ _ H). apply grows_refl.
Qed.

Lemma run_tasks_grow T ts :
  forall w w',
    run_tasks T ts w = Ok tt w' ->
    grows (List.length (List.filter is_review ts))
          (List.length (List.filter is_validation ts))
          (List.length (List.filter is_polish ts))
          (memory_of w) (memory_of w').
Proof.
  induction ts as [|t rest IH]; intros w w' H.
  - injection H as <-. apply grows_refl.
  - apply run_tasks_cons_inv in H as (w1 & H1 & Hrest).
    pose proof (grows_trans _ _ _ _ _ _ _ _ _
                  (run_task_grows T t w w1 H1) (IH w1 w' Hrest)) as Hg.
    cbn [List.filter].
    destruct t; cbn [is_review is_validation is_polish bump] in *; exact Hg.
Qed.

(** X10.  Over any sequence of tasks that complete, the five sequences of
    the store are only ever extended: citations and notes keep what they
    held, in order, and the stored reviews, hypotheses and drafts grow by
    exactly the number of literature reviews, hypothesis validations and
    draft polishes in the sequence (the read-only operations add
    nothing). *)
Theorem store_only_grows (T : templates) (ts : list task) (w w' : world) :
  run_tasks T ts w = Ok tt w' ->
  (exists more, citations (memory_of w') = citations (memory_of w) ++ more)
  /\ (exists more, notes (memory_of w') = notes (memory_of w) ++ more)
  /\ (exists more,
         literature_reviews (memory_of w')
         = literature_reviews (memory_of w) ++ more
         /\ List.length more = List.length (List.filter is_review ts))
  /\ (exists more,
         hypotheses (memory_of w') = hypotheses (memory_of w) ++ more
         /\ List.length more = List.length (List.filter is_validation ts))
  /\ (exists more,
         drafts (memory_of w') = drafts (memory_of w) ++ more
         /\ List.length more = List.length (List.filter is_polish ts)).
Proof.
  intros H. exact (run_tasks_grow T ts w w' H).
Qed.

Lemma store_only_grows_witness :
  exists w',
    run_tasks plain_templates
              [LiteratureReview two_citations;
               SourceAnalysis [lit "A"];
               DraftPolish (lit "draft") (lit "grammar") (lit "academic");
               LiteratureReview one_citation]
              first_world
    = Ok tt w'
    /\ List.length (literature_reviews (memory_of w')) = 2
    /\ List.length (drafts (memory_of w')) = 1
    /\ List.length (hypotheses (memory_of w')) = 0.
Proof.
  assert (E : exists w',
             run_tasks plain_templates
                       [LiteratureReview two_citations;
                        SourceAnalysis [lit "A"];
                        DraftPolish (lit "draft") (lit "grammar") (lit "academic");
                        LiteratureReview one_citation]
                       first_world = Ok tt w').
  { vm_compute. eexists. reflexivity. }
  destruct E as (w' & E). exists w'. split; [exact E|].
  destruct (store_only_grows plain_templates
              [LiteratureReview two_citations;
               SourceAnalysis [lit "A"];
               DraftPolish (lit "draft") (lit "grammar") (lit "academic");
               LiteratureReview one_citation]
              first_world w' E)
    as (_ & _ & (r & Hr & Lr) & (h & Hh & Lh) & (d & Hd & Ld)).
  rewrite Hr, Hh, Hd, !length_app, Lr, Lh, Ld. repeat split.
Defined.

End StoreGrowth.

(* ================================================================== *)
(** ** Storage failures and read-only operations *)
(* ================================================================== *)

Section StorageFailures.

Import BaseAgent.

(** X11.  When the backing file cannot be read (for another reason than
    being absent or not being JSON), the three [process] operations and
    the generation of alternatives raise that very exception at once: no
    call to the model or to the clock is made and nothing is written. *)
Theorem unreadable_store_raises (w : world) :
  readable w = false ->
  exists e,
    disk w = Unreadable e
    /\ (forall rp cp inp, LiteratureReviewAgent.process rp cp inp w = Raise e w)
    /\ (forall vp ip h rq, HypothesisValidatorAgent.process vp ip h rq w = Raise e w)
    /\ (forall cpp gpp spp lpp ipp d p a,
           DraftPolisherAgent.process cpp gpp spp lpp ipp d p a w = Raise e w)
    /\ (forall ap rq ctx,
           HypothesisValidatorAgent.generate_alternative_hypotheses ap rq ctx w
           = Raise e w).
Proof.
  intros Hr.
  assert (Hl : exists e, disk w = Unreadable e /\ load_memory w = Raise e w).
  { rewrite load_memory_run, Hr. unfold readable in Hr.
    destruct (disk w) as [| s | | e | m]; try discriminate. now exists e. }
  destruct Hl as (e & Hd & Hl). exists e. split; [exact Hd|].
  repeat split; intros;
    [ unfold LiteratureReviewAgent.process
    | unfold HypothesisValidatorAgent.process
    | unfold DraftPolisherAgent.process
    | unfold HypothesisValidatorAgent.generate_alternative_hypotheses ];
    exact (bind_raise _ _ _ _ _ Hl).
Qed.

Lemma unreadable_store_raises_witness :
  readable locked_world = false
  /\ exists e,
      disk locked_world = Unreadable e
      /\ LiteratureReviewAgent.process (t_review plain_templates)
           (t_recommendations plain_templates) two_citations locked_world
         = Raise e locked_world.
Proof.
  split; [reflexivity|].
  destruct (unreadable_store_raises locked_world eq_refl) as (e & Hd & Hl & _).
  exists e. split; [exact Hd|apply Hl].
Defined.





(** X13.  Source analysis and draft comparison never read or write the
    store and never raise, whatever its state: they return the analysis
    text with the number of citations, respectively with the word counts
    of the two versions.  The generation of alternatives reads the store
    but leaves it as it is, whether it returns or raises. *)
Theorem read_only_operations (w : world) :
  (forall sp cits,
      LiteratureReviewAgent.analyze_source_quality sp cits w
      = Ok (response_text w (sp cits), List.length cits, clock w (S (ticks w)))
           (tick (tick w)))
  /\ (forall cp v1 v2,
         DraftPolisherAgent.compare_versions cp v1 v2 w
         = Ok (response_text w (cp v1 v2), word_count v1, word_count v2,
               clock w (S (ticks w)))
              (tick (tick w)))
  /\ disk (tick (tick w)) = disk w
  /\ (forall ap rq ctx,
         match HypothesisValidatorAgent.generate_alternative_hypotheses ap rq ctx w with
         | Ok _ w' => disk w' = disk w
         | Raise _ w' => disk w' = disk w
         end).
Proof.
  split; [|split; [|split; [reflexivity|]]].
  - intros sp cits. unfold LiteratureReviewAgent.analyze_source_quality.
    rewrite (bind_ok _ _ _ _ _ (generate_response_run (sp cits) w)).
    now rewrite (bind_ok _ _ _ _ _ (datetime_now_run (tick w))).
  - intros cp v1 v2. unfold DraftPolisherAgent.compare_versions.
    rewrite (bind_ok _ _ _ _ _ (generate_response_run (cp v1 v2) w)).
    now rewrite (bind_ok _ _ _ _ _ (datetime_now_run (tick w))).
  - intros ap rq ctx. destruct (readable w) eqn:Hr.
    + destruct (alternative_hypotheses_run ap rq ctx w Hr) as [alts ->].
      reflexivity.
    + destruct (alternative_hypotheses_unreadable ap rq ctx w Hr) as [e ->].
      reflexivity.
Qed.

End StorageFailures.

(* ================================================================== *)
(** ** From one task to the next *)
(* ================================================================== *)

Section Composition.

Lemma latest_review_appended reviews e m :
  literature_reviews m = reviews ++ [e] ->
  HypothesisValidatorAgent.validation_context m
  = lit "Based on literature review: " ++ firstn 500 (review e) ++ lit "...".
Proof.
  intros H. unfold HypothesisValidatorAgent.validation_context,
    HypothesisValidatorAgent.latest_review.
  rewrite H, rev_app_distr. cbn [rev app].
  destruct reviews; reflexivity.
Qed.

(** X14.  A literature review that completes feeds the validation that
    follows it: the literature context given to the validation prompt is
    "Based on literature review: ", the first 500 characters of the
    review just returned, and "..."; and a validation that supplies no
    research question and completes is run against the question of the
    review (or, when the review supplied none, the one stored before),
    which the new hypothesis entry records. *)
Theorem review_feeds_validation rp cp vp ip
        (inp : LiteratureReviewAgent.input) (h : str) (w : world) out1 w1 :
  LiteratureReviewAgent.process rp cp inp w = Ok out1 w1 ->
  HypothesisValidatorAgent.validation_context (memory_of w1)
  = lit "Based on literature review: "
    ++ firstn 500 (LiteratureReviewAgent.out_review out1) ++ lit "..."
  /\ forall out2 w2,
      HypothesisValidatorAgent.process vp ip h [] w1 = Ok out2 w2 ->
      exists m2 entry,
        disk w2 = Document m2
        /\ hypotheses m2 = hypotheses (memory_of w) ++ [entry]
        /\ hypothesis_research_question entry
           = (if truthy (LiteratureReviewAgent.in_research_question inp)
              then LiteratureReviewAgent.in_research_question inp
              else research_question (memory_of w))
        /\ detailed_analysis (validation entry)
           = response_text w1
               (vp (hypothesis_research_question entry) h
                   (lit "Based on literature review: "
                    ++ firstn 500 (LiteratureReviewAgent.out_review out1)
                    ++ lit "...")).
Proof.
  intros Hok1.
  destruct (literature_process_completes rp cp inp w out1 w1 Hok1)
    as (Hr & Ha & _ & _).
  destruct (literature_process_run rp cp inp w Hr Ha)
    as (out0 & w0 & Hrun1 & Hd1 & _ & Hrev & _).
  rewrite Hok1 in Hrun1. injection Hrun1 as <- <-.
  pose proof (memory_of_document _ _ Hd1) as Hm1.
  destruct (reviewed_rest inp
              (response_text w
                 (rp (LiteratureReviewAgent.in_research_question inp)
                     (LiteratureReviewAgent.in_citations inp)
                     (LiteratureReviewAgent.in_notes inp)))
              (clock w (S (ticks w))) (memory_of w)) as (Hl & Hh & _).
  rewrite <- Hm1 in Hl, Hh.
  pose proof (latest_review_appended _ _ _ Hl) as Hctx. cbn [review] in Hctx.
  rewrite <- Hrev in Hctx.
  split; [exact Hctx|].
  intros out2 w2 Hok2.
  destruct (hypothesis_process_completes vp ip h [] w1 out2 w2 Hok2)
    as (_ & _ & Hd2 & _).
  eexists. eexists.
  split; [exact Hd2|].
  unfold validation_document. cbn. rewrite Hh, Hctx.
  assert (Hq : research_question (memory_of w1)
               = (if truthy (LiteratureReviewAgent.in_research_question inp)
                  then LiteratureReviewAgent.in_research_question inp
                  else research_question (memory_of w))).
  { rewrite Hm1. apply reviewed_research_question. }
  unfold asked_question. cbn [truthy]. rewrite Hq. repeat split.
Qed.

Lemma review_feeds_validation_witness :
  exists out1 w1,
    LiteratureReviewAgent.process (t_review plain_templates)
      (t_recommendations plain_templates) one_citation first_world
    = Ok out1 w1
    /\ HypothesisValidatorAgent.validation_context (memory_of w1)
       = lit "Based on literature review: "
         ++ firstn 500 (LiteratureReviewAgent.out_review out1) ++ lit "...".
Proof.
  assert (E : exists out1 w1,
             LiteratureReviewAgent.process (t_review plain_templates)
               (t_recommendations plain_templates) one_citation first_world
             = Ok out1 w1).
  { vm_compute. eexists. eexists. reflexivity. }
  destruct E as (out1 & w1 & E). exists out1, w1. split; [exact E|].
  exact (proj1 (review_feeds_validation (t_review plain_templates)
                  (t_recommendations plain_templates)
                  (t_validation plain_templates)
                  (t_improvement plain_templates) one_citation (lit "Naps help")
                  first_world out1 w1 E)).
Defined.

(** X15.  The literature context of the validation prompt is empty
    exactly when no review is stored, and never longer than 531
    characters however long the latest review is.  The research context
    of the polish prompts is empty exactly when the store has no research
    question, no review and no hypothesis. *)
Theorem prompt_contexts (m : Memory) :
  List.length (HypothesisValidatorAgent.validation_context m) <= 531
  /\ (HypothesisValidatorAgent.validation_context m = []
      <-> literature_reviews m = [])
  /\ (DraftPolisherAgent._build_research_context m = []
      <-> research_question m = [] /\ literature_reviews m = []
          /\ hypotheses m = []).
Proof.
  split; [|split].
  - unfold HypothesisValidatorAgent.validation_context.
    destruct (truthy (literature_reviews m)); [|simpl; lia].
    rewrite !length_app.
    pose proof (firstn_le_length 500 (HypothesisValidatorAgent.latest_review m)).
    change (List.length (lit "Based on literature review: ")) with 28.
    change (List.length (lit "...")) with 3. lia.
  - unfold HypothesisValidatorAgent.validation_context.
    destruct (literature_reviews m) as [|e l]; simpl; split; try reflexivity;
      discriminate.
  - unfold DraftPolisherAgent._build_research_context.
    destruct (research_question m) as [|c q];
      destruct (literature_reviews m) as [|e l];
      destruct (hypotheses m) as [|x hs]; cbn [truthy app];
      (split; [intros H|intros (H1 & H2 & H3)]);
      try discriminate; try (repeat split; reflexivity);
      exfalso; revert H; cbn [join app]; discriminate.
Qed.

End Composition.

(* ================================================================== *)
(** ** The quality score beside the extraction *)
(* ================================================================== *)

Section ScoreAndExtraction.

Import DraftPolisherAgent.

Lemma occurs_ci_in_line kw line response :
  In line (split_lines response) -> occurs_ci kw line -> occurs_ci kw response.
Proof.
  intros Hin (a & x & b & -> & Hx).
  destruct (split_lines_piece response _ Hin) as ((pre & post & ->) & _).
  exists (pre ++ a), x, (b ++ post). split; [|exact Hx].
  now rewrite <- !app_assoc.
Qed.

Lemma occurs_ci_shorter kw tail text :
  occurs_ci (kw ++ tail) text -> occurs_ci kw text.
Proof.
  intros (a & x & b & -> & Hx).
  unfold lower in Hx. rewrite map_app in Hx.
  apply map_eq_app in Hx as (x1 & x2 & -> & H1 & _).
  exists a, x1, (x2 ++ b). split; [now rewrite <- !app_assoc|exact H1].
Qed.

Lemma occurs_ci_same_letters kw kw' text :
  lower kw = lower kw' -> occurs_ci kw text -> occurs_ci kw' text.
Proof.
  intros H (a & x & b & -> & Hx). exists a, x, b. split; [reflexivity|congruence].
Qed.

(** X16.  A response one of whose lines has the word IMPROVEMENTS,
    written in ASCII letters of any case, has an improvements header (the
    line is taken as one) and never gets the default quality score 7.0:
    the word "improvement" is then present, so the score is 9.0, 7.5 or
    6.0. *)
Theorem improvements_header_excludes_default (original_text response line : str) :
  In line (split_lines response) ->
  occurs_ci (lit "IMPROVEMENTS") line ->
  improvements_header line = true
  /\ (_assess_quality_score original_text response = 9.0%Q
      \/ _assess_quality_score original_text response = 7.5%Q
      \/ _assess_quality_score original_text response = 6.0%Q).
Proof.
  intros Hin Hc. split.
  - unfold improvements_header.
    apply (occurs_ci_names (lit "IMPROVEMENTS") line eq_refl) in Hc.
    apply names_iff in Hc. now rewrite Hc.
  - apply (occurs_ci_in_line _ _ _ Hin) in Hc.
    apply (occurs_ci_same_letters _ (lit "improvement" ++ lit "s") _ eq_refl) in Hc.
    apply occurs_ci_shorter in Hc.
    apply (contains_lower_iff (lit "improvement") response eq_refl) in Hc.
    unfold _assess_quality_score. rewrite Hc.
    destruct (contains (lit "excellent") (lower response)
              || contains (lit "high quality") (lower response)); [now left|].
    destruct (contains (lit "good") (lower response)
              || contains (lit "well") (lower response)); [right; now left|].
    right; now right.
Qed.

Lemma improvements_header_excludes_default_witness :
  In (lit "Improvements made:")
     (split_lines (lit "Improvements made:" ++ [newline] ++ lit "- tense"))
  /\ occurs_ci (lit "IMPROVEMENTS") (lit "Improvements made:")
  /\ improvements_header (lit "Improvements made:") = true
  /\ _assess_quality_score (lit "draft")
       (lit "Improvements made:" ++ [newline] ++ lit "- tense") = 6.0%Q.
Proof.
  assert (Hin : In (lit "Improvements made:")
                   (split_lines (lit "Improvements made:" ++ [newline] ++ lit "- tense"))).
  { left. reflexivity. }
  assert (Hocc : occurs_ci (lit "IMPROVEMENTS") (lit "Improvements made:")).
  { exists [], (lit "Improvements"), (lit " made:"). split; reflexivity. }
  split; [exact Hin|]. split; [exact Hocc|].
  destruct (improvements_header_excludes_default (lit "draft")
              (lit "Improvements made:" ++ [newline] ++ lit "- tense")
              (lit "Improvements made:") Hin Hocc) as [Hh [H|[H|H]]];
    [discriminate H|discriminate H|split; [exact Hh|exact H]].
Defined.

Lemma no_text_marker_fallback response original_text :
  (forall line marker,
      In line (split_lines response) -> In marker text_markers ->
      ~ names marker line) ->
  _extract_polished_text response original_text = original_text.
Proof.
  intros Hno. unfold _extract_polished_text.
  rewrite polished_loop_no_marker; [reflexivity|].
  apply Forall_forall. intros line Hin.
  apply names_any_false. intros marker Hm. now apply Hno.
Qed.

(** X17.  When the response to a polish request names no text marker (a
    failed generation, for one) and the request completes, the draft is
    stored as its own polished version: the new draft entry has the
    polished draft equal to the original draft, with equal word counts,
    and the original text is what the caller gets back as polished
    text. *)
Theorem polish_without_marker_keeps_draft cpp gpp spp lpp ipp
        (draft ptype audience : str) (w : world) out w' :
  (forall line marker,
      In line (split_lines
                 (response_text w
                    (prompt_func cpp gpp spp lpp ipp ptype draft audience
                       (_build_research_context (memory_of w))))) ->
      In marker text_markers ->
      ~ names marker line) ->
  process cpp gpp spp lpp ipp draft ptype audience w = Ok out w' ->
  exists m' entry,
    disk w' = Document m'
    /\ drafts m' = drafts (memory_of w) ++ [entry]
    /\ polished_draft entry = draft
    /\ original_draft entry = draft
    /\ word_count_polished entry = word_count_original entry
    /\ out_polished_text out = draft.
Proof.
  intros Hno Hok.
  destruct (draft_process_completes _ _ _ _ _ _ _ _ _ _ _ Hok)
    as (Hr & Ha & _ & _).
  destruct (draft_process_run cpp gpp spp lpp ipp draft ptype audience w Hr Ha)
    as (out0 & w0 & Hrun & Hdisk & _ & H1 & _).
  rewrite Hok in Hrun. injection Hrun as <- <-.
  eexists. eexists.
  split; [exact Hdisk|].
  rewrite H1. cbn.
  rewrite (no_text_marker_fallback _ draft Hno). repeat split.
Qed.

Lemma polish_without_marker_keeps_draft_witness :
  exists out w',
    process (t_comprehensive plain_templates) (t_grammar plain_templates)
      (t_structure plain_templates) (t_clarity plain_templates)
      (t_citations plain_templates)
      (lit "Sleep help memory") (lit "grammar") (lit "academic") offline_world
    = Ok out w'
    /\ exists m' entry,
        disk w' = Document m'
        /\ drafts m' = [entry]
        /\ polished_draft entry = lit "Sleep help memory".
Proof.
  assert (Hno : forall line marker,
             In line (split_lines
                        (response_text offline_world
                           (prompt_func (t_comprehensive plain_templates)
                              (t_grammar plain_templates) (t_structure plain_templates)
                              (t_clarity plain_templates) (t_citations plain_templates)
                              (lit "grammar") (lit "Sleep help memory") (lit "academic")
                              (_build_research_context (memory_of offline_world))))) ->
             In marker text_markers ->
             ~ names marker line).
  { intros line marker [<-|[]] Hm.
    simpl in Hm.
    destruct Hm as [<-|[<-|[<-|[<-|[<-|[]]]]]];
      (apply names_false; reflexivity). }
  assert (E : exists out w',
             process (t_comprehensive plain_templates) (t_grammar plain_templates)
               (t_structure plain_templates) (t_clarity plain_templates)
               (t_citations plain_templates)
               (lit "Sleep help memory") (lit "grammar") (lit "academic")
               offline_world
             = Ok out w').
  { vm_compute. eexists. eexists. reflexivity. }
  destruct E as (out & w' & E). exists out, w'. split; [exact E|].
  destruct (polish_without_marker_keeps_draft (t_comprehensive plain_templates)
              (t_grammar plain_templates) (t_structure plain_templates)
              (t_clarity plain_templates) (t_citations plain_templates)
              (lit "Sleep help memory") (lit "grammar") (lit "academic")
              offline_world out w' Hno E)
    as (m' & entry & Hdisk & Hd & Hp & _).
  exists m', entry. repeat split; assumption.
Defined.

(** X25.  The letter-case-blind test of the source reads the upper-cased
    line.  A word written in ASCII letters of any case is named by the
    line; on a line written in ASCII nothing else names it; but a line
    can name a word through other letters: "clar" followed by the dotless
    i and "ty: 8" names CLARITY, and its score is 8.  The standalone test
    follows the word characters of Unicode: in "CLARITY: " followed by
    an e with acute accent and "8 then 3" the 8 follows a letter, and the
    score is 3. *)
Theorem case_blind_test (kw line : str) :
  (plain_upper kw = true -> occurs_ci kw line -> names kw line)
  /\ (ascii_text line = true -> names kw line -> occurs_ci kw line)
  /\ (names (lit "CLARITY") dotless_clarity
      /\ ~ occurs_ci (lit "CLARITY") dotless_clarity
      /\ HypothesisValidatorAgent._calculate_overall_score dotless_clarity
         == 8)%Q
  /\ (HypothesisValidatorAgent._calculate_overall_score accented_clarity
      == 3)%Q.
Proof.
  split; [apply occurs_ci_names|]. split; [apply names_ascii|].
  split; [|reflexivity].
  split; [now apply names_iff|]. split; [|reflexivity].
  intros H.
  apply (occurs_ci_same_letters _ (lit "clarity") _ eq_refl) in H.
  apply (contains_lower_iff (lit "clarity") dotless_clarity eq_refl) in H.
  discriminate H.
Qed.

End ScoreAndExtraction.

(* ================================================================== *)
(** ** The score and the order of the lines; word counts *)
(* ================================================================== *)

Section OrderAndWords.

Import HypothesisValidatorAgent.

Lemma scores_of_criterion_lines lines :
  flat_map line_scores lines
  = flat_map line_scores (List.filter criterion_line lines).
Proof.
  induction lines as [|l lines IH]; [reflexivity|].
  cbn [flat_map List.filter]. unfold criterion_line at 1.
  destruct (contains_any criteria (upper l)) eqn:E.
  - cbn [flat_map]. now rewrite IH.
  - unfold line_scores at 1. now rewrite E.
Qed.

Lemma fold_sum_permutation (l l' : list Z) :
  Permutation l l' -> fold_right Z.add 0%Z l = fold_right Z.add 0%Z l'.
Proof.
  induction 1 as [| x l l' _ IH | x y l | l l' l'' _ IH1 _ IH2]; simpl; lia.
Qed.

(** X18.  The overall score depends only on the lines that name a
    criterion, not on their order nor on the other lines: two analyses
    whose criterion lines are the same up to order get the same score. *)
Theorem overall_score_ignores_order (analysis analysis' : str) :
  Permutation (List.filter criterion_line (split_lines analysis))
              (List.filter criterion_line (split_lines analysis')) ->
  _calculate_overall_score analysis = _calculate_overall_score analysis'.
Proof.
  intros Hp. rewrite !overall_score_of_scores.
  rewrite (scores_of_criterion_lines (split_lines analysis)).
  rewrite (scores_of_criterion_lines (split_lines analysis')).
  apply (Permutation_flat_map line_scores) in Hp.
  pose proof (fold_sum_permutation _ _ Hp) as Hsum.
  pose proof (Permutation_length Hp) as Hlen.
  destruct (flat_map line_scores (List.filter criterion_line (split_lines analysis)))
    as [|v l];
    destruct (flat_map line_scores (List.filter criterion_line (split_lines analysis')))
    as [|v' l']; try discriminate; [reflexivity|].
  unfold mean. now rewrite Hsum, Hlen.
Qed.

Lemma overall_score_ignores_order_witness :
  Permutation
    (List.filter criterion_line
       (split_lines (lit "CLARITY: 8" ++ [newline] ++ lit "TESTABILITY: 6")))
    (List.filter criterion_line
       (split_lines (lit "TESTABILITY: 6" ++ [newline] ++ lit "no score here"
                     ++ [newline] ++ lit "CLARITY: 8")))
  /\ _calculate_overall_score
       (lit "CLARITY: 8" ++ [newline] ++ lit "TESTABILITY: 6")
     = _calculate_overall_score
         (lit "TESTABILITY: 6" ++ [newline] ++ lit "no score here"
          ++ [newline] ++ lit "CLARITY: 8").
Proof.
  assert (Hp : Permutation
                 (List.filter criterion_line
                    (split_lines (lit "CLARITY: 8" ++ [newline] ++ lit "TESTABILITY: 6")))
                 (List.filter criterion_line
                    (split_lines (lit "TESTABILITY: 6" ++ [newline]
                                  ++ lit "no score here"
                                  ++ [newline] ++ lit "CLARITY: 8")))).
  { apply perm_swap. }
  split; [exact Hp|].
  exact (overall_score_ignores_order _ _ Hp).
Defined.

Lemma count_words_after_space iw a sp b :
  is_space sp = true ->
  count_words iw (a ++ sp :: b) = count_words iw a + count_words false b.
Proof.
  intros Hsp. revert iw; induction a as [|c a IH]; intros iw.
  - simpl. now rewrite Hsp.
  - cbn [app count_words].
    destruct (is_space c); [apply IH|].
    destruct iw; [apply IH|]. now rewrite IH.
Qed.

(** X19.  The word count stored with a draft is zero exactly for a blank
    text, and the count of two texts joined by a white-space character is
    the sum of their counts. *)
Theorem word_count_blank_and_join (a b : str) (sp : char) :
  is_space sp = true ->
  (word_count a = 0 <-> truthy (strip a) = false)
  /\ word_count (a ++ sp :: b) = word_count a + word_count b.
Proof.
  intros Hsp. split; [|exact (count_words_after_space false a sp b Hsp)].
  rewrite strip_truthy. unfold word_count.
  induction a as [|c a IH]; [simpl; tauto|].
  cbn [count_words forallb].
  destruct (is_space c); [exact IH|].
  simpl. split; discriminate.
Qed.

Lemma word_count_blank_and_join_witness :
  is_space 32%N = true
  /\ word_count (lit "Sleep helps" ++ 32%N :: lit "memory a lot") = 2 + 3.
Proof.
  split; [reflexivity|].
  exact (proj2 (word_count_blank_and_join (lit "Sleep helps") (lit "memory a lot")
                  32%N eq_refl)).
Defined.

End OrderAndWords.

(* ================================================================== *)
(** ** Lists without their header; the store after a sequence of tasks *)
(* ================================================================== *)

Section HeadersAndSequences.

Lemma section_lines_no_header header closing lines :
  Forall (fun l => header l = false) lines ->
  section_lines header closing false lines = [].
Proof.
  induction 1 as [|l lines Hl _ IH]; [reflexivity|].
  cbn [section_lines]. rewrite Hl. now destruct (closing l).
Qed.

(** X20.  Without a header there is no list: when no line of the
    response names IMPROVEMENTS or CORRECTIONS (whatever the letter case:
    neither word occurs in the upper-cased line) the improvements are the
    empty list, whatever bullets the response has; when no line names
    SUGGESTIONS the suggestions are the empty list. *)
Theorem lists_empty_without_header (response : str) :
  ((forall line, In line (split_lines response) ->
                 ~ names (lit "IMPROVEMENTS") line
                 /\ ~ names (lit "CORRECTIONS") line) ->
   DraftPolisherAgent._extract_improvements response = [])
  /\ ((forall line, In line (split_lines response) ->
                    ~ names (lit "SUGGESTIONS") line) ->
      DraftPolisherAgent._extract_suggestions response = []).
Proof.
  split; intros Hno.
  - unfold DraftPolisherAgent._extract_improvements.
    rewrite improvements_loop_section, section_lines_no_header; [reflexivity|].
    apply Forall_forall. intros line Hin. destruct (Hno line Hin) as [H1 H2].
    unfold improvements_header.
    apply names_false in H1, H2. now rewrite H1, H2.
  - unfold DraftPolisherAgent._extract_suggestions.
    rewrite suggestions_loop_section, section_lines_no_header; [reflexivity|].
    apply Forall_forall. intros line Hin.
    unfold suggestions_header.
    apply names_false. exact (Hno line Hin).
Qed.

Lemma lists_empty_without_header_witness :
  (forall line,
      In line (split_lines (lit "Changes:" ++ [newline] ++ lit "- Fixed a typo")) ->
      ~ names (lit "IMPROVEMENTS") line /\ ~ names (lit "CORRECTIONS") line)
  /\ DraftPolisherAgent._extract_improvements
       (lit "Changes:" ++ [newline] ++ lit "- Fixed a typo") = [].
Proof.
  assert (Hno : forall line,
             In line (split_lines (lit "Changes:" ++ [newline] ++ lit "- Fixed a typo")) ->
             ~ names (lit "IMPROVEMENTS") line
             /\ ~ names (lit "CORRECTIONS") line).
  { intros line [<-|[<-|[]]]; split; apply names_false; reflexivity. }
  split; [exact Hno|].
  exact (proj1 (lists_empty_without_header
                  (lit "Changes:" ++ [newline] ++ lit "- Fixed a typo")) Hno).
Defined.

Lemma run_task_store T t w w' :
  run_task T t w = Ok tt w' ->
  research_question (memory_of w')
  = question_after (research_question (memory_of w)) [t]
  /\ citations (memory_of w') = citations (memory_of w) ++ stored_citations t
  /\ notes (memory_of w') = notes (memory_of w) ++ stored_notes t.
Proof.
  intros H. apply run_task_completes in H.
  destruct t as [inp | cs | h q | q c | d p a | v1 v2];
    cbn [question_after fold_left stored_citations stored_notes].
  - rewrite (memory_of_document _ _ H). unfold review_document.
    now rewrite reviewed_research_question, reviewed_citations, reviewed_notes.
  - rewrite (memory_of_same_disk _ _ H), !app_nil_r. repeat split.
  - rewrite (memory_of_document _ _ H). unfold validation_document.
    cbn. rewrite !app_nil_r. repeat split.
  - rewrite (memory_of_same_disk _ _ H), !app_nil_r. repeat split.
  - rewrite (memory_of_document _ _ H). unfold draft_document.
    cbn. rewrite !app_nil_r. repeat split.
  - rewrite (memory_of_same_disk _ _ H), !app_nil_r. repeat split.
Qed.

Lemma run_tasks_store T ts :
  forall w w',
    run_tasks T ts w = Ok tt w' ->
    research_question (memory_of w')
    = question_after (research_question (memory_of w)) ts
    /\ citations (memory_of w')
       = citations (memory_of w) ++ List.concat (List.map stored_citations ts)
    /\ notes (memory_of w')
       = notes (memory_of w) ++ List.concat (List.map stored_notes ts).
Proof.
  induction ts as [|t rest IH]; intros w w' H.
  - injection H as <-. cbn. rewrite !app_nil_r. repeat split.
  - apply run_tasks_cons_inv in H as (w1 & H1 & Hrest).
    destruct (run_task_store T t w w1 H1) as (Hq & Hc & Hn).
    destruct (IH w1 w' Hrest) as (Hq' & Hc' & Hn').
    rewrite Hq', Hc', Hn', Hq, Hc, Hn. cbn [List.map List.concat].
    rewrite <- !app_assoc. repeat split.
Qed.

(** X21.  After any sequence of tasks that complete, the stored research
    question is the last non-empty one that a literature review supplied
    (the one stored before, if there was none): validations, polishes and
    the read-only operations never change it, and an empty question never
    erases it. *)
Theorem research_question_is_latest (T : templates) (ts : list task)
        (w w' : world) :
  run_tasks T ts w = Ok tt w' ->
  research_question (memory_of w')
  = question_after (research_question (memory_of w)) ts.
Proof.
  intros H. exact (proj1 (run_tasks_store T ts w w' H)).
Qed.

Lemma research_question_is_latest_witness :
  exists w',
    run_tasks plain_templates
              [LiteratureReview one_citation;
               HypothesisValidation (lit "Naps help") (lit "Another question");
               LiteratureReview two_citations]
              stored_world
    = Ok tt w'
    /\ research_question (memory_of w') = lit "X".
Proof.
  assert (E : exists w',
             run_tasks plain_templates
                       [LiteratureReview one_citation;
                        HypothesisValidation (lit "Naps help")
                                             (lit "Another question");
                        LiteratureReview two_citations]
                       stored_world = Ok tt w').
  { vm_compute. eexists. reflexivity. }
  destruct E as (w' & E). exists w'. split; [exact E|].
  exact (research_question_is_latest plain_templates
           [LiteratureReview one_citation;
            HypothesisValidation (lit "Naps help") (lit "Another question");
            LiteratureReview two_citations]
           stored_world w' E).
Defined.

(** X22.  After any sequence of tasks that complete, the stored citations
    (and notes) are those stored before followed by the lists that the
    literature reviews of the sequence supplied, in order.  Nothing else
    is stored: the citations given to a source analysis are not kept. *)
Theorem only_reviews_store_citations (T : templates) (ts : list task)
        (w w' : world) :
  run_tasks T ts w = Ok tt w' ->
  citations (memory_of w')
  = citations (memory_of w) ++ List.concat (List.map stored_citations ts)
  /\ notes (memory_of w')
     = notes (memory_of w) ++ List.concat (List.map stored_notes ts).
Proof.
  intros H. exact (proj2 (run_tasks_store T ts w w' H)).
Qed.

Lemma only_reviews_store_citations_witness :
  exists w',
    run_tasks plain_templates
              [SourceAnalysis [lit "Z"];
               LiteratureReview two_citations;
               DraftPolish (lit "draft") (lit "grammar") (lit "academic");
               LiteratureReview one_citation]
              first_world
    = Ok tt w'
    /\ citations (memory_of w') = [lit "A"; lit "B"; lit "C"]
    /\ notes (memory_of w') = [lit "n"].
Proof.
  assert (E : exists w',
             run_tasks plain_templates
                       [SourceAnalysis [lit "Z"];
                        LiteratureReview two_citations;
                        DraftPolish (lit "draft") (lit "grammar") (lit "academic");
                        LiteratureReview one_citation]
                       first_world = Ok tt w').
  { vm_compute. eexists. reflexivity. }
  destruct E as (w' & E). exists w'. split; [exact E|].
  exact (only_reviews_store_citations plain_templates
           [SourceAnalysis [lit "Z"];
            LiteratureReview two_citations;
            DraftPolish (lit "draft") (lit "grammar") (lit "academic");
            LiteratureReview one_citation]
           first_world w' E).
Defined.

End HeadersAndSequences.

